(** * TrueMoney: import normalisation and financial analytics

    A shallow embedding of the services of the TrueMoney application
    ([IntelligenceService], [FileImportService] and the analysis actions of
    [useFinanceStore]) together with the properties of their specification.

    Conventions of the embedding.
    - A JavaScript string is the list of its UTF-16 code units ([str]).
    - A JavaScript number is an IEEE 754 binary64 value ([float], Rocq's
      primitive floats), so sums, quotients, NaN and the infinities are the
      ones the program computes.
    - A [Date] is its time value, the number of milliseconds since the epoch
      ([Z]); calendar fields are read in UTC.
    - [Date.now()] and [new Date()] read the clock; the clock reading is an
      explicit argument [now] of every function that reads it. *)

From Stdlib Require Import ZArith NArith List Bool Ascii String DecimalString Lia.
From Stdlib Require Import Sorting.Sorted Sorting.Permutation.
From Stdlib Require Import Floats.PrimFloat Floats.SpecFloat Floats.FloatOps.
From Stdlib Require Import Floats.FloatAxioms.
From Stdlib Require DecimalPos DecimalZ.
From stdpp Require Import gmap.
Import ListNotations.

Set Warnings "-inexact-float".
Local Open Scope bool_scope.

(** ** JavaScript strings *)

Module JsString.

Definition char := N.
Definition str := list char.

Definition byte_of (a : ascii) : N := N_of_ascii a.

(** Decoding of a UTF-8 byte sequence (the encoding of this file and of the
    TypeScript sources) into UTF-16 code units. *)
Fixpoint utf8_decode (l : list N) : str :=
  match l with
  | [] => []
  | b0 :: r0 =>
    if (b0 <? 128)%N then b0 :: utf8_decode r0
    else
      match r0 with
      | [] => [b0]
      | b1 :: r1 =>
        if (b0 <? 224)%N then
          ((b0 - 192) * 64 + (b1 - 128))%N :: utf8_decode r1
        else
          match r1 with
          | [] => [b0; b1]
          | b2 :: r2 =>
            if (b0 <? 240)%N then
              ((b0 - 224) * 4096 + (b1 - 128) * 64 + (b2 - 128))%N
                :: utf8_decode r2
            else
              match r2 with
              | [] => [b0; b1; b2]
              | b3 :: r3 =>
                let cp := ((b0 - 240) * 262144 + (b1 - 128) * 4096
                           + (b2 - 128) * 64 + (b3 - 128))%N in
                let v := (cp - 65536)%N in
                (55296 + v / 1024)%N :: (56320 + v mod 1024)%N
                  :: utf8_decode r3
              end
          end
      end
  end.

(** A string literal of the source. *)
Definition js (s : string) : str :=
  utf8_decode (List.map byte_of (list_ascii_of_string s)).

Definition ch (a : ascii) : char := byte_of a.

Definition QUOTE : char := 34%N.
Definition COMMA : char := 44%N.
Definition NEWLINE : char := 10%N.
Definition SPACE : char := 32%N.

Definition str_eqb (a b : str) : bool :=
  bool_decide (a = b).

(** [s.startsWith(p)] *)
Fixpoint startsWith (p s : str) : bool :=
  match p, s with
  | [], _ => true
  | _ :: _, [] => false
  | a :: p', b :: s' => (a =? b)%N && startsWith p' s'
  end.

(** [s.includes(sub)] *)
Fixpoint includes (s sub : str) : bool :=
  startsWith sub s ||
  match s with
  | [] => false
  | _ :: s' => includes s' sub
  end.

(** [String.prototype.toLowerCase]. The mapping is written out for the
    Basic Latin and Latin-1 letters and for the two other characters whose
    lower case contains a Basic Latin letter (U+212A KELVIN SIGN, and
    U+0130, which becomes "i" followed by U+0307); every other code unit is
    kept. Lower-casing a character left out here never produces a Basic
    Latin letter, so searches for ASCII keywords are unaffected. *)
Definition lower_char (c : char) : str :=
  if (65 <=? c)%N && (c <=? 90)%N then [(c + 32)%N]
  else if (192 <=? c)%N && (c <=? 222)%N && negb (c =? 215)%N then [(c + 32)%N]
  else if (c =? 8490)%N then [107%N]
  else if (c =? 304)%N then [105%N; 775%N]
  else [c].

Definition toLowerCase (s : str) : str :=
  List.flat_map lower_char s.

(** The characters matched by [\s] in a regular expression, which are also
    the ones removed by [trim]: WhiteSpace and LineTerminator. *)
Definition isSpace (c : char) : bool :=
  ((9 <=? c) && (c <=? 13) || (c =? 32) || (c =? 160) || (c =? 5760)
   || (8192 <=? c) && (c <=? 8202) || (c =? 8232) || (c =? 8233)
   || (c =? 8239) || (c =? 8287) || (c =? 12288) || (c =? 65279))%N.

Fixpoint trimStart (s : str) : str :=
  match s with
  | [] => []
  | c :: s' => if isSpace c then trimStart s' else s
  end.

Definition trimEnd (s : str) : str :=
  rev (trimStart (rev s)).

(** [s.trim()] *)
Definition trim (s : str) : str :=
  trimEnd (trimStart s).

(** [parts.join(sep)] *)
Fixpoint join (sep : str) (parts : list str) : str :=
  match parts with
  | [] => []
  | [p] => p
  | p :: rest => p ++ sep ++ join sep rest
  end.

(** [s.split(c)] for a one-character separator: never empty. *)
Fixpoint split_go (c : char) (cur : str) (s : str) : list str :=
  match s with
  | [] => [rev cur]
  | x :: s' =>
    if (x =? c)%N then rev cur :: split_go c [] s'
    else split_go c (x :: cur) s'
  end.

Definition split (c : char) (s : str) : list str :=
  split_go c [] s.

(** A string in a boolean position: the empty string is falsy. *)
Definition truthy (s : str) : bool :=
  match s with [] => false | _ => true end.

Definition isDigit (c : char) : bool :=
  ((48 <=? c) && (c <=? 57))%N.

(** Decimal rendering of an integer, as in a template literal. *)
Definition ofZ (z : Z) : str :=
  List.map byte_of
    (list_ascii_of_string (DecimalString.NilZero.string_of_int (Z.to_int z))).

Definition ofNat (n : nat) : str :=
  ofZ (Z.of_nat n).

End JsString.

Export JsString.

(** ** Data model ([types/index.ts]) *)

Module Types.

Inductive TransactionCategory :=
  | food | transportation | entertainment | utilities | rent | healthcare
  | shopping | education | salary | investment | other.

Inductive TransactionType := income | expense.

Inductive Priority := low | medium | high.

Inductive InsightType := warning | suggestion | achievement.

Inductive Frequency := weekly | biweekly | monthly | irregular.

Inductive Trend := increasing | decreasing | stable.

#[global] Instance TransactionCategory_eq_dec : EqDecision TransactionCategory.
Proof. solve_decision. Defined.

#[global] Instance TransactionType_eq_dec : EqDecision TransactionType.
Proof. solve_decision. Defined.

#[global] Instance Priority_eq_dec : EqDecision Priority.
Proof. solve_decision. Defined.

(** A [Date]: milliseconds since the epoch. *)
Definition Date := Z.

Record Transaction := {
  t_id : str;
  t_accountId : str;
  t_date : Date;
  t_description : str;
  t_amount : float;
  t_type : TransactionType;
  t_category : TransactionCategory;
  t_isRecurring : bool;
  t_merchantName : option str;
  t_location : option str;
  t_notes : option str
}.

Record Budget := {
  b_id : str;
  b_category : TransactionCategory;
  b_monthlyLimit : float;
  b_dailyLimit : float;
  b_currentSpent : float;
  b_alerts : bool
}.

Record FinancialInsight := {
  i_id : str;
  i_type : InsightType;
  i_title : str;
  i_description : str;
  i_category : option TransactionCategory;
  i_potentialSavings : option float;
  i_actionable : bool;
  i_priority : Priority;
  i_createdAt : Date
}.

Record SpendingPattern := {
  sp_category : TransactionCategory;
  sp_averageMonthly : float;
  sp_trend : Trend;
  sp_unusualActivity : bool;
  sp_recurringExpenses : list Transaction
}.

Record IncomePattern := {
  ip_source : str;
  ip_averageMonthly : float;
  ip_frequency : Frequency;
  ip_nextExpectedDate : option Date;
  ip_consistency : float
}.

Record DailyBudget := {
  db_date : Date;
  db_availableToSpend : float;
  db_spent : float;
  db_remaining : float;
  db_percentageUsed : float
}.

(** [a || b] on an optional string: the first operand unless it is
    [undefined] or empty. *)
Definition orElse (a : option str) (b : str) : str :=
  match a with
  | Some s => if truthy s then s else b
  | None => b
  end.

End Types.

Export Types.

(** ** The transaction categorizer ([IntelligenceService.categorizeTransaction]) *)

Module Categorizer.

(** The text the keywords are searched in. *)
Definition categorizeText (description : str) (merchantName : option str) : str :=
  toLowerCase (description ++ js " " ++ orElse merchantName []).

Definition categorizeTransaction (description : str) (merchantName : option str)
  : TransactionCategory :=
  let text := categorizeText description merchantName in
  if includes text (js "restaurant") ||
     includes text (js "food") ||
     includes text (js "cafe") ||
     includes text (js "coffee") ||
     includes text (js "pizza") ||
     includes text (js "burger") ||
     includes text (js "grocery") ||
     includes text (js "supermarket") ||
     includes text (js "market")
  then food
  else if
     includes text (js "uber") ||
     includes text (js "lyft") ||
     includes text (js "gas") ||
     includes text (js "fuel") ||
     includes text (js "parking") ||
     includes text (js "transit") ||
     includes text (js "metro") ||
     includes text (js "bus")
  then transportation
  else if
     includes text (js "netflix") ||
     includes text (js "spotify") ||
     includes text (js "hulu") ||
     includes text (js "disney") ||
     includes text (js "hbo") ||
     includes text (js "movie") ||
     includes text (js "theater") ||
     includes text (js "concert") ||
     includes text (js "game")
  then entertainment
  else if
     includes text (js "electric") ||
     includes text (js "water") ||
     includes text (js "gas utility") ||
     includes text (js "internet") ||
     includes text (js "phone") ||
     includes text (js "cable")
  then utilities
  else if
     includes text (js "rent") || includes text (js "lease") ||
     includes text (js "mortgage")
  then rent
  else if
     includes text (js "pharmacy") ||
     includes text (js "doctor") ||
     includes text (js "hospital") ||
     includes text (js "medical") ||
     includes text (js "health")
  then healthcare
  else if
     includes text (js "amazon") ||
     includes text (js "walmart") ||
     includes text (js "target") ||
     includes text (js "store") ||
     includes text (js "shop")
  then shopping
  else if
     includes text (js "salary") ||
     includes text (js "payroll") ||
     includes text (js "direct deposit") ||
     includes text (js "payment received")
  then salary
  else other.

(** The ordered cascade as a table: the keyword sets in the order the
    function tests them, each with its category. *)
Definition cascade : list (list str * TransactionCategory) :=
  [ (List.map js ["restaurant"; "food"; "cafe"; "coffee"; "pizza"; "burger";
                  "grocery"; "supermarket"; "market"]%string, food);
    (List.map js ["uber"; "lyft"; "gas"; "fuel"; "parking"; "transit";
                  "metro"; "bus"]%string, transportation);
    (List.map js ["netflix"; "spotify"; "hulu"; "disney"; "hbo"; "movie";
                  "theater"; "concert"; "game"]%string, entertainment);
    (List.map js ["electric"; "water"; "gas utility"; "internet"; "phone";
                  "cable"]%string, utilities);
    (List.map js ["rent"; "lease"; "mortgage"]%string, rent);
    (List.map js ["pharmacy"; "doctor"; "hospital"; "medical";
                  "health"]%string, healthcare);
    (List.map js ["amazon"; "walmart"; "target"; "store"; "shop"]%string,
     shopping);
    (List.map js ["salary"; "payroll"; "direct deposit";
                  "payment received"]%string, salary) ].

(** First category of a table whose keyword set has a member occurring in
    the text; [other] when there is none. *)
Fixpoint firstMatch (rules : list (list str * TransactionCategory)) (text : str)
  : TransactionCategory :=
  match rules with
  | [] => other
  | (kws, c) :: rest =>
    if existsb (includes text) kws then c else firstMatch rest text
  end.

(** Every keyword of the cascade. *)
Definition keywords : list str :=
  List.flat_map fst cascade.

Definition noKeywordMatches (text : str) : bool :=
  forallb (fun kw => negb (includes text kw)) keywords.

End Categorizer.

(** ** JavaScript numbers *)

Module JsNumber.

(** [xs.reduce((sum, x) => sum + x, 0)] *)
Definition sum (xs : list float) : float :=
  List.fold_left PrimFloat.add xs 0%float.

(** [Math.pow(x, 2)], taken as the product [x * x]. *)
Definition pow2 (x : float) : float := (x * x)%float.

(** An integer as a number. *)
Definition ofInt (z : Z) : float :=
  SF2Prim (binary_normalize prec emax z 0 false).

(** The length of an array as a number. *)
Definition ofLength (n : nat) : float :=
  ofInt (Z.of_nat n).

(** [x || 0]: NaN and the zeros are falsy. *)
Definition orZero (x : float) : float :=
  if is_nan x || (x =? 0)%float then 0%float else x.

(** The number nearest to [m * 10^e10] (ties to even), for [m >= 0]: the
    value of a decimal literal. *)
Definition ofDecimal (m : Z) (e10 : Z) : float :=
  match m with
  | Zpos p =>
    if (0 <=? e10)%Z
    then SF2Prim (binary_normalize prec emax (m * 10 ^ e10) 0 false)
    else
      match (10 ^ (- e10))%Z with
      | Zpos d =>
        SF2Prim (SFdiv prec emax (S754_finite false p 0) (S754_finite false d 0))
      | _ => nan
      end
  | _ => 0%float
  end.

(** Longest prefix of decimal digits, and what follows it. *)
Fixpoint takeDigits (s : str) : str * str :=
  match s with
  | c :: s' =>
    if isDigit c
    then let '(ds, rest) := takeDigits s' in (c :: ds, rest)
    else ([], s)
  | [] => ([], [])
  end.

Definition digitsValue (ds : str) : Z :=
  List.fold_left (fun acc c => (acc * 10 + Z.of_N (c - 48))%Z) ds 0%Z.

(** An optional sign. *)
Definition takeSign (s : str) : bool * str :=
  match s with
  | c :: s' =>
    if (c =? 45)%N then (true, s')
    else if (c =? 43)%N then (false, s')
    else (false, s)
  | [] => (false, s)
  end.

(** The exponent part of a literal, [e] or [E], an optional sign and at
    least one digit; 0 when there is none. *)
Definition takeExponent (s : str) : Z :=
  match s with
  | c :: s' =>
    if ((c =? 101) || (c =? 69))%N then
      let '(neg, s'') := takeSign s' in
      let '(ds, _) := takeDigits s'' in
      match ds with
      | [] => 0%Z
      | _ => if neg then (- digitsValue ds)%Z else digitsValue ds
      end
    else 0%Z
  | [] => 0%Z
  end.

(** The magnitude of the longest prefix that is a StrDecimalLiteral
    without sign; NaN when no prefix is one. *)
Definition parseUnsigned (s : str) : float :=
  if startsWith (js "Infinity") s then infinity
  else
    let '(ip, r1) := takeDigits s in
    let '(fp, r2) :=
      match r1 with
      | c :: r1' => if (c =? 46)%N then takeDigits r1' else ([], r1)
      | [] => ([], r1)
      end in
    match ip ++ fp with
    | [] => nan
    | ds => ofDecimal (digitsValue ds) (takeExponent r2 - Z.of_nat (length fp))
    end.

(** The global [parseFloat]: leading white space is skipped, the longest
    prefix that is a decimal literal is converted, anything after it is
    ignored. *)
Definition parseFloat (s : str) : float :=
  let '(neg, s') := takeSign (trimStart s) in
  let v := parseUnsigned s' in
  if neg then (- v)%float else v.

Definition isNaN (x : float) : bool := is_nan x.

(** [Math.abs] *)
Definition abs (x : float) : float := PrimFloat.abs x.

(** Left padding with zeros up to [n] characters. *)
Definition padZeros (n : nat) (s : str) : str :=
  List.repeat 48%N (n - length s) ++ s.

(** [x.toFixed(f)]: with [n] the integer nearest to [x * 10^f] (the larger
    one on a tie), the digits of [n] with a point before the last [f].
    Numbers of magnitude 10^21 or more are printed by JavaScript in
    exponent notation instead; that case is outside this model, which
    prints their digits. *)
Definition toFixed (x : float) (f : nat) : str :=
  match Prim2SF x with
  | S754_nan => js "NaN"
  | S754_infinity s => if s then js "-Infinity" else js "Infinity"
  | S754_zero _ =>
    if Nat.eqb f 0 then js "0" else js "0." ++ List.repeat 48%N f
  | S754_finite s m e =>
    let scaled := (Zpos m * 10 ^ Z.of_nat f)%Z in
    let n :=
      if (0 <=? e)%Z then (scaled * 2 ^ e)%Z
      else ((2 * scaled + 2 ^ (- e)) / (2 * 2 ^ (- e)))%Z in
    let ds := padZeros (S f) (ofZ n) in
    let k := (length ds - f)%nat in
    (if s then js "-" else []) ++
    (if Nat.eqb f 0 then ds else firstn k ds ++ js "." ++ skipn k ds)
  end.

End JsNumber.

Export JsNumber.

(** ** Dates

    Calendar fields of a time value, in UTC, and the functions of the
    [date-fns] library the services call. The device is taken to be in
    UTC here; [Clocked], at the end of the definitions, gives the
    analysis again with the calendar of the device as a parameter. *)

Module JsDate.

Local Open Scope Z_scope.

Definition msPerDay : Z := 86400000.

(** Day number (days since the epoch) and time within the day. *)
Definition dayOf (t : Date) : Z := t / msPerDay.
Definition timeInDay (t : Date) : Z := t mod msPerDay.

(** Day number of a civil date, [m] in 1..12, in the proleptic Gregorian
    calendar. *)
Definition daysFromCivil (y m d : Z) : Z :=
  let y' := if m <=? 2 then y - 1 else y in
  let era := y' / 400 in
  let yoe := y' - era * 400 in
  let doy := (153 * (m + (if 2 <? m then -3 else 9)) + 2) / 5 + d - 1 in
  let doe := yoe * 365 + yoe / 4 - yoe / 100 + doy in
  era * 146097 + doe - 719468.

(** Civil date (year, month in 1..12, day) of a day number. *)
Definition civilFromDays (z : Z) : Z * Z * Z :=
  let z' := z + 719468 in
  let era := z' / 146097 in
  let doe := z' - era * 146097 in
  let yoe := (doe - doe / 1460 + doe / 36524 - doe / 146096) / 365 in
  let doy := doe - (365 * yoe + yoe / 4 - yoe / 100) in
  let mp := (5 * doy + 2) / 153 in
  let d := doy - (153 * mp + 2) / 5 + 1 in
  let m := if mp <? 10 then mp + 3 else mp - 9 in
  (if m <=? 2 then yoe + era * 400 + 1 else yoe + era * 400, m, d).

Definition getFullYear (t : Date) : Z :=
  let '(y, _, _) := civilFromDays (dayOf t) in y.

(** [getMonth]: January is 0. *)
Definition getMonth (t : Date) : Z :=
  let '(_, m, _) := civilFromDays (dayOf t) in m - 1.

Definition getDate (t : Date) : Z :=
  let '(_, _, d) := civilFromDays (dayOf t) in d.

(** [new Date(year, month, day)] at [ms] milliseconds into the day; a
    month outside 0..11 or a day outside the month carries over, so that
    day 0 is the last day of the month before. *)
Definition makeDate (year month day ms : Z) : Date :=
  (daysFromCivil (year + month / 12) (month mod 12 + 1) 1 + (day - 1))
  * msPerDay + ms.

(** [d.setHours(h, m, s, ms)]: same day, given time. *)
Definition setHours (t : Date) (h m s ms : Z) : Date :=
  dayOf t * msPerDay + ((h * 60 + m) * 60 + s) * 1000 + ms.

(** [startOfMonth] of date-fns: first day of the month, midnight. *)
Definition startOfMonth (t : Date) : Date :=
  makeDate (getFullYear t) (getMonth t) 1 0.

(** [addMonths] of date-fns: the same day and time [n] months later, or
    the last day of that month when it is shorter. *)
Definition addMonths (t : Date) (n : Z) : Date :=
  let endOfDesiredMonth := makeDate (getFullYear t) (getMonth t + n + 1) 0 (timeInDay t) in
  let daysInMonth := getDate endOfDesiredMonth in
  if daysInMonth <=? getDate t then endOfDesiredMonth
  else makeDate (getFullYear endOfDesiredMonth) (getMonth endOfDesiredMonth)
                (getDate t) (timeInDay t).

(** [subMonths] of date-fns. *)
Definition subMonths (t : Date) (n : Z) : Date :=
  addMonths t (- n).

(** [format(d, 'yyyy-MM')] of date-fns. *)
Definition formatYearMonth (t : Date) : str :=
  padZeros 4 (ofZ (getFullYear t)) ++ js "-" ++ padZeros 2 (ofZ (getMonth t + 1)).

End JsDate.

Export JsDate.

(** ** Import of bank files ([FileImportService]) *)

Module FileImport.

(** Outcome of a function that may [throw new Error(msg)]. *)
Inductive result (A : Type) :=
  | Ok (a : A)
  | Throw (msg : str).

Arguments Ok {A} a.
Arguments Throw {A} msg.

Record BankPattern := {
  name : str;
  dateColumns : list str;
  descriptionColumns : list str;
  amountColumns : list str;
  typeColumn : option str;
  accountColumns : list str
}.

(** [BANK_PATTERNS] *)
Definition bankOfAmerica : BankPattern := {|
  name := js "Bank of America";
  dateColumns := [js "Posted Date"; js "Date"];
  descriptionColumns := [js "Payee"; js "Description"];
  amountColumns := [js "Amount"];
  typeColumn := None;
  accountColumns := [js "Account"] |}.

Definition chase : BankPattern := {|
  name := js "Chase";
  dateColumns := [js "Posting Date"; js "Transaction Date"];
  descriptionColumns := [js "Description"];
  amountColumns := [js "Amount"];
  typeColumn := Some (js "Type");
  accountColumns := [js "Account"] |}.

Definition wellsFargo : BankPattern := {|
  name := js "Wells Fargo";
  dateColumns := [js "Date"];
  descriptionColumns := [js "Description"; js "Merchant"];
  amountColumns := [js "Amount"];
  typeColumn := None;
  accountColumns := [js "Account Number"] |}.

Definition citi : BankPattern := {|
  name := js "Citi";
  dateColumns := [js "Date"];
  descriptionColumns := [js "Description"];
  amountColumns := [js "Debit"; js "Credit"];
  typeColumn := None;
  accountColumns := [] |}.

Definition capitalOne : BankPattern := {|
  name := js "Capital One";
  dateColumns := [js "Transaction Date"];
  descriptionColumns := [js "Description"];
  amountColumns := [js "Debit"; js "Credit"];
  typeColumn := None;
  accountColumns := [js "Account Number"] |}.

Definition amex : BankPattern := {|
  name := js "American Express";
  dateColumns := [js "Date"];
  descriptionColumns := [js "Description"];
  amountColumns := [js "Amount"];
  typeColumn := None;
  accountColumns := [js "Card Member"] |}.

Definition BANK_PATTERNS : list BankPattern :=
  [bankOfAmerica; chase; wellsFargo; citi; capitalOne; amex].

Record ImportResult := {
  transactions : list Transaction;
  errors : list str
}.

(** *** The line parser *)

Definition nextIsQuote (rest : str) : bool :=
  match rest with
  | c :: _ => (c =? QUOTE)%N
  | [] => false
  end.

(** The loop of [parseCSVLine] over the characters still to read, with
    its three variables. When a quote is doubled inside quotes the loop
    skips the second one. *)
Fixpoint parseCSVLine_loop (line : str) (result : list str) (current : str)
    (inQuotes : bool) : list str :=
  match line with
  | [] => result ++ [trim current]
  | char :: rest =>
    if (char =? QUOTE)%N then
      if inQuotes && nextIsQuote rest then
        match rest with
        | _ :: rest' => parseCSVLine_loop rest' result (current ++ [QUOTE]) inQuotes
        | [] => result ++ [trim current]
        end
      else parseCSVLine_loop rest result current (negb inQuotes)
    else if (char =? COMMA)%N && negb inQuotes then
      parseCSVLine_loop rest (result ++ [trim current]) [] inQuotes
    else parseCSVLine_loop rest result (current ++ [char]) inQuotes
  end.

Definition parseCSVLine (line : str) : list str :=
  parseCSVLine_loop line [] [] false.

(** The quoted form of a field value, as a CSV writer produces it: every
    double quote of the value is doubled and the whole is wrapped in double
    quotes. *)
Definition escapeQuotes (value : str) : str :=
  List.flat_map (fun c => if (c =? QUOTE)%N then [QUOTE; QUOTE] else [c]) value.

Definition quoteField (value : str) : str :=
  QUOTE :: escapeQuotes value ++ [QUOTE].

(** A field of a line, with the value it stands for: written as it is, or
    quoted. Only a value without quote and without comma can be written
    as it is. *)
Inductive Field :=
  | Plain (value : str)
  | Quoted (value : str).

Definition fieldValue (f : Field) : str :=
  match f with Plain value | Quoted value => value end.

Definition fieldText (f : Field) : str :=
  match f with
  | Plain value => value
  | Quoted value => quoteField value
  end.

Definition isPlainChar (c : char) : bool :=
  negb (c =? QUOTE)%N && negb (c =? COMMA)%N.

Definition fieldOk (f : Field) : bool :=
  match f with
  | Plain value => forallb isPlainChar value
  | Quoted _ => true
  end.

(** *** Detection of the bank *)

(** The six tests of [autoDetectBank], on the lower-cased header string
    and the number of headers. *)
Definition isBankOfAmerica (headerStr : str) (n : nat) : bool :=
  includes headerStr (js "posted date") && includes headerStr (js "payee").

Definition isChase (headerStr : str) (n : nat) : bool :=
  includes headerStr (js "posting date") ||
  (includes headerStr (js "type") && includes headerStr (js "description")).

Definition isWellsFargo (headerStr : str) (n : nat) : bool :=
  includes headerStr (js "wells") ||
  (includes headerStr (js "date") && includes headerStr (js "amount")
   && (n <=? 5)%nat).

Definition isCiti (headerStr : str) (n : nat) : bool :=
  includes headerStr (js "debit") && includes headerStr (js "credit")
  && includes headerStr (js "status").

Definition isCapitalOne (headerStr : str) (n : nat) : bool :=
  includes headerStr (js "transaction date") &&
  (includes headerStr (js "debit") || includes headerStr (js "credit")).

Definition isAmex (headerStr : str) (n : nat) : bool :=
  includes headerStr (js "card member") || includes headerStr (js "amex").

Definition headerString (headers : list str) : str :=
  toLowerCase (join (js ",") headers).

Definition autoDetectBank (headers : list str) : option BankPattern :=
  let headerStr := headerString headers in
  if includes headerStr (js "posted date") && includes headerStr (js "payee")
  then Some bankOfAmerica
  else if includes headerStr (js "posting date") ||
          (includes headerStr (js "type") && includes headerStr (js "description"))
  then Some chase
  else if includes headerStr (js "wells") ||
          (includes headerStr (js "date") && includes headerStr (js "amount")
           && (length headers <=? 5)%nat)
  then Some wellsFargo
  else if includes headerStr (js "debit") && includes headerStr (js "credit")
          && includes headerStr (js "status")
  then Some citi
  else if includes headerStr (js "transaction date") &&
          (includes headerStr (js "debit") || includes headerStr (js "credit"))
  then Some capitalOne
  else if includes headerStr (js "card member") || includes headerStr (js "amex")
  then Some amex
  else None.

(** The detection as an ordered rule table. *)
Definition detectionRules : list ((str -> nat -> bool) * BankPattern) :=
  [ (isBankOfAmerica, bankOfAmerica); (isChase, chase);
    (isWellsFargo, wellsFargo); (isCiti, citi);
    (isCapitalOne, capitalOne); (isAmex, amex) ].

Fixpoint firstRule (rules : list ((str -> nat -> bool) * BankPattern))
    (headerStr : str) (n : nat) : option BankPattern :=
  match rules with
  | [] => None
  | (p, b) :: rest => if p headerStr n then Some b else firstRule rest headerStr n
  end.

Definition detectBankPattern (headers : list str) (bankName : str)
  : option BankPattern :=
  let normalizedName :=
    List.filter (fun c => negb (isSpace c)) (toLowerCase bankName) in
  if includes normalizedName (js "bankofamerica") || includes normalizedName (js "boa")
  then Some bankOfAmerica
  else if includes normalizedName (js "chase") then Some chase
  else if includes normalizedName (js "wellsfargo") || includes normalizedName (js "wells")
  then Some wellsFargo
  else if includes normalizedName (js "citi") then Some citi
  else if includes normalizedName (js "capitalone") || includes normalizedName (js "capital")
  then Some capitalOne
  else if includes normalizedName (js "amex") || includes normalizedName (js "americanexpress")
  then Some amex
  else autoDetectBank headers.

(** The header list of a bank's own export, read off its schema: its
    date, description, amount, type and account columns, in that order. *)
Definition canonicalHeaders (p : BankPattern) : list str :=
  dateColumns p ++ descriptionColumns p ++ amountColumns p
  ++ match typeColumn p with Some c => [c] | None => [] end
  ++ accountColumns p.

(** *** Field normalisation *)

(** [parseAmount]: the characters of the class [[$€£¥,\s]] are removed,
    each parenthesis becomes a minus sign, and the rest goes through
    [parseFloat]; NaN becomes 0. *)
Definition isStripped (c : char) : bool :=
  ((c =? 36) || (c =? 8364) || (c =? 163) || (c =? 165) || (c =? 44))%N
  || isSpace c.

Definition isParen (c : char) : bool :=
  ((c =? 40) || (c =? 41))%N.

Definition cleanAmount (amountStr : str) : str :=
  trim (List.map (fun c => if isParen c then 45%N else c)
          (List.filter (fun c => negb (isStripped c)) amountStr)).

Definition parseAmount (amountStr : str) : float :=
  let cleaned := cleanAmount amountStr in
  let amount := parseFloat cleaned in
  if isNaN amount then 0%float else amount.

(** A plain decimal: digits, and optionally a point and more digits. *)
Definition plainDecimal (ip : str) (fp : option str) : str :=
  ip ++ match fp with Some f => 46%N :: f | None => [] end.

(** The characters a plain decimal is made of are not touched by the
    cleaning and start neither a sign nor [Infinity]. *)
Definition plainChar (c : char) : Prop :=
  isSpace c = false /\ isStripped c = false /\ isParen c = false
  /\ (c =? 45)%N = false /\ (c =? 43)%N = false /\ (c =? 73)%N = false.

(** A row: the object built from headers and values. (A header that names
    a member of [Object.prototype], such as "constructor", is outside this
    model; the columns the schemas look up are not such names.) *)
Fixpoint buildRow_from (i : nat) (headers values : list str)
    (row : gmap str str) : gmap str str :=
  match headers with
  | [] => row
  | header :: rest =>
    buildRow_from (S i) rest values
      (<[header := default [] (values !! i)]> row)
  end.

Definition buildRow (headers values : list str) : gmap str str :=
  buildRow_from 0 headers values ∅.

(** [row[col] || ''] *)
Definition rowGet (row : gmap str str) (col : str) : str :=
  default [] (row !! col).

(** [cols[i]] used as a key: [undefined] becomes the key "undefined". *)
Definition columnKey (cols : list str) (i : nat) : str :=
  default (js "undefined") (cols !! i).

Definition extractDescription (row : gmap str str) (descColumns : list str) : str :=
  let fix go cols :=
    match cols with
    | [] => []
    | col :: rest =>
      let value := rowGet row col in
      if truthy value && truthy (trim value) then trim value else go rest
    end in
  go descColumns.

Definition extractAmount (row : gmap str str) (amountColumns : list str)
    (typeColumn : option str) : float * TransactionType :=
  let typeValue :=
    match typeColumn with
    | Some c => if truthy c then rowGet row c else []
    | None => []
    end in
  if truthy typeValue then
    let typeValue := toLowerCase typeValue in
    let isDebit :=
      includes typeValue (js "debit") || includes typeValue (js "withdrawal")
      || includes typeValue (js "payment") in
    let amount := parseAmount (rowGet row (columnKey amountColumns 0)) in
    (amount, if isDebit then expense else income)
  else if (1 <? length amountColumns)%nat then
    let debit := parseAmount (rowGet row (columnKey amountColumns 0)) in
    let credit := parseAmount (rowGet row (columnKey amountColumns 1)) in
    if (0 <? debit)%float then (debit, expense)
    else if (0 <? credit)%float then (credit, income)
    else (0%float, expense)
  else
    let amount := parseAmount (rowGet row (columnKey amountColumns 0)) in
    (abs amount, if (amount <? 0)%float then expense else income).

(** *** Merchant name *)

Definition upperAscii (c : char) : char :=
  if ((97 <=? c) && (c <=? 122))%N then (c - 32)%N else c.

(** A match of an upper-case ASCII word at the start of [s], ignoring
    case: what follows the word. *)
Fixpoint stripWord (word s : str) : option str :=
  match word, s with
  | [], _ => Some s
  | _ :: _, [] => None
  | w :: word', c :: s' =>
    if (upperAscii c =? w)%N then stripWord word' s' else None
  end.

Definition typeTokens : list str :=
  List.map js ["DEBIT"; "CREDIT"; "ACH"; "CHECK"; "TRANSFER"; "PAYMENT";
               "WITHDRAWAL"; "DEPOSIT"]%string.

(** [replace(/^(DEBIT|...|DEPOSIT)\s*/i, '')] *)
Definition stripTypeToken (s : str) : str :=
  let fix go tokens :=
    match tokens with
    | [] => s
    | w :: rest =>
      match stripWord w s with
      | Some s' => trimStart s'
      | None => go rest
      end
    end in
  go typeTokens.

(** [replace(/\d{4,}/g, '')]: [run] is the digit run being read, kept
    when it ends with fewer than four digits. *)
Fixpoint stripLongNumbers_go (s : str) (run : str) : str :=
  match s with
  | [] => if (length run <? 4)%nat then run else []
  | c :: s' =>
    if isDigit c then stripLongNumbers_go s' (run ++ [c])
    else (if (length run <? 4)%nat then run else [])
         ++ c :: stripLongNumbers_go s' []
  end.

Definition stripLongNumbers (s : str) : str :=
  stripLongNumbers_go s [].

(** [replace(/#\d+/g, '')]: [inRef] holds while the digits after a
    removed [#] are being skipped. *)
Fixpoint stripReferences_go (s : str) (inRef : bool) : str :=
  match s with
  | [] => []
  | c :: s' =>
    if inRef && isDigit c then stripReferences_go s' true
    else if (c =? 35)%N && match s' with d :: _ => isDigit d | [] => false end
    then stripReferences_go s' true
    else c :: stripReferences_go s' false
  end.

Definition stripReferences (s : str) : str :=
  stripReferences_go s false.

(** [s.split(/\s+/)] *)
Fixpoint splitSpaces_go (s : str) (cur : str) (inGap : bool) : list str :=
  match s with
  | [] => [cur]
  | c :: s' =>
    if isSpace c then
      if inGap then splitSpaces_go s' cur true
      else cur :: splitSpaces_go s' [] true
    else splitSpaces_go s' (cur ++ [c]) false
  end.

Definition splitSpaces (s : str) : list str :=
  splitSpaces_go s [] false.

Definition extractMerchantName (description : str) : str :=
  let cleaned :=
    trim (stripReferences (stripLongNumbers (stripTypeToken description))) in
  let words := splitSpaces cleaned in
  join (js " ") (firstn 3 words).

(** *** Dates of a row

    [new Date(s)] on a string is the date parser of the JavaScript engine,
    whose accepted formats are left to the implementation; it is a
    parameter of the import, [None] standing for an invalid date. *)

Section WithDateParser.

Variable dateParse : str -> option Date.

(** A format of [parseDate]: a separator and, for each of the three
    groups of digits, the least and greatest length. *)
Definition dateFormats : list (char * list (nat * nat)) :=
  [ (47%N, [(1, 2); (1, 2); (4, 4)]);
    (47%N, [(1, 2); (1, 2); (4, 4)]);
    (45%N, [(4, 4); (1, 2); (1, 2)]);
    (45%N, [(1, 2); (1, 2); (4, 4)]) ]%nat.

Definition groupOk (g : str) (bounds : nat * nat) : bool :=
  forallb isDigit g && (fst bounds <=? length g)%nat
  && (length g <=? snd bounds)%nat.

(** [s.match(format)]: the three groups when the whole string matches. *)
Definition matchFormat (format : char * list (nat * nat)) (s : str)
  : option (str * str * str) :=
  match split (fst format) s, snd format with
  | [p1; p2; p3], [b1; b2; b3] =>
    if groupOk p1 b1 && groupOk p2 b2 && groupOk p3 b3
    then Some (p1, p2, p3) else None
  | _, _ => None
  end.

Definition parseDate (dateStr : str) : option Date :=
  let cleaned := trim dateStr in
  match dateParse cleaned with
  | Some directDate => Some directDate
  | None =>
    let fix go formats :=
      match formats with
      | [] => None
      | format :: rest =>
        match matchFormat format cleaned with
        | Some (p1, p2, p3) =>
          match dateParse (p1 ++ js "/" ++ p2 ++ js "/" ++ p3) with
          | Some date => Some date
          | None => go rest
          end
        | None => go rest
        end
      end in
    go dateFormats
  end.

Definition extractDate (row : gmap str str) (dateColumns : list str)
  : option Date :=
  let fix go cols :=
    match cols with
    | [] => None
    | col :: rest =>
      let value := rowGet row col in
      if truthy value then
        match parseDate value with
        | Some date => Some date
        | None => go rest
        end
      else go rest
    end in
  go dateColumns.

(** *** Rows and files *)

(** The amount read from the row of a line. *)
Definition rowAmount (headers : list str) (pattern : BankPattern) (line : str)
  : float :=
  fst (extractAmount (buildRow headers (parseCSVLine line))
         (amountColumns pattern) (typeColumn pattern)).

(** The row of a line has the date and the description of a transaction. *)
Definition rowDescribed (headers : list str) (pattern : BankPattern) (line : str)
  : Prop :=
  let row := buildRow headers (parseCSVLine line) in
  extractDate row (dateColumns pattern) <> None
  /\ truthy (extractDescription row (descriptionColumns pattern)) = true.


Definition parseTransaction (now : Date) (headers values : list str)
    (pattern : BankPattern) (lineNumber : nat) : result (option Transaction) :=
  let row := buildRow headers values in
  match extractDate row (dateColumns pattern) with
  | None => Throw (js "Fecha no encontrada o inválida")
  | Some date =>
    let description := extractDescription row (descriptionColumns pattern) in
    if negb (truthy description) then Throw (js "Descripción no encontrada")
    else
      let '(amount, type) :=
        extractAmount row (amountColumns pattern) (typeColumn pattern) in
      if (amount =? 0)%float then Ok None
      else
        Ok (Some {|
          t_id := js "imported-" ++ ofZ now ++ js "-" ++ ofNat lineNumber;
          t_accountId := [];
          t_date := date;
          t_description := description;
          t_amount := abs amount;
          t_type := type;
          t_category := other;
          t_isRecurring := false;
          t_merchantName := Some (extractMerchantName description);
          t_location := None;
          t_notes := None |})
  end.

(** The body of the loop of [importCSV] for the line of index [i]. *)
Definition importLine (now : Date) (headers : list str) (pattern : BankPattern)
    (i : nat) (line : str) (acc : ImportResult) : ImportResult :=
  let values := parseCSVLine line in
  if (length values <? 2)%nat then acc
  else
    match parseTransaction now headers values pattern i with
    | Ok (Some transaction) =>
      {| transactions := transactions acc ++ [transaction];
         errors := errors acc |}
    | Ok None => acc
    | Throw message =>
      {| transactions := transactions acc;
         errors := errors acc
                   ++ [js "Línea " ++ ofNat (i + 1) ++ js ": " ++ message] |}
    end.

Fixpoint importLines (now : Date) (headers : list str) (pattern : BankPattern)
    (i : nat) (lines : list str) (acc : ImportResult) : ImportResult :=
  match lines with
  | [] => acc
  | line :: rest =>
    importLines now headers pattern (S i) rest
      (importLine now headers pattern i line acc)
  end.

(** The non-blank lines of a file. *)
Definition fileLines (fileContent : str) : list str :=
  List.filter (fun line => truthy (trim line)) (split NEWLINE fileContent).

Definition importCSV (now : Date) (fileContent : str) (bankName : option str)
  : ImportResult :=
  let lines := fileLines fileContent in
  if (length lines <? 2)%nat then
    {| transactions := []; errors := [js "Archivo vacío o sin datos"] |}
  else
    match lines with
    | [] => {| transactions := []; errors := [js "Archivo vacío o sin datos"] |}
    | headerLine :: rows =>
      let headers := parseCSVLine headerLine in
      let bankPattern :=
        match bankName with
        | Some b => if truthy b then detectBankPattern headers b
                    else autoDetectBank headers
        | None => autoDetectBank headers
        end in
      match bankPattern with
      | None =>
        {| transactions := [];
           errors := [js "Formato de banco no reconocido. Por favor selecciona el banco manualmente."] |}
      | Some pattern =>
        importLines now headers pattern 1 rows
          {| transactions := []; errors := [] |}
      end
    end.

End WithDateParser.

(** [validateFile] *)
Definition validateFile (fileContent : str) : bool * option str :=
  let lines := fileLines fileContent in
  if (length lines <? 2)%nat then
    (false, Some (js "El archivo está vacío o no tiene suficientes datos"))
  else
    let headers := parseCSVLine (hd [] lines) in
    if (length headers <? 2)%nat then
      (false, Some (js "El archivo no tiene suficientes columnas"))
    else (true, None).

(** A date parser for the examples: the ISO form [YYYY-MM-DD], read as
    midnight UTC as every engine does, and nothing else. *)
Definition isoDateParse (s : str) : option Date :=
  match split 45%N s with
  | [y; m; d] =>
    if forallb isDigit y && forallb isDigit m && forallb isDigit d
       && (length y =? 4)%nat && (length m =? 2)%nat && (length d =? 2)%nat
    then
      let mv := digitsValue m in
      let dv := digitsValue d in
      let t := makeDate (digitsValue y) (mv - 1) dv 0 in
      if ((1 <=? mv) && (mv <=? 12) && (1 <=? dv)
          && (getMonth t =? mv - 1))%Z
      then Some t else None
    else None
  | _ => None
  end.

End FileImport.

(** ** Financial intelligence ([IntelligenceService]) *)

Module Intelligence.

Export Categorizer.

(** A [Map] or an object with string keys, in insertion order. *)
Definition smap (V : Type) := list (str * V).

Fixpoint mapGet {V : Type} (k : str) (m : smap V) : option V :=
  match m with
  | [] => None
  | (k', v) :: rest => if str_eqb k' k then Some v else mapGet k rest
  end.

(** [m.set(k, v)]: an existing key keeps its place. *)
Fixpoint mapSet {V : Type} (k : str) (v : V) (m : smap V) : smap V :=
  match m with
  | [] => [(k, v)]
  | (k', v') :: rest =>
    if str_eqb k' k then (k, v) :: rest else (k', v') :: mapSet k v rest
  end.

Record RecurringPattern := {
  merchantName : str;
  amount : float;
  frequency : nat
}.

(** A transaction for the examples: no account, location or notes. *)
Definition mkTransaction (date : Date) (description : str)
    (merchant : option str) (amount : float) (type : TransactionType)
    (category : TransactionCategory) : Transaction :=
  {| t_id := []; t_accountId := []; t_date := date;
     t_description := description; t_amount := amount; t_type := type;
     t_category := category; t_isRecurring := false;
     t_merchantName := merchant; t_location := None; t_notes := None |}.

(** The key a transaction is grouped under. *)
Definition merchantOf (t : Transaction) : str :=
  orElse (t_merchantName t) (t_description t).

Definition groupByMerchant (transactions : list Transaction)
  : smap (list Transaction) :=
  List.fold_left
    (fun merchantMap t =>
       let merchant := merchantOf t in
       let existing := default [] (mapGet merchant merchantMap) in
       mapSet merchant (existing ++ [t]) merchantMap)
    transactions [].

(** The transactions of a list that are grouped under the key [m]. *)
Definition merchantGroup (m : str) (transactions : list Transaction)
  : list Transaction :=
  List.filter (fun t => str_eqb (merchantOf t) m) transactions.

Definition mean (amounts : list float) : float :=
  (sum amounts / ofLength (length amounts))%float.

(** Population variance, as the function computes it. *)
Definition variance (amounts : list float) : float :=
  let avgAmount := mean amounts in
  (List.fold_left (fun sum a => sum + pow2 (a - avgAmount)) amounts 0
   / ofLength (length amounts))%float.

(** The test applied to the amounts of one merchant. *)
Definition isRecurring (amounts : list float) : bool :=
  (2 <=? length amounts)%nat
  && (variance amounts <? mean amounts * 0.1)%float.

Definition identifyRecurringTransactions (transactions : list Transaction)
  : list RecurringPattern :=
  List.flat_map
    (fun '(merchant, txs) =>
       if (length txs <? 2)%nat then []
       else
         let amounts := List.map t_amount txs in
         let avgAmount := (sum amounts / ofLength (length amounts))%float in
         let variance :=
           (List.fold_left (fun sum a => sum + pow2 (a - avgAmount)) amounts 0
            / ofLength (length amounts))%float in
         if (variance <? avgAmount * 0.1)%float then
           [ {| merchantName := merchant; amount := avgAmount;
                frequency := length txs |} ]
         else [])
    (groupByMerchant transactions).

(** A category as the string it is in the program. *)
Definition categoryString (c : TransactionCategory) : str :=
  match c with
  | food => js "food"
  | transportation => js "transportation"
  | entertainment => js "entertainment"
  | utilities => js "utilities"
  | rent => js "rent"
  | healthcare => js "healthcare"
  | shopping => js "shopping"
  | education => js "education"
  | salary => js "salary"
  | investment => js "investment"
  | other => js "other"
  end.

Definition getCategoryName (c : TransactionCategory) : str :=
  match c with
  | food => js "comida"
  | transportation => js "transporte"
  | entertainment => js "entretenimiento"
  | utilities => js "servicios"
  | rent => js "renta"
  | healthcare => js "salud"
  | shopping => js "compras"
  | education => js "educación"
  | salary => js "salario"
  | investment => js "inversión"
  | other => js "otros"
  end.

Definition isExpense (t : Transaction) : bool := bool_decide (t_type t = expense).
Definition isIncome (t : Transaction) : bool := bool_decide (t_type t = income).
Definition inCategory (c : TransactionCategory) (t : Transaction) : bool :=
  bool_decide (t_category t = c).

(** [txs.reduce((sum, t) => sum + t.amount, 0)] *)
Definition sumAmounts (txs : list Transaction) : float :=
  List.fold_left (fun sum t => (sum + t_amount t)%float) txs 0%float.

Definition detectUnnecessaryExpenses (now : Date) (transactions : list Transaction)
  : list FinancialInsight :=
  let lastMonth := subMonths now 1 in
  List.flat_map
    (fun category =>
       let categoryExpenses :=
         List.filter
           (fun t => isExpense t && inCategory category t
                     && (lastMonth <=? t_date t)%Z)
           transactions in
       if (length categoryExpenses =? 0)%nat then []
       else
         let total := sumAmounts categoryExpenses in
         (if bool_decide (category = food) then
            let smallTransactions :=
              List.filter (fun t => (t_amount t <? 15)%float) categoryExpenses in
            if (15 <? length smallTransactions)%nat then
              let smallTotal := sumAmounts smallTransactions in
              [ {| i_id := js "insight-small-food-" ++ ofZ now;
                   i_type := suggestion;
                   i_title := js "Gastos pequeños frecuentes en comida";
                   i_description :=
                     js "Has hecho " ++ ofNat (length smallTransactions)
                     ++ js " compras pequeñas de comida este mes ($"
                     ++ toFixed smallTotal 2
                     ++ js "). Considera preparar comidas en casa o comprar café en termo.";
                   i_category := Some food;
                   i_potentialSavings := Some (smallTotal * 0.6)%float;
                   i_actionable := true;
                   i_priority := medium;
                   i_createdAt := now |} ]
            else []
          else [])
         ++
         (if bool_decide (category = entertainment) then
            List.map
              (fun pattern =>
                 {| i_id := js "insight-subscription-" ++ ofZ now ++ js "-"
                            ++ merchantName pattern;
                    i_type := suggestion;
                    i_title := js "Posible suscripción no utilizada";
                    i_description :=
                      js "Tienes un cargo recurrente de $"
                      ++ toFixed (amount pattern) 2 ++ js " en "
                      ++ merchantName pattern
                      ++ js ". ¿Realmente lo estás usando?";
                    i_category := Some entertainment;
                    i_potentialSavings := Some (amount pattern * 12)%float;
                    i_actionable := true;
                    i_priority := high;
                    i_createdAt := now |})
              (identifyRecurringTransactions categoryExpenses)
          else [])
         ++
         (if bool_decide (category = shopping) && (500 <? total)%float then
            [ {| i_id := js "insight-excessive-shopping-" ++ ofZ now;
                 i_type := warning;
                 i_title := js "Gasto alto en compras";
                 i_description :=
                   js "Has gastado $" ++ toFixed total 2
                   ++ js " en compras este mes. Considera establecer un presupuesto mensual.";
                 i_category := Some shopping;
                 i_potentialSavings := Some (total * 0.3)%float;
                 i_actionable := true;
                 i_priority := high;
                 i_createdAt := now |} ]
          else []))
    [entertainment; shopping; food].

Definition detectRecurringExpenses (now : Date) (transactions : list Transaction)
  : list FinancialInsight :=
  let recurring :=
    identifyRecurringTransactions (List.filter isExpense transactions) in
  let totalRecurring := sum (List.map amount recurring) in
  if (0 <? totalRecurring)%float then
    [ {| i_id := js "insight-recurring-" ++ ofZ now;
         i_type := suggestion;
         i_title := js "Gastos recurrentes identificados";
         i_description :=
           js "Tienes $" ++ toFixed totalRecurring 2
           ++ js " en gastos recurrentes mensuales. Revisa si todos son necesarios.";
         i_category := None;
         i_potentialSavings := None;
         i_actionable := true;
         i_priority := medium;
         i_createdAt := now |} ]
  else [].

Definition detectUnusualSpending (now : Date) (transactions : list Transaction)
  : list FinancialInsight :=
  let thisMonth := startOfMonth now in
  let lastMonth := startOfMonth (subMonths now 1) in
  let twoMonthsAgo := startOfMonth (subMonths now 2) in
  List.flat_map
    (fun category =>
       let thisMonthExpenses :=
         List.filter
           (fun t => isExpense t && inCategory category t
                     && (thisMonth <=? t_date t)%Z)
           transactions in
       let lastMonthExpenses :=
         List.filter
           (fun t => isExpense t && inCategory category t
                     && (lastMonth <=? t_date t)%Z && (t_date t <? thisMonth)%Z)
           transactions in
       let twoMonthsExpenses :=
         List.filter
           (fun t => isExpense t && inCategory category t
                     && (twoMonthsAgo <=? t_date t)%Z && (t_date t <? lastMonth)%Z)
           transactions in
       let thisMonthTotal := sumAmounts thisMonthExpenses in
       let lastMonthTotal := sumAmounts lastMonthExpenses in
       let twoMonthsTotal := sumAmounts twoMonthsExpenses in
       let average := ((lastMonthTotal + twoMonthsTotal) / 2)%float in
       if (average * 1.5 <? thisMonthTotal)%float && (0 <? average)%float then
         let increase := (thisMonthTotal - average)%float in
         [ {| i_id := js "insight-unusual-" ++ categoryString category
                      ++ js "-" ++ ofZ now;
              i_type := warning;
              i_title := js "Gasto elevado en " ++ getCategoryName category;
              i_description :=
                js "Has gastado $" ++ toFixed thisMonthTotal 2 ++ js " en "
                ++ getCategoryName category ++ js " este mes, $"
                ++ toFixed increase 2 ++ js " más que tu promedio.";
              i_category := Some category;
              i_potentialSavings := None;
              i_actionable := true;
              i_priority := high;
              i_createdAt := now |} ]
       else [])
    [food; transportation; entertainment; utilities; shopping; healthcare].

Definition suggestBudgetOptimizations (now : Date) (transactions : list Transaction)
  : list FinancialInsight :=
  let thisMonth := startOfMonth now in
  let monthExpenses :=
    List.filter (fun t => isExpense t && (thisMonth <=? t_date t)%Z) transactions in
  let monthIncome :=
    List.filter (fun t => isIncome t && (thisMonth <=? t_date t)%Z) transactions in
  let totalExpenses := sumAmounts monthExpenses in
  let totalIncome := sumAmounts monthIncome in
  (if (0 <? totalIncome)%float && (0.9 <? totalExpenses / totalIncome)%float then
     [ {| i_id := js "insight-high-spending-" ++ ofZ now;
          i_type := warning;
          i_title := js "Nivel de gastos muy alto";
          i_description :=
            js "Estás gastando "
            ++ toFixed (totalExpenses / totalIncome * 100)%float 0
            ++ js "% de tus ingresos. Intenta ahorrar al menos 10-20%.";
          i_category := None;
          i_potentialSavings := None;
          i_actionable := true;
          i_priority := high;
          i_createdAt := now |} ]
   else [])
  ++
  (if (0 <? totalIncome)%float then
     let needs := (totalIncome * 0.5)%float in
     let wants := (totalIncome * 0.3)%float in
     let savings := (totalIncome * 0.2)%float in
     [ {| i_id := js "insight-budget-rule-" ++ ofZ now;
          i_type := suggestion;
          i_title := js "Aplica la regla 50/30/20";
          i_description :=
            js "Para tus ingresos de $" ++ toFixed totalIncome 2
            ++ js ", intenta: $" ++ toFixed needs 2
            ++ js " en necesidades, $" ++ toFixed wants 2
            ++ js " en deseos, y $" ++ toFixed savings 2 ++ js " en ahorros.";
          i_category := None;
          i_potentialSavings := None;
          i_actionable := true;
          i_priority := medium;
          i_createdAt := now |} ]
   else []).

Definition groupByMonth (transactions : list Transaction) : smap float :=
  List.fold_left
    (fun grouped t =>
       let monthKey := formatYearMonth (t_date t) in
       mapSet monthKey
         (orZero (default nan (mapGet monthKey grouped)) + t_amount t)%float
         grouped)
    transactions [].

Definition analyzeIncomeOpportunities (now : Date) (transactions : list Transaction)
  : list FinancialInsight :=
  let lastThreeMonths := subMonths now 3 in
  let incomeTransactions :=
    List.filter (fun t => isIncome t && (lastThreeMonths <=? t_date t)%Z)
      transactions in
  if (length incomeTransactions =? 0)%nat then []
  else
    let monthlyIncome := groupByMonth incomeTransactions in
    let incomeValues := List.map snd monthlyIncome in
    (if (2 <=? length incomeValues)%nat then
       let avgIncome := (sum incomeValues / ofLength (length incomeValues))%float in
       let variance :=
         (List.fold_left (fun sum val => sum + pow2 (val - avgIncome))
            incomeValues 0 / ofLength (length incomeValues))%float in
       if (avgIncome * 0.3 <? variance)%float then
         [ {| i_id := js "insight-income-variability-" ++ ofZ now;
              i_type := suggestion;
              i_title := js "Ingresos variables detectados";
              i_description :=
                js "Tus ingresos varían significativamente. Considera buscar fuentes de ingreso más estables o crear un fondo de emergencia.";
              i_category := None;
              i_potentialSavings := None;
              i_actionable := true;
              i_priority := medium;
              i_createdAt := now |} ]
       else []
     else [])
    ++
    (if (length incomeTransactions <? 5)%nat then
       [ {| i_id := js "insight-additional-income-" ++ ofZ now;
            i_type := suggestion;
            i_title := js "Considera ingresos adicionales";
            i_description :=
              js "Podrías mejorar tu situación financiera con un trabajo freelance, venta de artículos no usados, o inversiones.";
            i_category := None;
            i_potentialSavings := None;
            i_actionable := true;
            i_priority := low;
            i_createdAt := now |} ]
     else []).

Definition detectIncomePatterns (now : Date) (transactions : list Transaction)
  : list FinancialInsight :=
  let lastThreeMonths := subMonths now 3 in
  let incomeTransactions :=
    List.filter (fun t => isIncome t && (lastThreeMonths <=? t_date t)%Z)
      transactions in
  let sources := identifyRecurringTransactions incomeTransactions in
  if (0 <? length sources)%nat then
    let totalRecurring := sum (List.map amount sources) in
    [ {| i_id := js "insight-recurring-income-" ++ ofZ now;
         i_type := achievement;
         i_title := js "Ingresos recurrentes estables";
         i_description :=
           js "Tienes $" ++ toFixed totalRecurring 2
           ++ js " en ingresos recurrentes mensuales. ¡Buen trabajo!";
         i_category := None;
         i_potentialSavings := None;
         i_actionable := false;
         i_priority := low;
         i_createdAt := now |} ]
  else [].

(** [Array.prototype.sort] with a comparison function: a stable sort. The
    element [x] goes before the first element it does not come after. *)
Fixpoint sortInsert {A : Type} (cmp : A -> A -> Z) (x : A) (l : list A) : list A :=
  match l with
  | [] => [x]
  | y :: l' =>
    if (cmp x y <=? 0)%Z then x :: y :: l' else y :: sortInsert cmp x l'
  end.

Definition sort {A : Type} (cmp : A -> A -> Z) (l : list A) : list A :=
  List.fold_right (sortInsert cmp) [] l.

(** A comparison function that subtracts keys, [key b - key a]: greater
    keys come first. *)
Definition descendingBy {A : Type} (key : A -> Z) (a b : A) : Z :=
  (key b - key a)%Z.

Definition priorityOrder (p : Priority) : Z :=
  match p with
  | high => 3
  | medium => 2
  | low => 1
  end.

(** An insight for the examples: an id and a priority. *)
Definition mkInsight (id : str) (priority : Priority) : FinancialInsight :=
  {| i_id := id; i_type := suggestion; i_title := []; i_description := [];
     i_category := None; i_potentialSavings := None; i_actionable := true;
     i_priority := priority; i_createdAt := 0%Z |}.

(** The insights of a list that have the priority [p], in their order. *)
Definition withPriority (p : Priority) (insights : list FinancialInsight)
  : list FinancialInsight :=
  List.filter (fun i => bool_decide (i_priority i = p)) insights.

(** A list of insights goes from the highest priority to the lowest. *)
Definition priorityDescending (insights : list FinancialInsight) : Prop :=
  StronglySorted
    (fun a b => (priorityOrder (i_priority b) <= priorityOrder (i_priority a))%Z)
    insights.

(** The insights of the six detectors, in the order they are pushed. *)
Definition collectInsights (now : Date) (transactions : list Transaction)
  : list FinancialInsight :=
  detectUnnecessaryExpenses now transactions
  ++ detectRecurringExpenses now transactions
  ++ detectUnusualSpending now transactions
  ++ suggestBudgetOptimizations now transactions
  ++ analyzeIncomeOpportunities now transactions
  ++ detectIncomePatterns now transactions.

Definition byPriority (a b : FinancialInsight) : Z :=
  (priorityOrder (i_priority b) - priorityOrder (i_priority a))%Z.

Definition generateInsights (now : Date) (transactions : list Transaction)
  : list FinancialInsight :=
  sort byPriority (collectInsights now transactions).

End Intelligence.

(** ** The analysis actions of the store ([useFinanceStore]) *)

Module Store.

Export Intelligence.

(** The entries of a [Map] keyed by category, in insertion order. *)
Fixpoint categorySet {V : Type} (k : TransactionCategory) (v : V)
    (m : list (TransactionCategory * V)) : list (TransactionCategory * V) :=
  match m with
  | [] => [(k, v)]
  | (k', v') :: rest =>
    if bool_decide (k' = k) then (k, v) :: rest
    else (k', v') :: categorySet k v rest
  end.

Fixpoint categoryGet {V : Type} (k : TransactionCategory)
    (m : list (TransactionCategory * V)) : option V :=
  match m with
  | [] => None
  | (k', v) :: rest => if bool_decide (k' = k) then Some v else categoryGet k rest
  end.

Definition analyzeSpendingPatterns (now : Date) (transactions : list Transaction)
  : list SpendingPattern :=
  let thirtyDaysAgo := (now - 30 * 24 * 60 * 60 * 1000)%Z in
  let recentExpenses :=
    List.filter (fun t => isExpense t && (thirtyDaysAgo <=? t_date t)%Z)
      transactions in
  let categoryMap :=
    List.fold_left
      (fun categoryMap t =>
         let existing := default [] (categoryGet (t_category t) categoryMap) in
         categorySet (t_category t) (existing ++ [t]) categoryMap)
      recentExpenses [] in
  List.map
    (fun '(category, txs) =>
       let total := sumAmounts txs in
       {| sp_category := category;
          sp_averageMonthly := total;
          sp_trend := stable;
          sp_unusualActivity := (1000 <? total)%float;
          sp_recurringExpenses := List.filter t_isRecurring txs |})
    categoryMap.

Definition analyzeIncomePatterns (now : Date) (transactions : list Transaction)
  : list IncomePattern :=
  let ninetyDaysAgo := (now - 90 * 24 * 60 * 60 * 1000)%Z in
  let recentIncome :=
    List.filter (fun t => isIncome t && (ninetyDaysAgo <=? t_date t)%Z)
      transactions in
  List.map
    (fun '(source, txs) =>
       let total := sumAmounts txs in
       {| ip_source := source;
          ip_averageMonthly := (total / 3)%float;
          ip_frequency := monthly;
          ip_nextExpectedDate := None;
          ip_consistency := 85%float |})
    (groupByMerchant recentIncome).

Definition calculateDailyBudget (now : Date) (transactions : list Transaction)
    (budgets : list Budget) (incomePatterns : list IncomePattern) : DailyBudget :=
  let today := now in
  let startOfMonth := makeDate (getFullYear today) (getMonth today) 1 0 in
  let endOfMonth := makeDate (getFullYear today) (getMonth today + 1) 0 0 in
  let daysInMonth := getDate endOfMonth in
  let daysRemaining := (daysInMonth - getDate today + 1)%Z in
  let monthlyIncome := sum (List.map ip_averageMonthly incomePatterns) in
  let monthExpenses :=
    sumAmounts
      (List.filter
         (fun t => isExpense t && (startOfMonth <=? t_date t)%Z
                   && (t_date t <=? today)%Z)
         transactions) in
  let totalBudget := sum (List.map b_monthlyLimit budgets) in
  let remaining := (monthlyIncome - monthExpenses)%float in
  let dailyAvailable := (remaining / ofInt daysRemaining)%float in
  let todayStart := setHours today 0 0 0 0 in
  let todayEnd := setHours todayStart 23 59 59 999 in
  let todaySpent :=
    sumAmounts
      (List.filter
         (fun t => isExpense t && (todayStart <=? t_date t)%Z
                   && (t_date t <=? todayEnd)%Z)
         transactions) in
  {| db_date := todayEnd;
     db_availableToSpend := dailyAvailable;
     db_spent := todaySpent;
     db_remaining := (dailyAvailable - todaySpent)%float;
     db_percentageUsed := (todaySpent / dailyAvailable * 100)%float |}.

(** The progress shown by [DailyBudgetCircle]:
    [Math.min(dailyBudget.percentageUsed, 100)]. *)
Definition progress (b : DailyBudget) : float :=
  let p := db_percentageUsed b in
  if is_nan p then nan else if (p <? 100)%float then p else 100%float.

End Store.

(** ** Data of the examples *)

Module Examples.

Export Store.

(** 2024-03-31 12:34:56.789 UTC, and one millisecond later. *)
Definition clock1 : Date := 1711888496789%Z.
Definition clock2 : Date := 1711888496790%Z.

(** A salary received on that day. *)
Definition payroll : Transaction :=
  mkTransaction 1711888496000%Z (js "ACME PAYROLL") None 3000%float
    income salary.

(** Charges of one merchant on that day, one for each amount. *)
Definition charges (amounts : list float) : list Transaction :=
  List.map
    (fun a => mkTransaction 1711888496000%Z (js "NETFLIX.COM")
                (Some (js "Netflix")) a expense entertainment)
    amounts.

(** An income source of 29.97 a month. *)
Definition smallIncome : IncomePattern :=
  {| ip_source := js "ACME"; ip_averageMonthly := 29.97%float;
     ip_frequency := monthly; ip_nextExpectedDate := None;
     ip_consistency := 85%float |}.

End Examples.

(** ** The list actions of the store ([useFinanceStore]) *)

Module StoreActions.

Export Store.

Inductive AccountType := checking | savings | credit.

Record ApiCredentials := {
  c_accessToken : str;
  c_refreshToken : option str;
  c_expiresAt : option Date
}.

Record BankAccount := {
  a_id : str;
  a_bankName : str;
  a_accountNumber : str;
  a_accountType : AccountType;
  a_balance : float;
  a_currency : str;
  a_lastSync : Date;
  a_apiCredentials : option ApiCredentials
}.

Record FinanceState := {
  s_accounts : list BankAccount;
  s_transactions : list Transaction;
  s_budgets : list Budget;
  s_insights : list FinancialInsight;
  s_dailyBudget : option DailyBudget;
  s_spendingPatterns : list SpendingPattern;
  s_incomePatterns : list IncomePattern;
  s_isLoading : bool;
  s_error : option str
}.

Definition initialState : FinanceState := {|
  s_accounts := []; s_transactions := []; s_budgets := []; s_insights := [];
  s_dailyBudget := None; s_spendingPatterns := []; s_incomePatterns := [];
  s_isLoading := false; s_error := None |}.

(** [set({ accounts })] and its like: one field is replaced. *)
Definition setAccounts (v : list BankAccount) (s : FinanceState) : FinanceState :=
  {| s_accounts := v; s_transactions := s_transactions s;
     s_budgets := s_budgets s; s_insights := s_insights s;
     s_dailyBudget := s_dailyBudget s;
     s_spendingPatterns := s_spendingPatterns s;
     s_incomePatterns := s_incomePatterns s;
     s_isLoading := s_isLoading s; s_error := s_error s |}.

Definition setTransactions (v : list Transaction) (s : FinanceState) : FinanceState :=
  {| s_accounts := s_accounts s; s_transactions := v;
     s_budgets := s_budgets s; s_insights := s_insights s;
     s_dailyBudget := s_dailyBudget s;
     s_spendingPatterns := s_spendingPatterns s;
     s_incomePatterns := s_incomePatterns s;
     s_isLoading := s_isLoading s; s_error := s_error s |}.

Definition setBudgets (v : list Budget) (s : FinanceState) : FinanceState :=
  {| s_accounts := s_accounts s; s_transactions := s_transactions s;
     s_budgets := v; s_insights := s_insights s;
     s_dailyBudget := s_dailyBudget s;
     s_spendingPatterns := s_spendingPatterns s;
     s_incomePatterns := s_incomePatterns s;
     s_isLoading := s_isLoading s; s_error := s_error s |}.





Definition addAccount (account : BankAccount) (s : FinanceState) : FinanceState :=
  setAccounts (s_accounts s ++ [account]) s.

Definition removeAccount (id : str) (s : FinanceState) : FinanceState :=
  setTransactions
    (List.filter (fun t => negb (str_eqb (t_accountId t) id)) (s_transactions s))
    (setAccounts
       (List.filter (fun acc => negb (str_eqb (a_id acc) id)) (s_accounts s)) s).

Definition addTransaction (transaction : Transaction) (s : FinanceState)
  : FinanceState :=
  setTransactions (s_transactions s ++ [transaction]) s.

Definition removeTransaction (id : str) (s : FinanceState) : FinanceState :=
  setTransactions
    (List.filter (fun t => negb (str_eqb (t_id t) id)) (s_transactions s)) s.

Definition setBudget (budget : Budget) (s : FinanceState) : FinanceState :=
  setBudgets
    (List.filter (fun b => negb (str_eqb (b_id b) (b_id budget))) (s_budgets s)
     ++ [budget]) s.







End StoreActions.

(** ** What the screens compute *)

Module Screens.

Export StoreActions.

(** The bank identifiers offered by the import screen, with the schema
    each one names. *)
Definition banks : list (str * FileImport.BankPattern) :=
  [ (js "bankOfAmerica", FileImport.bankOfAmerica);
    (js "chase", FileImport.chase);
    (js "wellsFargo", FileImport.wellsFargo);
    (js "citi", FileImport.citi);
    (js "capitalOne", FileImport.capitalOne);
    (js "amex", FileImport.amex) ].

(** The transactions [handleImport] adds to the store: none when the file
    is refused or when the import gave only errors; otherwise the imported
    transactions, each with its category. *)
Definition handleImport (dateParse : str -> option Date) (now : Date)
    (content : str) (selectedBank : option str) : list Transaction :=
  if negb (fst (FileImport.validateFile content)) then []
  else
    let result := FileImport.importCSV dateParse now content selectedBank in
    if (0 <? length (FileImport.errors result))%nat
       && (length (FileImport.transactions result) =? 0)%nat
    then []
    else
      List.map
        (fun t =>
           {| t_id := t_id t; t_accountId := t_accountId t;
              t_date := t_date t; t_description := t_description t;
              t_amount := t_amount t; t_type := t_type t;
              t_category :=
                categorizeTransaction (t_description t) (t_merchantName t);
              t_isRecurring := t_isRecurring t;
              t_merchantName := t_merchantName t;
              t_location := t_location t; t_notes := t_notes t |})
        (FileImport.transactions result).

(** [categorizedTransactions.forEach((t) => addTransaction(t))] *)
Definition addTransactions (ts : list Transaction) (s : FinanceState)
  : FinanceState :=
  List.fold_left (fun s t => addTransaction t s) ts s.

(** The store after [handleImport]. The import never gives an
    [accountInfo], so no account is added. *)
Definition handleImportAction (dateParse : str -> option Date) (now : Date)
    (content : str) (selectedBank : option str) (s : FinanceState)
  : FinanceState :=
  addTransactions (handleImport dateParse now content selectedBank) s.

(** The list of the transactions screen: the transactions of the chosen
    type ([None] for all), newest first. *)
Definition filteredTransactions (filter : option TransactionType)
    (transactions : list Transaction) : list Transaction :=
  sort (fun a b => (t_date b - t_date a)%Z)
    (List.filter
       (fun t =>
          match filter with
          | None => true
          | Some type => bool_decide (t_type t = type)
          end)
       transactions).


(** The insights shown on the dashboard. *)
Definition highPriorityInsights (insights : list FinancialInsight) :=
  firstn 3 (List.filter (fun i => bool_decide (i_priority i = high)) insights).

End Screens.

(** ** The answers of an import *)

Module ImportShape.

Export FileImport.

(** The answers to a file that cannot be read as a statement. *)
Definition emptyFileResult : ImportResult :=
  {| transactions := []; errors := [js "Archivo vacío o sin datos"] |}.

Definition unknownBankResult : ImportResult :=
  {| transactions := [];
     errors := [js "Formato de banco no reconocido. Por favor selecciona el banco manualmente."] |}.

(** The result the loop over the rows starts from. *)
Definition startResult : ImportResult :=
  {| transactions := []; errors := [] |}.

(** The schema the import works with: the one named by the user, or the
    one detected from the headers. *)
Definition chosenPattern (headers : list str) (bankName : option str)
  : option BankPattern :=
  match bankName with
  | Some b => if truthy b then detectBankPattern headers b
              else autoDetectBank headers
  | None => autoDetectBank headers
  end.

(** The messages of a row that cannot be read. *)
Definition rowMessages : list str :=
  [js "Fecha no encontrada o inválida"; js "Descripción no encontrada"].

(** The error reported for the line of number [n]. *)
Definition lineError (n : nat) (message : str) : str :=
  js "Línea " ++ ofNat n ++ js ": " ++ message.

(** The id given to the transaction of the line of index [i]. *)
Definition importedId (now : Date) (i : nat) : str :=
  js "imported-" ++ ofZ now ++ js "-" ++ ofNat i.

(** The names an object literal inherits from [Object.prototype]. A row
    answers these names with the inherited members, and a header
    "__proto__" is not stored in it: [buildRow] stands for the row at
    the other names, which include every column of the schemas. *)
Definition objectPrototypeNames : list str :=
  List.map js
    [ "constructor"; "__proto__"; "hasOwnProperty"; "isPrototypeOf";
      "propertyIsEnumerable"; "toLocaleString"; "toString"; "valueOf";
      "__defineGetter__"; "__defineSetter__"; "__lookupGetter__";
      "__lookupSetter__" ]%string.

(** The groups of a date written with dashes, in one of the two formats
    of [parseDate] that are written so. *)
Definition dashGroups (s : str) : option (str * str * str) :=
  match matchFormat (45%N, [(4, 4); (1, 2); (1, 2)]%nat) s with
  | Some groups => Some groups
  | None => matchFormat (45%N, [(1, 2); (1, 2); (4, 4)]%nat) s
  end.

(** A date parser for the examples that reads the form [YYYY/M/D] (one
    or two digits for the month and the day) as midnight UTC, and
    nothing else; a date written with dashes and a single digit is one
    of the forms engines disagree on. *)
Definition slashDateParse (s : str) : option Date :=
  match split 47%N s with
  | [y; m; d] =>
    if forallb isDigit y && forallb isDigit m && forallb isDigit d
       && (length y =? 4)%nat
       && (1 <=? length m)%nat && (length m <=? 2)%nat
       && (1 <=? length d)%nat && (length d <=? 2)%nat
    then
      let mv := digitsValue m in
      let dv := digitsValue d in
      let t := makeDate (digitsValue y) (mv - 1) dv 0 in
      if ((1 <=? mv) && (mv <=? 12) && (1 <=? dv)
          && (getMonth t =? mv - 1))%Z
      then Some t else None
    else None
  | _ => None
  end.

(** A word: a string without white space. *)
Definition noSpace (w : str) : bool :=
  forallb (fun c => negb (isSpace c)) w.

(** What holds of a transaction as the import makes it. *)
Definition freshlyImported (t : Transaction) : Prop :=
  (0 <? t_amount t)%float = true
  /\ t_description t <> []
  /\ trim (t_description t) = t_description t
  /\ t_merchantName t = Some (extractMerchantName (t_description t))
  /\ t_category t = other
  /\ t_isRecurring t = false
  /\ t_accountId t = []
  /\ t_location t = None
  /\ t_notes t = None.

End ImportShape.

(** ** The analysis with the clock and the calendar of the device

    The detectors read the clock more than once in a call ([new Date()]
    for the windows, [Date.now()] for every id) and work with the
    calendar of date-fns, in the time zone of the device. Here each
    reading of the clock is a step of the computation, and the calendar
    is a parameter. The definitions of [Intelligence] above are these at
    a clock that stands still, with the calendar of UTC. *)

Module Clocked.

Export Store.

(** The clock during a run: the reading returned to the [k]-th request
    of the run. *)
Definition Clock : Type := nat -> Date.

(** A computation that reads the clock: given the clock and the number
    of readings taken so far, its result and the number of readings
    taken after it. *)
Definition Timed (A : Type) : Type := Clock -> nat -> A * nat.

Definition ret {A : Type} (a : A) : Timed A :=
  fun _ n => (a, n).

Definition bind {A B : Type} (m : Timed A) (f : A -> Timed B) : Timed B :=
  fun clock n => let (a, n') := m clock n in f a clock n'.

(** [new Date()], [Date.now()] *)
Definition readClock : Timed Date :=
  fun clock n => (clock n, S n).

Notation "'let*' x ':=' m 'in' f" := (bind m (fun x => f))
  (at level 10, x name, m at level 100, f at level 200).

(** Two pieces of code that push to the same array, one after the
    other. *)
Definition andThen {A : Type} (m1 m2 : Timed (list A)) : Timed (list A) :=
  let* pushed1 := m1 in
  let* pushed2 := m2 in
  ret (pushed1 ++ pushed2).

(** [l.forEach(a => ...)] with a body that pushes to an array. *)
Fixpoint forEach {A B : Type} (l : list A) (body : A -> Timed (list B))
  : Timed (list B) :=
  match l with
  | [] => ret []
  | a :: rest => andThen (body a) (forEach rest body)
  end.

(** The functions of date-fns the analysis calls; they work in the time
    zone of the device. *)
Record Calendar := {
  startOfMonth : Date -> Date;
  subMonths : Date -> Z -> Date;
  formatYearMonth : Date -> str
}.

(** The calendar of a device in UTC. *)
Definition utc : Calendar := {|
  startOfMonth := JsDate.startOfMonth;
  subMonths := JsDate.subMonths;
  formatYearMonth := JsDate.formatYearMonth |}.

Section WithCalendar.

Variable cal : Calendar.

Definition detectUnnecessaryExpenses (transactions : list Transaction)
  : Timed (list FinancialInsight) :=
  let* now := readClock in
  let lastMonth := subMonths cal now 1 in
  forEach [entertainment; shopping; food]
    (fun category =>
       let categoryExpenses :=
         List.filter
           (fun t => isExpense t && inCategory category t
                     && (lastMonth <=? t_date t)%Z)
           transactions in
       if (length categoryExpenses =? 0)%nat then ret []
       else
         let total := sumAmounts categoryExpenses in
         andThen
           (if bool_decide (category = food) then
              let smallTransactions :=
                List.filter (fun t => (t_amount t <? 15)%float) categoryExpenses in
              if (15 <? length smallTransactions)%nat then
                let smallTotal := sumAmounts smallTransactions in
                let* idNow := readClock in
                ret [ {| i_id := js "insight-small-food-" ++ ofZ idNow;
                         i_type := suggestion;
                         i_title := js "Gastos pequeños frecuentes en comida";
                         i_description :=
                           js "Has hecho " ++ ofNat (length smallTransactions)
                           ++ js " compras pequeñas de comida este mes ($"
                           ++ toFixed smallTotal 2
                           ++ js "). Considera preparar comidas en casa o comprar café en termo.";
                         i_category := Some food;
                         i_potentialSavings := Some (smallTotal * 0.6)%float;
                         i_actionable := true;
                         i_priority := medium;
                         i_createdAt := now |} ]
              else ret []
            else ret [])
           (andThen
              (if bool_decide (category = entertainment) then
                 forEach (identifyRecurringTransactions categoryExpenses)
                   (fun pattern =>
                      let* idNow := readClock in
                      ret [ {| i_id := js "insight-subscription-" ++ ofZ idNow
                                       ++ js "-" ++ merchantName pattern;
                               i_type := suggestion;
                               i_title := js "Posible suscripción no utilizada";
                               i_description :=
                                 js "Tienes un cargo recurrente de $"
                                 ++ toFixed (amount pattern) 2 ++ js " en "
                                 ++ merchantName pattern
                                 ++ js ". ¿Realmente lo estás usando?";
                               i_category := Some entertainment;
                               i_potentialSavings :=
                                 Some (amount pattern * 12)%float;
                               i_actionable := true;
                               i_priority := high;
                               i_createdAt := now |} ])
               else ret [])
              (if bool_decide (category = shopping) && (500 <? total)%float then
                 let* idNow := readClock in
                 ret [ {| i_id := js "insight-excessive-shopping-" ++ ofZ idNow;
                          i_type := warning;
                          i_title := js "Gasto alto en compras";
                          i_description :=
                            js "Has gastado $" ++ toFixed total 2
                            ++ js " en compras este mes. Considera establecer un presupuesto mensual.";
                          i_category := Some shopping;
                          i_potentialSavings := Some (total * 0.3)%float;
                          i_actionable := true;
                          i_priority := high;
                          i_createdAt := now |} ]
               else ret []))).

Definition detectRecurringExpenses (transactions : list Transaction)
  : Timed (list FinancialInsight) :=
  let recurring :=
    identifyRecurringTransactions (List.filter isExpense transactions) in
  let totalRecurring := sum (List.map amount recurring) in
  if (0 <? totalRecurring)%float then
    let* idNow := readClock in
    let* created := readClock in
    ret [ {| i_id := js "insight-recurring-" ++ ofZ idNow;
             i_type := suggestion;
             i_title := js "Gastos recurrentes identificados";
             i_description :=
               js "Tienes $" ++ toFixed totalRecurring 2
               ++ js " en gastos recurrentes mensuales. Revisa si todos son necesarios.";
             i_category := None;
             i_potentialSavings := None;
             i_actionable := true;
             i_priority := medium;
             i_createdAt := created |} ]
  else ret [].

Definition detectUnusualSpending (transactions : list Transaction)
  : Timed (list FinancialInsight) :=
  let* now := readClock in
  let thisMonth := startOfMonth cal now in
  let lastMonth := startOfMonth cal (subMonths cal now 1) in
  let twoMonthsAgo := startOfMonth cal (subMonths cal now 2) in
  forEach [food; transportation; entertainment; utilities; shopping; healthcare]
    (fun category =>
       let thisMonthExpenses :=
         List.filter
           (fun t => isExpense t && inCategory category t
                     && (thisMonth <=? t_date t)%Z)
           transactions in
       let lastMonthExpenses :=
         List.filter
           (fun t => isExpense t && inCategory category t
                     && (lastMonth <=? t_date t)%Z && (t_date t <? thisMonth)%Z)
           transactions in
       let twoMonthsExpenses :=
         List.filter
           (fun t => isExpense t && inCategory category t
                     && (twoMonthsAgo <=? t_date t)%Z && (t_date t <? lastMonth)%Z)
           transactions in
       let thisMonthTotal := sumAmounts thisMonthExpenses in
       let lastMonthTotal := sumAmounts lastMonthExpenses in
       let twoMonthsTotal := sumAmounts twoMonthsExpenses in
       let average := ((lastMonthTotal + twoMonthsTotal) / 2)%float in
       if (average * 1.5 <? thisMonthTotal)%float && (0 <? average)%float then
         let increase := (thisMonthTotal - average)%float in
         let* idNow := readClock in
         ret [ {| i_id := js "insight-unusual-" ++ categoryString category
                          ++ js "-" ++ ofZ idNow;
                  i_type := warning;
                  i_title := js "Gasto elevado en " ++ getCategoryName category;
                  i_description :=
                    js "Has gastado $" ++ toFixed thisMonthTotal 2 ++ js " en "
                    ++ getCategoryName category ++ js " este mes, $"
                    ++ toFixed increase 2 ++ js " más que tu promedio.";
                  i_category := Some category;
                  i_potentialSavings := None;
                  i_actionable := true;
                  i_priority := high;
                  i_createdAt := now |} ]
       else ret []).

Definition suggestBudgetOptimizations (transactions : list Transaction)
  : Timed (list FinancialInsight) :=
  let* now := readClock in
  let thisMonth := startOfMonth cal now in
  let monthExpenses :=
    List.filter (fun t => isExpense t && (thisMonth <=? t_date t)%Z) transactions in
  let monthIncome :=
    List.filter (fun t => isIncome t && (thisMonth <=? t_date t)%Z) transactions in
  let totalExpenses := sumAmounts monthExpenses in
  let totalIncome := sumAmounts monthIncome in
  andThen
    (if (0 <? totalIncome)%float && (0.9 <? totalExpenses / totalIncome)%float then
       let* idNow := readClock in
       ret [ {| i_id := js "insight-high-spending-" ++ ofZ idNow;
                i_type := warning;
                i_title := js "Nivel de gastos muy alto";
                i_description :=
                  js "Estás gastando "
                  ++ toFixed (totalExpenses / totalIncome * 100)%float 0
                  ++ js "% de tus ingresos. Intenta ahorrar al menos 10-20%.";
                i_category := None;
                i_potentialSavings := None;
                i_actionable := true;
                i_priority := high;
                i_createdAt := now |} ]
     else ret [])
    (if (0 <? totalIncome)%float then
       let needs := (totalIncome * 0.5)%float in
       let wants := (totalIncome * 0.3)%float in
       let savings := (totalIncome * 0.2)%float in
       let* idNow := readClock in
       ret [ {| i_id := js "insight-budget-rule-" ++ ofZ idNow;
                i_type := suggestion;
                i_title := js "Aplica la regla 50/30/20";
                i_description :=
                  js "Para tus ingresos de $" ++ toFixed totalIncome 2
                  ++ js ", intenta: $" ++ toFixed needs 2
                  ++ js " en necesidades, $" ++ toFixed wants 2
                  ++ js " en deseos, y $" ++ toFixed savings 2 ++ js " en ahorros.";
                i_category := None;
                i_potentialSavings := None;
                i_actionable := true;
                i_priority := medium;
                i_createdAt := now |} ]
     else ret []).

Definition groupByMonth (transactions : list Transaction) : smap float :=
  List.fold_left
    (fun grouped t =>
       let monthKey := formatYearMonth cal (t_date t) in
       mapSet monthKey
         (orZero (default nan (mapGet monthKey grouped)) + t_amount t)%float
         grouped)
    transactions [].

Definition analyzeIncomeOpportunities (transactions : list Transaction)
  : Timed (list FinancialInsight) :=
  let* now := readClock in
  let lastThreeMonths := subMonths cal now 3 in
  let incomeTransactions :=
    List.filter (fun t => isIncome t && (lastThreeMonths <=? t_date t)%Z)
      transactions in
  if (length incomeTransactions =? 0)%nat then ret []
  else
    let monthlyIncome := groupByMonth incomeTransactions in
    let incomeValues := List.map snd monthlyIncome in
    andThen
      (if (2 <=? length incomeValues)%nat then
         let avgIncome :=
           (sum incomeValues / ofLength (length incomeValues))%float in
         let variance :=
           (List.fold_left (fun sum val => sum + pow2 (val - avgIncome))
              incomeValues 0 / ofLength (length incomeValues))%float in
         if (avgIncome * 0.3 <? variance)%float then
           let* idNow := readClock in
           ret [ {| i_id := js "insight-income-variability-" ++ ofZ idNow;
                    i_type := suggestion;
                    i_title := js "Ingresos variables detectados";
                    i_description :=
                      js "Tus ingresos varían significativamente. Considera buscar fuentes de ingreso más estables o crear un fondo de emergencia.";
                    i_category := None;
                    i_potentialSavings := None;
                    i_actionable := true;
                    i_priority := medium;
                    i_createdAt := now |} ]
         else ret []
       else ret [])
      (if (length incomeTransactions <? 5)%nat then
         let* idNow := readClock in
         ret [ {| i_id := js "insight-additional-income-" ++ ofZ idNow;
                  i_type := suggestion;
                  i_title := js "Considera ingresos adicionales";
                  i_description :=
                    js "Podrías mejorar tu situación financiera con un trabajo freelance, venta de artículos no usados, o inversiones.";
                  i_category := None;
                  i_potentialSavings := None;
                  i_actionable := true;
                  i_priority := low;
                  i_createdAt := now |} ]
       else ret []).

Definition detectIncomePatterns (transactions : list Transaction)
  : Timed (list FinancialInsight) :=
  let* now := readClock in
  let lastThreeMonths := subMonths cal now 3 in
  let incomeTransactions :=
    List.filter (fun t => isIncome t && (lastThreeMonths <=? t_date t)%Z)
      transactions in
  let sources := identifyRecurringTransactions incomeTransactions in
  if (0 <? length sources)%nat then
    let totalRecurring := sum (List.map amount sources) in
    let* idNow := readClock in
    ret [ {| i_id := js "insight-recurring-income-" ++ ofZ idNow;
             i_type := achievement;
             i_title := js "Ingresos recurrentes estables";
             i_description :=
               js "Tienes $" ++ toFixed totalRecurring 2
               ++ js " en ingresos recurrentes mensuales. ¡Buen trabajo!";
             i_category := None;
             i_potentialSavings := None;
             i_actionable := false;
             i_priority := low;
             i_createdAt := now |} ]
  else ret [].

(** The insights of the six detectors, in the order they are pushed. *)
Definition collectInsights (transactions : list Transaction)
  : Timed (list FinancialInsight) :=
  andThen (detectUnnecessaryExpenses transactions)
    (andThen (detectRecurringExpenses transactions)
       (andThen (detectUnusualSpending transactions)
          (andThen (suggestBudgetOptimizations transactions)
             (andThen (analyzeIncomeOpportunities transactions)
                (detectIncomePatterns transactions))))).

Definition generateInsights (transactions : list Transaction)
  : Timed (list FinancialInsight) :=
  let* insights := collectInsights transactions in
  ret (sort byPriority insights).

End WithCalendar.

(** *** Reading an id *)

(** The first number written in a string: its first digits, up to the
    first character after them that is not a digit. *)
Fixpoint skipToDigit (s : str) : str :=
  match s with
  | [] => []
  | c :: s' => if isDigit c then s else skipToDigit s'
  end.

Fixpoint digitsRun (s : str) : str :=
  match s with
  | [] => []
  | c :: s' => if isDigit c then c :: digitsRun s' else []
  end.

Definition idStamp (id : str) : str :=
  digitsRun (skipToDigit id).

(** An insight made between the readings [lo] and [hi] of a run: the
    number in its id is a reading of the clock, and so is its
    [createdAt]. *)
Definition stampedBy (clock : Clock) (lo hi : nat) (i : FinancialInsight)
  : Prop :=
  exists j k,
    lo <= j < hi /\ lo <= k < hi
    /\ idStamp (i_id i) = ofZ (clock j)
    /\ i_createdAt i = clock k.

(** *** What a run reads and what it makes *)

(** A computation takes its readings one after the other, and depends on
    the clock through the readings it takes only: at a clock that gives
    the same readings it gives the same result. *)
Definition wellTimed {A : Type} (m : Timed A) : Prop :=
  forall clock1 n,
    n <= snd (m clock1 n)
    /\ forall clock2,
         (forall k, n <= k < snd (m clock1 n) -> clock1 k = clock2 k) ->
         m clock2 n = m clock1 n.

(** Started after [from] readings or more, the computation makes
    insights whose id and [createdAt] are readings taken since the
    reading [lo]. *)
Definition stamps (clock : Clock) (lo from : nat)
    (m : Timed (list FinancialInsight)) : Prop :=
  forall n, from <= n ->
    n <= snd (m clock n)
    /\ List.Forall (stampedBy clock lo (snd (m clock n))) (fst (m clock n)).

(** The six detectors and [generateInsights]. *)
Definition analyses (cal : Calendar) (transactions : list Transaction)
  : list (Timed (list FinancialInsight)) :=
  [ detectUnnecessaryExpenses cal transactions;
    detectRecurringExpenses transactions;
    detectUnusualSpending cal transactions;
    suggestBudgetOptimizations cal transactions;
    analyzeIncomeOpportunities cal transactions;
    detectIncomePatterns cal transactions;
    generateInsights cal transactions ].

(** *** Clocks of the examples *)

(** A clock that stands still, and a clock that advances by a
    millisecond at every reading. *)
Definition frozen (t : Date) : Clock := fun _ => t.
Definition ticking (t : Date) : Clock := fun k => (t + Z.of_nat k)%Z.

End Clocked.

(** * Properties *)

(** ** The categorizer *)

Module CategorizerProps.

Import Categorizer.

(** The nested conditionals of the function are the table [cascade] read
    from top to bottom. *)
Lemma categorizeTransaction_cascade (d : str) (m : option str) :
  categorizeTransaction d m = firstMatch cascade (categorizeText d m).
Proof.
  unfold categorizeTransaction, cascade.
  cbn [firstMatch List.map existsb].
  now rewrite ?orb_false_r, ?orb_assoc.
Qed.

Lemma firstMatch_none (rules : list (list str * TransactionCategory)) (text : str) :
  forallb (fun kw => negb (includes text kw)) (List.flat_map fst rules) = true ->
  firstMatch rules text = other.
Proof.
  induction rules as [|[kws c] rest IH]; cbn [firstMatch List.flat_map fst].
  - reflexivity.
  - rewrite forallb_app, andb_true_iff. intros [Hk Hr].
    assert (Hex : existsb (includes text) kws = false).
    { clear -Hk. induction kws as [|k kws IHk]; cbn in *.
      - reflexivity.
      - apply andb_true_iff in Hk as [Hk1 Hk2].
        apply negb_true_iff in Hk1. rewrite Hk1. cbn. auto. }
    rewrite Hex. auto.
Qed.

Lemma firstMatch_other_inv (rules : list (list str * TransactionCategory)) (text : str) :
  List.Forall (fun r => snd r <> other) rules ->
  firstMatch rules text = other ->
  forallb (fun kw => negb (includes text kw)) (List.flat_map fst rules) = true.
Proof.
  induction 1 as [|[kws c] rest Hc _ IH]; cbn [firstMatch List.flat_map fst].
  - reflexivity.
  - destruct (existsb (includes text) kws) eqn:Hex.
    + intros ->. cbn in Hc. congruence.
    + intros Hrest. rewrite forallb_app, (IH Hrest), andb_true_r.
      clear -Hex. induction kws as [|k kws IHk]; cbn in *.
      * reflexivity.
      * apply orb_false_iff in Hex as [-> Hex2]. cbn. auto.
Qed.

Lemma cascade_never_other : List.Forall (fun r => snd r <> other) cascade.
Proof. unfold cascade. repeat constructor; discriminate. Qed.

(** The category is [other] exactly when no keyword occurs in the text. *)
Lemma categorizeTransaction_other_iff (d : str) (m : option str) :
  categorizeTransaction d m = other <->
  noKeywordMatches (categorizeText d m) = true.
Proof.
  rewrite categorizeTransaction_cascade. unfold noKeywordMatches, keywords. split.
  - apply firstMatch_other_inv, cascade_never_other.
  - apply firstMatch_none.
Qed.

(** The example of the documentation, "STARBUCKS STORE #12345" with the
    merchant "Starbucks", is not categorized as [food]: the text
    "starbucks store #12345 starbucks" holds no keyword of the [food] set
    and holds "store". *)
Lemma categorizeTransaction_starbucks_not_food :
  categorizeTransaction (js "STARBUCKS STORE #12345") (Some (js "Starbucks"))
  <> food.
Proof. vm_compute. discriminate. Qed.

(** C1. Two calls with identical arguments return the same category; the
    function is total (it returns a category on every input) and is the
    first match of the ordered cascade; it returns [other] when no keyword
    of the cascade occurs in the lower-cased text. On the examples it
    returns [entertainment] for "NETFLIX.COM" and [other] for
    "RANDOM XYZ CORP", but [shopping], where [food] is expected, for
    "STARBUCKS STORE #12345". *)
Theorem categorizeTransaction_spec (d1 d2 : str) (m1 m2 : option str) :
  d1 = d2 -> m1 = m2 ->
  categorizeTransaction d1 m1 = categorizeTransaction d2 m2
  /\ (exists c, categorizeTransaction d1 m1 = c
                /\ c = firstMatch cascade (categorizeText d1 m1))
  /\ (noKeywordMatches (categorizeText d1 m1) = true ->
      categorizeTransaction d1 m1 = other)
  /\ categorizeTransaction (js "STARBUCKS STORE #12345") (Some (js "Starbucks"))
     = shopping
  /\ categorizeTransaction (js "NETFLIX.COM") None = entertainment
  /\ categorizeTransaction (js "RANDOM XYZ CORP") None = other.
Proof.
  intros -> ->. split; [reflexivity|]. split.
  - eexists. split; [reflexivity|]. apply categorizeTransaction_cascade.
  - split; [apply categorizeTransaction_other_iff|].
    split; [|split]; vm_compute; reflexivity.
Qed.

Lemma categorizeTransaction_spec_witness :
  noKeywordMatches (categorizeText (js "RANDOM XYZ CORP") None) = true
  /\ categorizeTransaction (js "RANDOM XYZ CORP") None = other.
Proof.
  split.
  - vm_compute. reflexivity.
  - destruct (categorizeTransaction_spec (js "RANDOM XYZ CORP")
                (js "RANDOM XYZ CORP") None None eq_refl eq_refl)
      as (_ & _ & Hother & _).
    apply Hother. vm_compute. reflexivity.
Defined.

End CategorizerProps.

(** ** Detection of the bank *)

Module DetectionProps.

Import FileImport.

(** The conditionals of [autoDetectBank] are the table [detectionRules]
    read from top to bottom. *)
Lemma autoDetectBank_rules (headers : list str) :
  autoDetectBank headers
  = firstRule detectionRules (headerString headers) (length headers).
Proof. reflexivity. Qed.

Lemma firstRule_none rules (h : str) (n : nat) :
  Forall (fun r => fst r h n = false) rules -> firstRule rules h n = None.
Proof.
  induction 1 as [|[p b] rest Hp _ IH]; cbn [firstRule].
  - reflexivity.
  - cbn in Hp. rewrite Hp. exact IH.
Qed.

Lemma firstRule_first rules before p (b : BankPattern) after (h : str) (n : nat) :
  rules = before ++ (p, b) :: after ->
  Forall (fun r => fst r h n = false) before ->
  p h n = true ->
  firstRule rules h n = Some b.
Proof.
  intros -> Hbefore Hp.
  induction Hbefore as [|[q c] rest Hq _ IH]; cbn [firstRule app].
  - rewrite Hp. reflexivity.
  - cbn in Hq. rewrite Hq. exact IH.
Qed.

(** C2, as stated, fails: the header list of Citi (Date, Description,
    Debit, Credit) has no "status" and is not recognised at all. *)
Lemma autoDetectBank_citi_not_recognised :
  canonicalHeaders citi = List.map js ["Date"; "Description"; "Debit"; "Credit"]%string
  /\ autoDetectBank (List.map js ["Date"; "Description"; "Debit"; "Credit"]%string)
     <> Some citi.
Proof. split; [reflexivity|]. vm_compute. discriminate. Qed.

(** The Citi schema is only ever chosen for a header row that holds
    "status". *)
Lemma autoDetectBank_citi_needs_status (headers : list str) :
  autoDetectBank headers = Some citi ->
  includes (headerString headers) (js "status") = true.
Proof.
  unfold autoDetectBank.
  repeat match goal with
         | |- context [if ?c then _ else _] =>
           let E := fresh "E" in destruct c eqn:E
         end;
    intros H; try discriminate H;
    try (apply (f_equal (option_map name)) in H; vm_compute in H; discriminate H).
  apply andb_true_iff in E2 as [_ E2]. exact E2.
Qed.

(** The header list of American Express (Date, Description, Amount, Card
    Member) passes the earlier Wells Fargo test (a date, an amount, at
    most five columns). *)
Lemma autoDetectBank_amex_shadowed :
  canonicalHeaders amex
  = List.map js ["Date"; "Description"; "Amount"; "Card Member"]%string
  /\ autoDetectBank (canonicalHeaders amex) = Some wellsFargo.
Proof. split; vm_compute; reflexivity. Qed.

(** C2 (amended). Detection applied to the header list of a schema
    returns that schema for Bank of America, Chase, Wells Fargo and
    Capital One. The header list of Citi is not recognised: the Citi test
    also asks for "status", and no header row without it is detected as
    Citi. *)
Theorem autoDetectBank_self_recognition (headers : list str) :
  includes (headerString headers) (js "status") = false ->
  Forall (fun p => autoDetectBank (canonicalHeaders p) = Some p)
    [bankOfAmerica; chase; wellsFargo; capitalOne]
  /\ autoDetectBank (canonicalHeaders citi) = None
  /\ autoDetectBank headers <> Some citi.
Proof.
  intros Hstatus. split; [|split].
  - repeat (apply List.Forall_cons || apply List.Forall_nil);
      vm_compute; reflexivity.
  - vm_compute. reflexivity.
  - intros Hciti. apply autoDetectBank_citi_needs_status in Hciti.
    congruence.
Qed.

Lemma autoDetectBank_self_recognition_witness :
  includes (headerString (canonicalHeaders citi)) (js "status") = false
  /\ autoDetectBank (canonicalHeaders citi) <> Some citi.
Proof.
  assert (Hstatus : includes (headerString (canonicalHeaders citi)) (js "status")
                    = false) by (vm_compute; reflexivity).
  split; [exact Hstatus|].
  apply (autoDetectBank_self_recognition (canonicalHeaders citi) Hstatus).
Defined.

(** C3. The detection evaluates the six tests in the order Bank of
    America, Chase, Wells Fargo, Citi, Capital One, American Express and
    returns the schema of the first that holds: it returns the schema [b]
    of a rule whenever that rule holds and all rules before it fail, and
    [None] when all six fail. *)
Theorem autoDetectBank_ordered (headers : list str) :
  let h := headerString headers in
  let n := length headers in
  List.map snd detectionRules
  = [bankOfAmerica; chase; wellsFargo; citi; capitalOne; amex]
  /\ autoDetectBank headers = firstRule detectionRules h n
  /\ (forall before p b after,
        detectionRules = before ++ (p, b) :: after ->
        Forall (fun r => fst r h n = false) before ->
        p h n = true ->
        autoDetectBank headers = Some b)
  /\ (isBankOfAmerica h n = false -> isChase h n = false ->
      isWellsFargo h n = false -> isCiti h n = false ->
      isCapitalOne h n = false -> isAmex h n = false ->
      autoDetectBank headers = None).
Proof.
  intros h n. split; [reflexivity|]. split; [reflexivity|]. split.
  - intros before p b after Hrules Hbefore Hp.
    rewrite autoDetectBank_rules. eapply firstRule_first; eauto.
  - intros H1 H2 H3 H4 H5 H6. rewrite autoDetectBank_rules.
    apply firstRule_none. unfold detectionRules.
    repeat constructor; assumption.
Qed.

(** A header row that no test accepts, and one that reaches the fourth
    rule. *)
Lemma autoDetectBank_ordered_witness :
  autoDetectBank (List.map js ["Foo"; "Bar"]%string) = None
  /\ autoDetectBank
       (List.map js ["Status"; "Date"; "Description"; "Debit"; "Credit";
                     "Member Name"]%string)
     = Some citi.
Proof.
  split.
  - destruct (autoDetectBank_ordered (List.map js ["Foo"; "Bar"]%string))
      as (_ & _ & _ & Hnone).
    apply Hnone; vm_compute; reflexivity.
  - destruct (autoDetectBank_ordered
                (List.map js ["Status"; "Date"; "Description"; "Debit";
                              "Credit"; "Member Name"]%string))
      as (_ & _ & Hfirst & _).
    apply (Hfirst [(isBankOfAmerica, bankOfAmerica); (isChase, chase);
                   (isWellsFargo, wellsFargo)]
                  isCiti citi [(isCapitalOne, capitalOne); (isAmex, amex)]).
    + reflexivity.
    + repeat constructor; vm_compute; reflexivity.
    + vm_compute. reflexivity.
Defined.

End DetectionProps.

(** ** The line parser *)

Module ParseLineProps.

Import FileImport.

(** Inside quotes the loop reads an escaped value up to its closing quote
    and leaves the value in [current]; commas are kept, doubled quotes
    become one. *)
Lemma parseCSVLine_loop_quoted (value rest : str) (result : list str)
    (current : str) :
  nextIsQuote rest = false ->
  parseCSVLine_loop (escapeQuotes value ++ QUOTE :: rest) result current true
  = parseCSVLine_loop rest result (current ++ value) false.
Proof.
  intros Hrest. revert current.
  induction value as [|c value IH]; intros current.
  - cbn [escapeQuotes List.flat_map app parseCSVLine_loop].
    rewrite N.eqb_refl, Hrest, app_nil_r. reflexivity.
  - unfold escapeQuotes. cbn [List.flat_map].
    fold (escapeQuotes value).
    destruct (c =? QUOTE)%N eqn:Hc.
    + apply N.eqb_eq in Hc. subst c.
      cbn [app parseCSVLine_loop nextIsQuote].
      rewrite N.eqb_refl. cbn [andb].
      rewrite IH, <- app_assoc. reflexivity.
    + cbn [app parseCSVLine_loop]. rewrite Hc.
      rewrite andb_false_r.
      rewrite IH, <- app_assoc. reflexivity.
Qed.

(** A quoted field at the start of a field is read as its value. *)
Lemma parseCSVLine_loop_field (value rest : str) (result : list str) :
  nextIsQuote rest = false ->
  parseCSVLine_loop (quoteField value ++ rest) result [] false
  = parseCSVLine_loop rest result value false.
Proof.
  intros Hrest. unfold quoteField.
  cbn [app parseCSVLine_loop]. rewrite N.eqb_refl. cbn [andb negb].
  rewrite <- app_assoc. cbn [app].
  rewrite parseCSVLine_loop_quoted by exact Hrest. reflexivity.
Qed.

(** Outside quotes the loop reads a value without quote and comma as it
    is. *)
Lemma parseCSVLine_loop_plain (value rest : str) (result : list str)
    (current : str) :
  forallb isPlainChar value = true ->
  parseCSVLine_loop (value ++ rest) result current false
  = parseCSVLine_loop rest result (current ++ value) false.
Proof.
  revert current. induction value as [|c value IH]; intros current Hvalue.
  - rewrite app_nil_r. reflexivity.
  - cbn [forallb] in Hvalue. apply andb_true_iff in Hvalue as [Hc Hvalue].
    unfold isPlainChar in Hc. apply andb_true_iff in Hc as [Hq Hk].
    apply negb_true_iff in Hq, Hk.
    cbn [app parseCSVLine_loop]. rewrite Hq, Hk. cbn [andb].
    rewrite (IH _ Hvalue), <- app_assoc. reflexivity.
Qed.

(** A field, then the end of the line or a comma, leaves its value in
    [current]. *)
Lemma parseCSVLine_loop_one (f : Field) (rest : str) (result : list str) :
  fieldOk f = true ->
  nextIsQuote rest = false ->
  parseCSVLine_loop (fieldText f ++ rest) result [] false
  = parseCSVLine_loop rest result (fieldValue f) false.
Proof.
  intros Hf Hrest. destruct f as [value|value]; cbn [fieldText fieldValue].
  - apply (parseCSVLine_loop_plain value rest result [] Hf).
  - apply parseCSVLine_loop_field, Hrest.
Qed.

Lemma parseCSVLine_loop_fields (fields : list Field) (f : Field)
    (result : list str) :
  forallb fieldOk (f :: fields) = true ->
  parseCSVLine_loop (join (js ",") (List.map fieldText (f :: fields)))
    result [] false
  = result ++ List.map (fun f => trim (fieldValue f)) (f :: fields).
Proof.
  revert f result.
  induction fields as [|f' fields IH]; intros f result Hok;
    cbn [forallb] in Hok; apply andb_true_iff in Hok as [Hf Hok].
  - cbn [List.map join].
    rewrite <- (app_nil_r (fieldText f)).
    rewrite parseCSVLine_loop_one by (exact Hf || reflexivity). reflexivity.
  - change (join (js ",") (List.map fieldText (f :: f' :: fields)))
      with (fieldText f
            ++ COMMA :: join (js ",") (List.map fieldText (f' :: fields))).
    rewrite parseCSVLine_loop_one by (exact Hf || reflexivity).
    cbn [parseCSVLine_loop].
    change (COMMA =? QUOTE)%N with false.
    change (COMMA =? COMMA)%N with true. cbn [andb negb].
    rewrite (IH _ _ Hok), <- app_assoc. reflexivity.
Qed.

(** C8. The line parser is quote-aware. In a line of fields separated by
    commas, a field wrapped in double quotes is read as one field whatever
    its value holds: a comma inside the quotes does not split it, and two
    consecutive double quotes inside it are read as one quote character of
    the value. (Every field, quoted or not, is trimmed.) *)
Theorem parseCSVLine_quoted (f : Field) (fields : list Field) :
  forallb fieldOk (f :: fields) = true ->
  parseCSVLine (join (js ",") (List.map fieldText (f :: fields)))
  = List.map (fun f => trim (fieldValue f)) (f :: fields)
  /\ parseCSVLine (QUOTE :: js "a,b" ++ QUOTE :: js ",c") = [js "a,b"; js "c"]
  /\ parseCSVLine [QUOTE; 97%N; QUOTE; QUOTE; 98%N; QUOTE] = [[97%N; QUOTE; 98%N]].
Proof.
  intros Hok. split.
  - unfold parseCSVLine. rewrite parseCSVLine_loop_fields by exact Hok.
    reflexivity.
  - split; vm_compute; reflexivity.
Qed.

Lemma parseCSVLine_quoted_witness :
  parseCSVLine
    (join (js ",")
       (List.map fieldText
          [Plain (js "2024-03-01"); Quoted (js "ACME, Inc. " ++ QUOTE :: js "HQ" ++ [QUOTE]);
           Plain (js " 10.00 ")]))
  = [js "2024-03-01"; js "ACME, Inc. " ++ QUOTE :: js "HQ" ++ [QUOTE]; js "10.00"].
Proof.
  destruct (parseCSVLine_quoted (Plain (js "2024-03-01"))
              [Quoted (js "ACME, Inc. " ++ QUOTE :: js "HQ" ++ [QUOTE]);
               Plain (js " 10.00 ")])
    as [Hfields _].
  - vm_compute. reflexivity.
  - rewrite Hfields. vm_compute. reflexivity.
Defined.

End ParseLineProps.

(** ** Amounts *)

Module AmountProps.

Import FileImport.

Lemma trimStart_id (s : str) :
  match s with c :: _ => isSpace c = false | [] => True end ->
  trimStart s = s.
Proof. destruct s as [|c s]; cbn; [reflexivity|]. intros ->. reflexivity. Qed.

Lemma trim_id (s : str) :
  Forall (fun c => isSpace c = false) s -> trim s = s.
Proof.
  intros Hs. unfold trim, trimEnd.
  rewrite (trimStart_id s).
  - rewrite trimStart_id; [apply rev_involutive|].
    destruct (List.Forall_rev Hs); auto.
  - destruct Hs; auto.
Qed.

Lemma isDigit_range (c : char) : isDigit c = true -> (48 <= c <= 57)%N.
Proof.
  unfold isDigit. rewrite andb_true_iff, !N.leb_le. tauto.
Qed.

Lemma isDigit_not_space (c : char) : isDigit c = true -> isSpace c = false.
Proof.
  intros H. apply isDigit_range in H. unfold isSpace.
  repeat match goal with
         | |- context [(?a <=? ?b)%N] =>
           destruct (N.leb_spec a b); try lia
         | |- context [(?a =? ?b)%N] =>
           destruct (N.eqb_spec a b); try lia
         end; reflexivity.
Qed.

Lemma isDigit_not_stripped (c : char) : isDigit c = true -> isStripped c = false.
Proof.
  intros H. unfold isStripped. rewrite (isDigit_not_space c H).
  apply isDigit_range in H.
  repeat match goal with
         | |- context [(?a =? ?b)%N] =>
           destruct (N.eqb_spec a b); try lia
         end; reflexivity.
Qed.

Lemma isDigit_not_paren (c : char) : isDigit c = true -> isParen c = false.
Proof.
  intros H. apply isDigit_range in H. unfold isParen.
  repeat match goal with
         | |- context [(?a =? ?b)%N] =>
           destruct (N.eqb_spec a b); try lia
         end; reflexivity.
Qed.

Lemma plainChar_digit (c : char) : isDigit c = true -> plainChar c.
Proof.
  intros H. repeat split;
    auto using isDigit_not_space, isDigit_not_stripped, isDigit_not_paren;
    apply isDigit_range in H; apply N.eqb_neq; lia.
Qed.

Lemma plainChar_point : plainChar 46%N.
Proof. repeat split. Qed.

Lemma forallb_digits_plain (ds : str) :
  forallb isDigit ds = true -> Forall plainChar ds.
Proof.
  induction ds as [|d ds IH]; cbn; [constructor|].
  rewrite andb_true_iff. intros [Hd Hds].
  constructor; auto using plainChar_digit.
Qed.

Lemma plainDecimal_chars (ip : str) (fp : option str) :
  forallb isDigit ip = true ->
  match fp with Some f => forallb isDigit f = true | None => True end ->
  Forall plainChar (plainDecimal ip fp).
Proof.
  intros Hip Hfp. unfold plainDecimal. apply Forall_app. split.
  - apply forallb_digits_plain, Hip.
  - destruct fp as [f|]; [|constructor].
    constructor; [apply plainChar_point|].
    apply forallb_digits_plain, Hfp.
Qed.

(** Cleaning leaves a string of plain characters as it is, and turns the
    parentheses around it into minus signs. *)
Lemma filter_map_plain (v : str) :
  Forall plainChar v ->
  List.map (fun c => if isParen c then 45%N else c)
    (List.filter (fun c => negb (isStripped c)) v) = v.
Proof.
  induction 1 as [|c v (_ & Hs & Hp & _) _ IH]; cbn; [reflexivity|].
  rewrite Hs. cbn. rewrite Hp, IH. reflexivity.
Qed.

Lemma cleanAmount_plain (v : str) :
  Forall plainChar v -> cleanAmount v = v.
Proof.
  intros Hv. unfold cleanAmount. rewrite filter_map_plain by exact Hv.
  apply trim_id. eapply List.Forall_impl; [|exact Hv]. intros c Hc. apply Hc.
Qed.

Lemma cleanAmount_parens (v : str) :
  Forall plainChar v ->
  cleanAmount (js "(" ++ v ++ js ")") = 45%N :: v ++ [45%N].
Proof.
  intros Hv. unfold cleanAmount.
  change (js "(" ++ v ++ js ")") with ([40%N] ++ v ++ [41%N]).
  rewrite !List.filter_app, !List.map_app, (filter_map_plain v Hv).
  apply (trim_id (45%N :: v ++ [45%N])).
  constructor; [reflexivity|]. apply Forall_app. split.
  - eapply List.Forall_impl; [|exact Hv]. intros c Hc. apply Hc.
  - repeat constructor.
Qed.

Lemma takeDigits_app (ds rest : str) :
  forallb isDigit ds = true ->
  match rest with c :: _ => isDigit c = false | [] => True end ->
  takeDigits (ds ++ rest) = (ds, rest).
Proof.
  intros Hds Hrest. induction ds as [|d ds IH]; cbn [app].
  - destruct rest as [|c rest]; cbn; [reflexivity|]. rewrite Hrest. reflexivity.
  - cbn in Hds. apply andb_true_iff in Hds as [Hd Hds].
    cbn [takeDigits]. rewrite Hd, (IH Hds). reflexivity.
Qed.

Lemma startsWith_Infinity_false (s : str) :
  match s with c :: _ => (c =? 73)%N = false | [] => True end ->
  startsWith (js "Infinity") s = false.
Proof.
  destruct s as [|c s]; [reflexivity|]. intros Hc.
  change (js "Infinity") with (73%N :: js "nfinity").
  cbn [startsWith]. rewrite N.eqb_sym, Hc. reflexivity.
Qed.

(** What [parseUnsigned] reads of digits, an optional fraction and a
    remainder [rest] that continues neither. *)
Lemma parseUnsigned_plain (ip : str) (fp : option str) (rest : str) :
  forallb isDigit ip = true ->
  match fp with Some f => forallb isDigit f = true | None => True end ->
  rest = [] \/ rest = [45%N] ->
  parseUnsigned (plainDecimal ip fp ++ rest)
  = match ip ++ default [] fp with
    | [] => nan
    | ds => ofDecimal (digitsValue ds) (- Z.of_nat (length (default [] fp)))
    end.
Proof.
  intros Hip Hfp Hrest. unfold parseUnsigned.
  rewrite startsWith_Infinity_false.
  2:{ pose proof (plainDecimal_chars ip fp Hip Hfp) as Hv.
      destruct Hv as [|c v (_ & _ & _ & _ & _ & Hc) _]; cbn [app]; [|exact Hc].
      destruct Hrest as [-> | ->]; [exact I|reflexivity]. }
  unfold plainDecimal. rewrite <- app_assoc.
  destruct fp as [f|]; cbn [default].
  - cbn [app]. rewrite (takeDigits_app ip) by (auto; reflexivity).
    change (46 =? 46)%N with true. cbv iota.
    rewrite (takeDigits_app f rest).
    2: exact Hfp.
    2:{ destruct Hrest as [-> | ->]; [exact I|reflexivity]. }
    assert (Hexp : takeExponent rest = 0%Z)
      by (destruct Hrest as [-> | ->]; reflexivity).
    rewrite Hexp. reflexivity.
  - cbn [app]. rewrite (takeDigits_app ip rest).
    2: exact Hip.
    2:{ destruct Hrest as [-> | ->]; [exact I|reflexivity]. }
    destruct Hrest as [-> | ->].
    + rewrite !app_nil_r. reflexivity.
    + change (45 =? 46)%N with false. cbv iota.
      rewrite !app_nil_r. reflexivity.
Qed.

Lemma takeSign_plain (v : str) :
  Forall plainChar v -> takeSign v = (false, v).
Proof.
  intros [|c v' (_ & _ & _ & Hm & Hp & _) _]; [reflexivity|].
  cbn [takeSign]. rewrite Hm, Hp. reflexivity.
Qed.

(** A parenthesised plain decimal is read as the opposite of the decimal. *)
Lemma parseFloat_parens (ip : str) (fp : option str) :
  forallb isDigit ip = true ->
  match fp with Some f => forallb isDigit f = true | None => True end ->
  parseFloat (cleanAmount (js "(" ++ plainDecimal ip fp ++ js ")"))
  = (- parseFloat (cleanAmount (plainDecimal ip fp)))%float.
Proof.
  intros Hip Hfp.
  pose proof (plainDecimal_chars ip fp Hip Hfp) as Hv.
  rewrite cleanAmount_parens, cleanAmount_plain by exact Hv.
  unfold parseFloat.
  rewrite (trimStart_id (45%N :: _)) by reflexivity.
  rewrite (trimStart_id (plainDecimal ip fp)).
  2:{ destruct Hv as [|c v Hc _]; [exact I|apply Hc]. }
  rewrite (takeSign_plain _ Hv).
  cbn [takeSign]. change (45 =? 45)%N with true. cbv iota.
  rewrite (parseUnsigned_plain ip fp [45%N]) by auto.
  pose proof (parseUnsigned_plain ip fp [] Hip Hfp (or_introl eq_refl)) as Hplain.
  rewrite app_nil_r in Hplain. rewrite Hplain.
  reflexivity.
Qed.

Lemma cleanAmount_strip (a b : str) (c : char) :
  isStripped c = true -> cleanAmount (a ++ c :: b) = cleanAmount (a ++ b).
Proof.
  intros Hc. unfold cleanAmount.
  rewrite !List.filter_app. cbn [List.filter]. rewrite Hc. reflexivity.
Qed.

Lemma parseAmount_not_NaN (s : str) : isNaN (parseAmount s) = false.
Proof.
  unfold parseAmount.
  destruct (isNaN (parseFloat (cleanAmount s))) eqn:E; [reflexivity|exact E].
Qed.

(** C9. The amount normalisation removes the currency symbols [$ € £ ¥],
    the thousands separators and the white space wherever they stand,
    reads a parenthesised decimal as the opposite of the decimal, and
    parses the rest as a decimal number; it yields 1234.56, -45 and 10 on
    the three examples; and it yields 0 on every string that fails to
    parse (its result is never NaN). *)
Theorem parseAmount_spec (s a b : str) (c : char) (ip : str) (fp : option str) :
  isStripped c = true ->
  forallb isDigit ip = true ->
  match fp with Some f => forallb isDigit f = true | None => True end ->
  parseAmount (a ++ c :: b) = parseAmount (a ++ b)
  /\ Forall (fun c => isStripped c = true)
       (js "$" ++ js "€" ++ js "£" ++ js "¥" ++ js ", ")
  /\ parseFloat (cleanAmount (js "(" ++ plainDecimal ip fp ++ js ")"))
     = (- parseFloat (cleanAmount (plainDecimal ip fp)))%float
  /\ parseAmount s
     = (if isNaN (parseFloat (cleanAmount s)) then 0%float
        else parseFloat (cleanAmount s))
  /\ (isNaN (parseFloat (cleanAmount s)) = true -> parseAmount s = 0%float)
  /\ isNaN (parseAmount s) = false
  /\ parseAmount (js "$1,234.56") = 1234.56%float
  /\ parseAmount (js "(45.00)") = (-45.00)%float
  /\ parseAmount (js "€10") = 10%float.
Proof.
  intros Hc Hip Hfp. split.
  { unfold parseAmount. rewrite (cleanAmount_strip a b c Hc). reflexivity. }
  split; [repeat constructor|].
  split; [apply parseFloat_parens; assumption|].
  split; [reflexivity|].
  split; [unfold parseAmount; intros ->; reflexivity|].
  split; [apply parseAmount_not_NaN|].
  split; [|split]; vm_compute; reflexivity.
Qed.

Lemma parseAmount_spec_witness :
  parseAmount (js "1" ++ 44%N :: js "234") = parseAmount (js "1" ++ js "234")
  /\ parseAmount (js "abc") = 0%float.
Proof.
  destruct (parseAmount_spec (js "abc") (js "1") (js "234") 44%N (js "45")
              (Some (js "00")) eq_refl eq_refl eq_refl)
    as (Hstrip & _ & _ & _ & Hzero & _).
  split; [exact Hstrip|]. apply Hzero. vm_compute. reflexivity.
Defined.

End AmountProps.

(** ** Rows without an amount *)

Module ImportProps.

Import FileImport.

Section WithDateParser.

Variable dateParse : str -> option Date.

Lemma importLine_no_transaction now headers pattern i line acc :
  (rowAmount headers pattern line =? 0)%float = true ->
  transactions (importLine dateParse now headers pattern i line acc)
  = transactions acc.
Proof.
  unfold rowAmount, importLine, parseTransaction. intros Hzero.
  destruct (length (parseCSVLine line) <? 2)%nat; [reflexivity|].
  destruct (extractDate dateParse _ _); [|reflexivity].
  destruct (negb (truthy _)); [reflexivity|].
  destruct (extractAmount _ _ _) as [amount type]. cbn [fst] in Hzero.
  rewrite Hzero. reflexivity.
Qed.

Lemma importLine_dropped now headers pattern i line acc :
  (rowAmount headers pattern line =? 0)%float = true ->
  rowDescribed dateParse headers pattern line ->
  importLine dateParse now headers pattern i line acc = acc.
Proof.
  unfold rowAmount, rowDescribed, importLine, parseTransaction.
  intros Hzero [Hdate Hdesc].
  destruct (length (parseCSVLine line) <? 2)%nat; [reflexivity|].
  destruct (extractDate dateParse _ _); [|congruence].
  rewrite Hdesc. cbn [negb].
  destruct (extractAmount _ _ _) as [amount type]. cbn [fst] in Hzero.
  rewrite Hzero. reflexivity.
Qed.

Lemma importLines_app now headers pattern i before after acc :
  importLines dateParse now headers pattern i (before ++ after) acc
  = importLines dateParse now headers pattern (i + length before) after
      (importLines dateParse now headers pattern i before acc).
Proof.
  revert i acc. induction before as [|l before IH]; intros i acc; cbn.
  - rewrite Nat.add_0_r. reflexivity.
  - rewrite IH. f_equal. lia.
Qed.

(** The transactions only grow along the loop. *)
Lemma importCSV_lines now file bankName headerLine rows pattern :
  fileLines file = headerLine :: rows ->
  rows <> [] ->
  match bankName with
  | Some b => if truthy b then detectBankPattern (parseCSVLine headerLine) b
              else autoDetectBank (parseCSVLine headerLine)
  | None => autoDetectBank (parseCSVLine headerLine)
  end = Some pattern ->
  importCSV dateParse now file bankName
  = importLines dateParse now (parseCSVLine headerLine) pattern 1 rows
      {| transactions := []; errors := [] |}.
Proof.
  intros Hlines Hrows Hpattern. unfold importCSV. rewrite Hlines.
  destruct rows as [|r rows]; [congruence|].
  cbn [length Nat.ltb Nat.leb]. rewrite Hpattern. reflexivity.
Qed.

(** C6 (amended). A row whose amount resolves to 0 never produces a
    transaction. When the row has at least a date and a description that
    can be extracted, it produces no error either: the import is the one
    of the rows before it followed by the rows after it, which keep their
    line numbers. (When the date or the description is missing, the error
    of the row is reported, since they are read before the amount.) *)
Theorem importCSV_zero_amount_dropped now file bankName headerLine pattern
    before line after :
  fileLines file = headerLine :: before ++ line :: after ->
  match bankName with
  | Some b => if truthy b then detectBankPattern (parseCSVLine headerLine) b
              else autoDetectBank (parseCSVLine headerLine)
  | None => autoDetectBank (parseCSVLine headerLine)
  end = Some pattern ->
  (rowAmount (parseCSVLine headerLine) pattern line =? 0)%float = true ->
  let headers := parseCSVLine headerLine in
  let start := {| transactions := []; errors := [] |} in
  (forall i acc,
     transactions (importLine dateParse now headers pattern i line acc)
     = transactions acc)
  /\ (rowDescribed dateParse headers pattern line ->
      importCSV dateParse now file bankName
      = importLines dateParse now headers pattern (2 + length before) after
          (importLines dateParse now headers pattern 1 before start)).
Proof.
  intros Hlines Hpattern Hzero headers start. split.
  - intros i acc. apply importLine_no_transaction, Hzero.
  - intros Hrow.
    rewrite (importCSV_lines now file bankName headerLine
               (before ++ line :: after) pattern Hlines).
    + rewrite importLines_app. cbn [importLines].
      rewrite importLine_dropped by assumption.
      f_equal.
    + destruct before; discriminate.
    + exact Hpattern.
Qed.

End WithDateParser.

(** C6, as stated, fails: the second line below has an amount that does
    not parse, and the import reports an error for it, because the date
    of the row is looked at first and is missing. *)
Lemma importCSV_unparsed_amount_with_error :
  parseAmount (js "abc") = 0%float
  /\ rowAmount (List.map js ["Date"; "Description"; "Amount"]%string) wellsFargo
       (js ",FOO,abc") = 0%float
  /\ importCSV isoDateParse 1700000000000%Z
       (js "Date,Description,Amount" ++ [NEWLINE] ++ js ",FOO,abc") None
     = {| transactions := [];
          errors := [js "Línea 2: Fecha no encontrada o inválida"] |}.
Proof. split; [|split]; vm_compute; reflexivity. Qed.

(** A file whose second line has a date and a description but an amount
    that does not parse: the line leaves no trace. *)
Lemma importCSV_zero_amount_dropped_witness :
  let file :=
    js "Date,Description,Amount" ++ [NEWLINE] ++ js "2024-03-01,FOO,abc"
    ++ [NEWLINE] ++ js "2024-03-02,BAR,5" in
  let headers := List.map js ["Date"; "Description"; "Amount"]%string in
  importCSV isoDateParse 1700000000000%Z file None
  = importLines isoDateParse 1700000000000%Z headers wellsFargo 2
      [js "2024-03-02,BAR,5"] {| transactions := []; errors := [] |}
  /\ errors (importCSV isoDateParse 1700000000000%Z file None) = []
  /\ List.map t_description
       (transactions (importCSV isoDateParse 1700000000000%Z file None))
     = [js "BAR"].
Proof.
  cbv zeta. split; [|split; vm_compute; reflexivity].
  destruct (importCSV_zero_amount_dropped isoDateParse 1700000000000%Z
              (js "Date,Description,Amount" ++ [NEWLINE]
               ++ js "2024-03-01,FOO,abc" ++ [NEWLINE] ++ js "2024-03-02,BAR,5")
              None (js "Date,Description,Amount") wellsFargo []
              (js "2024-03-01,FOO,abc") [js "2024-03-02,BAR,5"])
    as [_ Hdrop].
  - vm_compute. reflexivity.
  - vm_compute. reflexivity.
  - vm_compute. reflexivity.
  - apply Hdrop. split; vm_compute; [discriminate|reflexivity].
Defined.

End ImportProps.

(** ** Recurring transactions *)

Module RecurringProps.

Import Intelligence.

Section Maps.

Context {V : Type}.

Lemma str_eqb_eq (a b : str) : str_eqb a b = true <-> a = b.
Proof. unfold str_eqb. apply bool_decide_eq_true. Qed.

Lemma str_eqb_refl (a : str) : str_eqb a a = true.
Proof. apply str_eqb_eq. reflexivity. Qed.

Lemma str_eqb_neq (a b : str) : a <> b -> str_eqb a b = false.
Proof. intros H. unfold str_eqb. apply bool_decide_eq_false. exact H. Qed.

Lemma mapGet_mapSet_eq (k : str) (v : V) (m : smap V) :
  mapGet k (mapSet k v m) = Some v.
Proof.
  induction m as [|[k' v'] m IH]; cbn.
  - rewrite str_eqb_refl. reflexivity.
  - destruct (str_eqb k' k) eqn:E; cbn.
    + rewrite str_eqb_refl. reflexivity.
    + rewrite E. exact IH.
Qed.

Lemma mapGet_mapSet_ne (k k' : str) (v : V) (m : smap V) :
  k <> k' -> mapGet k' (mapSet k v m) = mapGet k' m.
Proof.
  intros Hne. induction m as [|[k0 v0] m IH]; cbn.
  - rewrite str_eqb_neq by exact Hne. reflexivity.
  - destruct (str_eqb k0 k) eqn:E; cbn.
    + apply str_eqb_eq in E. subst k0.
      rewrite !str_eqb_neq by exact Hne. reflexivity.
    + rewrite IH. reflexivity.
Qed.

Lemma mapGet_None_keys (k : str) (m : smap V) :
  mapGet k m = None -> ~ In k (List.map fst m).
Proof.
  induction m as [|[k' v'] m IH]; cbn; [tauto|].
  destruct (str_eqb k' k) eqn:E; [discriminate|].
  intros Hget [Heq|Hin]; [|exact (IH Hget Hin)].
  subst k'. rewrite str_eqb_refl in E. discriminate.
Qed.

Lemma mapSet_keys (k : str) (v : V) (m : smap V) :
  List.map fst (mapSet k v m)
  = match mapGet k m with
    | Some _ => List.map fst m
    | None => List.map fst m ++ [k]
    end.
Proof.
  induction m as [|[k' v'] m IH]; cbn; [reflexivity|].
  destruct (str_eqb k' k) eqn:E; cbn.
  - apply str_eqb_eq in E. subst k'. reflexivity.
  - rewrite IH. destruct (mapGet k m); reflexivity.
Qed.

Lemma mapSet_NoDup (k : str) (v : V) (m : smap V) :
  List.NoDup (List.map fst m) -> List.NoDup (List.map fst (mapSet k v m)).
Proof.
  intros Hm. rewrite mapSet_keys.
  destruct (mapGet k m) eqn:E; [exact Hm|].
  apply List.NoDup_app; [exact Hm| |].
  - apply List.NoDup_cons; [intros []|apply List.NoDup_nil].
  - intros a Ha [<-|[]]. exact (mapGet_None_keys _ _ E Ha).
Qed.

Lemma mapGet_In (k : str) (v : V) (m : smap V) :
  mapGet k m = Some v -> In (k, v) m.
Proof.
  induction m as [|[k' v'] m IH]; cbn; [discriminate|].
  destruct (str_eqb k' k) eqn:E.
  - apply str_eqb_eq in E. subst k'. intros [= ->]. left. reflexivity.
  - intros H. right. exact (IH H).
Qed.

Lemma In_mapGet (k : str) (v : V) (m : smap V) :
  List.NoDup (List.map fst m) -> In (k, v) m -> mapGet k m = Some v.
Proof.
  induction m as [|[k' v'] m IH]; cbn; [tauto|].
  intros Hnd. apply List.NoDup_cons_iff in Hnd as [Hk' Hnd].
  intros [[= -> ->]|Hin].
  - rewrite str_eqb_refl. reflexivity.
  - destruct (str_eqb k' k) eqn:E; [|exact (IH Hnd Hin)].
    apply str_eqb_eq in E. subst k'. exfalso. apply Hk'.
    apply (List.in_map fst) in Hin. exact Hin.
Qed.

End Maps.

(** The grouping keeps, under every key, the transactions of that key in
    their order, and only the keys that have some. *)
Lemma groupByMerchant_spec (txs : list Transaction) :
  List.NoDup (List.map fst (groupByMerchant txs))
  /\ forall k, mapGet k (groupByMerchant txs)
               = match merchantGroup k txs with
                 | [] => None
                 | g => Some g
                 end.
Proof.
  induction txs as [|t txs [IHnd IHget]] using rev_ind.
  - split; [constructor|reflexivity].
  - unfold groupByMerchant in *. rewrite List.fold_left_app.
    cbn [List.fold_left]. cbv beta zeta.
    split; [apply mapSet_NoDup, IHnd|].
    intros k. unfold merchantGroup in *. rewrite List.filter_app. cbn [List.filter].
    destruct (str_eqb (merchantOf t) k) eqn:E.
    + apply str_eqb_eq in E. subst k.
      rewrite mapGet_mapSet_eq, IHget.
      destruct (List.filter _ txs); reflexivity.
    + rewrite mapGet_mapSet_ne, IHget, app_nil_r; [reflexivity|].
      intros Heq. rewrite Heq, str_eqb_refl in E. discriminate.
Qed.

(** The entries of the grouping. *)
Lemma groupByMerchant_entries (txs : list Transaction) (k : str)
    (g : list Transaction) :
  In (k, g) (groupByMerchant txs) <-> merchantGroup k txs = g /\ g <> [].
Proof.
  destruct (groupByMerchant_spec txs) as [Hnd Hget]. split.
  - intros Hin. apply (In_mapGet _ _ _ Hnd) in Hin.
    rewrite Hget in Hin. destruct (merchantGroup k txs); [discriminate|].
    injection Hin as <-. split; [reflexivity|discriminate].
  - intros [<- Hne]. apply mapGet_In. rewrite Hget.
    destruct (merchantGroup k txs); [congruence|reflexivity].
Qed.

(** The patterns of the result, one by one. *)
Lemma identifyRecurringTransactions_In (txs : list Transaction)
    (r : RecurringPattern) :
  In r (identifyRecurringTransactions txs) <->
  let amounts := List.map t_amount (merchantGroup (merchantName r) txs) in
  isRecurring amounts = true
  /\ amount r = mean amounts
  /\ frequency r = length (merchantGroup (merchantName r) txs).
Proof.
  unfold identifyRecurringTransactions. rewrite List.in_flat_map. cbv zeta. split.
  - intros [[k g] [Hin Hr]]. apply groupByMerchant_entries in Hin as [<- _].
    destruct (length (merchantGroup k txs) <? 2)%nat eqn:Hlen; [destruct Hr|].
    destruct (_ <? _)%float eqn:Hvar in Hr; [|destruct Hr].
    destruct Hr as [<-|[]]. cbn [merchantName amount frequency].
    unfold isRecurring, variance, mean. rewrite Hvar, andb_true_r.
    rewrite List.length_map. repeat split.
    apply Nat.leb_le. apply Nat.ltb_ge in Hlen. exact Hlen.
  - intros (Hrec & Hamount & Hfreq).
    exists (merchantName r, merchantGroup (merchantName r) txs).
    unfold isRecurring in Hrec.
    apply andb_true_iff in Hrec as [Hlen Hvar].
    rewrite List.length_map in Hlen. apply Nat.leb_le in Hlen.
    unfold variance, mean in Hvar.
    split.
    + apply groupByMerchant_entries. split; [reflexivity|].
      destruct (merchantGroup (merchantName r) txs); [cbn in Hlen; lia|discriminate].
    + assert (Hlt : (length (merchantGroup (merchantName r) txs) <? 2)%nat = false)
        by (apply Nat.ltb_ge; exact Hlen).
      rewrite Hlt, Hvar. left.
      destruct r as [m a f]. cbn in *. subst a f. reflexivity.
Qed.

(** C7. Transactions are grouped by merchant name, falling back to the
    description; a group is classified as recurring if and only if it has
    at least two members and the population variance of its amounts is
    strictly below 0.1 times their mean, and its pattern then carries the
    mean and the number of occurrences; three amounts of 9.99 are
    recurring, the amounts 9.99, 50.00 and 5.00 are not. *)
Theorem identifyRecurringTransactions_spec (txs : list Transaction) (m : str) :
  let g := merchantGroup m txs in
  let amounts := List.map t_amount g in
  (forall t, merchantOf t
             = match t_merchantName t with
               | Some (c :: s) => c :: s
               | _ => t_description t
               end)
  /\ ((exists r, In r (identifyRecurringTransactions txs) /\ merchantName r = m)
      <-> (2 <=? length g)%nat && (variance amounts <? mean amounts * 0.1)%float
          = true)
  /\ (forall r, In r (identifyRecurringTransactions txs) -> merchantName r = m ->
                amount r = mean amounts /\ frequency r = length g)
  /\ identifyRecurringTransactions (Examples.charges [9.99; 9.99; 9.99]%float)
     = [ {| merchantName := js "Netflix"; amount := 9.99%float; frequency := 3 |} ]
  /\ identifyRecurringTransactions (Examples.charges [9.99; 50.00; 5.00]%float)
     = [].
Proof.
  intros g amounts. split.
  { intros t. unfold merchantOf, orElse.
    destruct (t_merchantName t) as [[|c s]|]; reflexivity. }
  split.
  { assert (Hrec : isRecurring amounts
                   = (2 <=? length g)%nat
                     && (variance amounts <? mean amounts * 0.1)%float).
    { unfold isRecurring. subst amounts. rewrite List.length_map. reflexivity. }
    rewrite <- Hrec. split.
    - intros [r [Hin <-]]. apply identifyRecurringTransactions_In in Hin.
      apply Hin.
    - intros Hyes.
      exists {| merchantName := m; amount := mean amounts;
                frequency := length g |}.
      split; [|reflexivity]. apply identifyRecurringTransactions_In.
      cbn [merchantName amount frequency]. auto. }
  split.
  { intros r Hin <-. apply identifyRecurringTransactions_In in Hin. apply Hin. }
  split; vm_compute; reflexivity.
Qed.

Lemma identifyRecurringTransactions_spec_witness :
  exists r,
    In r (identifyRecurringTransactions (Examples.charges [9.99; 9.99; 9.99]%float))
    /\ merchantName r = js "Netflix".
Proof.
  destruct (identifyRecurringTransactions_spec
              (Examples.charges [9.99; 9.99; 9.99]%float) (js "Netflix"))
    as (_ & Hiff & _).
  apply Hiff. vm_compute. reflexivity.
Defined.

End RecurringProps.

(** ** The order of the insights *)

Module SortProps.

Import Intelligence.

(** The sort, for a comparison that subtracts keys. *)
Section ByKey.

Context {A : Type}.
Variable key : A -> Z.

Lemma sortInsert_perm (x : A) (l : list A) :
  Permutation (x :: l) (sortInsert (descendingBy key) x l).
Proof.
  induction l as [|y l IH]; cbn.
  - reflexivity.
  - destruct (descendingBy key x y <=? 0)%Z.
    + reflexivity.
    + rewrite perm_swap. apply perm_skip, IH.
Qed.

Lemma sort_perm (l : list A) : Permutation l (sort (descendingBy key) l).
Proof.
  induction l as [|x l IH]; cbn.
  - reflexivity.
  - rewrite <- sortInsert_perm. apply perm_skip, IH.
Qed.

Lemma sortInsert_sorted (x : A) (l : list A) :
  StronglySorted (fun a b => (key b <= key a)%Z) l ->
  StronglySorted (fun a b => (key b <= key a)%Z)
    (sortInsert (descendingBy key) x l).
Proof.
  induction 1 as [|y l Hl IH Hy]; cbn.
  - repeat constructor.
  - destruct (descendingBy key x y <=? 0)%Z eqn:E; unfold descendingBy in E.
    + apply Z.leb_le in E. constructor.
      * constructor; assumption.
      * constructor; [lia|].
        eapply List.Forall_impl; [|exact Hy]. cbn. intros b Hb. lia.
    + apply Z.leb_gt in E. constructor; [exact IH|].
      apply (Permutation_Forall (sortInsert_perm x l)).
      constructor; [lia|exact Hy].
Qed.

Lemma sort_sorted (l : list A) :
  StronglySorted (fun a b => (key b <= key a)%Z) (sort (descendingBy key) l).
Proof.
  induction l as [|x l IH]; cbn.
  - constructor.
  - apply sortInsert_sorted, IH.
Qed.

(** An element is only ever moved past elements of another key. *)
Lemma sortInsert_stable (k : Z) (x : A) (l : list A) :
  List.filter (fun a => (key a =? k)%Z) (sortInsert (descendingBy key) x l)
  = List.filter (fun a => (key a =? k)%Z) (x :: l).
Proof.
  induction l as [|y l IH]; cbn [sortInsert].
  - reflexivity.
  - destruct (descendingBy key x y <=? 0)%Z eqn:E; [reflexivity|].
    unfold descendingBy in E. apply Z.leb_gt in E.
    cbn [List.filter] in *. rewrite IH.
    destruct (key x =? k)%Z eqn:Ex, (key y =? k)%Z eqn:Ey;
      try reflexivity.
    apply Z.eqb_eq in Ex, Ey. lia.
Qed.

Lemma sort_stable (k : Z) (l : list A) :
  List.filter (fun a => (key a =? k)%Z) (sort (descendingBy key) l)
  = List.filter (fun a => (key a =? k)%Z) l.
Proof.
  induction l as [|x l IH]; cbn [sort List.fold_right].
  - reflexivity.
  - fold (sort (descendingBy key) l). rewrite sortInsert_stable.
    cbn [List.filter]. rewrite IH. reflexivity.
Qed.

End ByKey.

Lemma priorityOrder_inj (p q : Priority) :
  priorityOrder p = priorityOrder q -> p = q.
Proof. destruct p, q; cbn; intros H; try reflexivity; discriminate H. Qed.

Lemma withPriority_key (p : Priority) (l : list FinancialInsight) :
  withPriority p l
  = List.filter (fun i => (priorityOrder (i_priority i) =? priorityOrder p)%Z) l.
Proof.
  unfold withPriority. apply List.filter_ext. intros i.
  destruct (Z.eqb_spec (priorityOrder (i_priority i)) (priorityOrder p)) as [E|E].
  - apply bool_decide_eq_true. apply priorityOrder_inj, E.
  - apply bool_decide_eq_false. intros Heq. apply E. rewrite Heq. reflexivity.
Qed.

(** C10. The list returned by [generateInsights] holds the insights the
    detectors emitted, from the highest priority to the lowest (high
    before medium before low), and the sort is stable: the insights of
    each priority are in the order of emission. Insights emitted with
    the priorities low, high, medium, high come out as the second, the
    fourth, the third and the first. *)
Theorem generateInsights_sorted_stable (now : Date) (txs : list Transaction)
    (i1 i2 i3 i4 : FinancialInsight) :
  i_priority i1 = low -> i_priority i2 = high ->
  i_priority i3 = medium -> i_priority i4 = high ->
  Permutation (collectInsights now txs) (generateInsights now txs)
  /\ priorityDescending (generateInsights now txs)
  /\ (priorityOrder low < priorityOrder medium < priorityOrder high)%Z
  /\ (forall p, withPriority p (generateInsights now txs)
                = withPriority p (collectInsights now txs))
  /\ sort byPriority [i1; i2; i3; i4] = [i2; i4; i3; i1].
Proof.
  intros H1 H2 H3 H4. unfold generateInsights, priorityDescending.
  split; [apply (sort_perm (fun i => priorityOrder (i_priority i)))|].
  split; [apply (sort_sorted (fun i => priorityOrder (i_priority i)))|].
  split; [cbn; lia|].
  split.
  - intros p. rewrite !withPriority_key.
    apply (sort_stable (fun i => priorityOrder (i_priority i))).
  - destruct i1, i2, i3, i4. cbn [i_priority] in H1, H2, H3, H4. subst.
    vm_compute. reflexivity.
Qed.

Lemma generateInsights_sorted_stable_witness :
  sort byPriority
    [mkInsight (js "a") low; mkInsight (js "b") high;
     mkInsight (js "c") medium; mkInsight (js "d") high]
  = [mkInsight (js "b") high; mkInsight (js "d") high;
     mkInsight (js "c") medium; mkInsight (js "a") low].
Proof.
  apply (generateInsights_sorted_stable 0%Z []
           (mkInsight (js "a") low) (mkInsight (js "b") high)
           (mkInsight (js "c") medium) (mkInsight (js "d") high)
           eq_refl eq_refl eq_refl eq_refl).
Defined.

End SortProps.

(** ** The daily budget *)

Module BudgetProps.

Import Store.

(** C4. The quotient that gives [percentageUsed] has no guard: the stored
    value is always the spent amount over the available amount, times
    100. Nothing is raised, but on an empty store (nothing earned, nothing
    spent) the available amount is 0 and the stored value is NaN; with an
    available amount of 0 and money spent today it is infinite; and when
    the month is overspent it is negative, here -100, which the progress
    circle takes for less than 50 per cent used. *)
Theorem calculateDailyBudget_unguarded :
  (forall now txs budgets patterns,
     let b := calculateDailyBudget now txs budgets patterns in
     db_percentageUsed b
     = (db_spent b / db_availableToSpend b * 100)%float)
  /\ (let b := calculateDailyBudget Examples.clock1 [] [] [] in
      db_availableToSpend b = 0%float
      /\ is_nan (db_percentageUsed b) = true
      /\ is_finite (db_percentageUsed b) = false)
  /\ (let b := calculateDailyBudget Examples.clock1
                 (Examples.charges [9.99; 9.99; 9.99]%float) [] [] in
      (db_availableToSpend b <? 0)%float = true
      /\ db_percentageUsed b = (-100)%float
      /\ (Store.progress b <? 50)%float = true)
  /\ (let b := calculateDailyBudget Examples.clock1
                 (Examples.charges [9.99; 9.99; 9.99]%float) []
                 [Examples.smallIncome] in
      db_availableToSpend b = 0%float
      /\ db_percentageUsed b = infinity).
Proof.
  split; [reflexivity|].
  split; [cbv zeta; split; [|split]; vm_compute; reflexivity|].
  split; [cbv zeta; split; [|split]; vm_compute; reflexivity|].
  cbv zeta; split; vm_compute; reflexivity.
Qed.

End BudgetProps.

(** * Further properties of the import *)

(** ** Lines without quotes, and the shape of every parsed line *)

Module LineShapeProps.

Import FileImport.

Lemma parseCSVLine_loop_unquoted (line : str) (result : list str)
    (current acc : str) :
  forallb (fun c => negb (c =? QUOTE)%N) line = true ->
  current = rev acc ->
  parseCSVLine_loop line result current false
  = result ++ List.map trim (split_go COMMA acc line).
Proof.
  revert result current acc.
  induction line as [|c line IH]; intros result current acc Hline ->.
  - reflexivity.
  - cbn [forallb] in Hline. apply andb_true_iff in Hline as [Hc Hline].
    apply negb_true_iff in Hc.
    cbn [parseCSVLine_loop split_go]. rewrite Hc. cbn [negb andb].
    rewrite andb_true_r.
    destruct (c =? COMMA)%N.
    + rewrite (IH _ [] [] Hline eq_refl). cbn [List.map].
      rewrite <- app_assoc. reflexivity.
    + apply (IH _ _ (c :: acc) Hline). reflexivity.
Qed.

(** X1. On a line that holds no double quote the parser is a split at
    the commas followed by a trim of every piece; so the number of fields
    is the number of commas plus one. *)
Theorem parseCSVLine_unquoted (line : str) :
  forallb (fun c => negb (c =? QUOTE)%N) line = true ->
  parseCSVLine line = List.map trim (split COMMA line)
  /\ length (parseCSVLine line)
     = S (length (List.filter (fun c => (c =? COMMA)%N) line)).
Proof.
  intros Hline.
  assert (Hparse : parseCSVLine line = List.map trim (split COMMA line))
    by apply (parseCSVLine_loop_unquoted line [] [] [] Hline eq_refl).
  split; [exact Hparse|].
  rewrite Hparse, List.length_map. unfold split.
  generalize (@nil char). clear.
  induction line as [|c line IH]; intros acc; cbn [split_go List.filter].
  - reflexivity.
  - destruct (c =? COMMA)%N; cbn [length]; rewrite IH; reflexivity.
Qed.

Lemma parseCSVLine_unquoted_witness :
  parseCSVLine (js " 2024-03-01, COFFEE ,,-4.50 ")
  = [js "2024-03-01"; js "COFFEE"; []; js "-4.50"].
Proof.
  destruct (parseCSVLine_unquoted (js " 2024-03-01, COFFEE ,,-4.50 "))
    as [Hparse _].
  - vm_compute. reflexivity.
  - rewrite Hparse. vm_compute. reflexivity.
Defined.

(** *** Trimming *)

Lemma trimStart_head (s : str) :
  match trimStart s with c :: _ => isSpace c = false | [] => True end.
Proof.
  induction s as [|c s IH]; cbn; [exact I|].
  destruct (isSpace c) eqn:E; [exact IH|exact E].
Qed.

Lemma trimStart_fixed (s : str) : trimStart (trimStart s) = trimStart s.
Proof. apply AmountProps.trimStart_id, trimStart_head. Qed.

Lemma trimStart_snoc (s : str) (a : char) :
  isSpace a = false -> trimStart (s ++ [a]) = trimStart s ++ [a].
Proof.
  intros Ha. induction s as [|c s IH]; cbn.
  - rewrite Ha. reflexivity.
  - destruct (isSpace c); [exact IH|reflexivity].
Qed.

(** A trimmed string is not changed by trimming. *)
Lemma trim_trim (s : str) : trim (trim s) = trim s.
Proof.
  unfold trim, trimEnd.
  pose proof (trimStart_head s) as Hhead.
  destruct (trimStart s) as [|a t] eqn:Hs; [reflexivity|].
  set (B := trimStart (rev (a :: t))).
  assert (HB : B = trimStart (rev t) ++ [a])
    by (apply (trimStart_snoc (rev t) a Hhead)).
  assert (H1 : trimStart (rev B) = rev B).
  { rewrite HB, rev_app_distr. cbn [rev app trimStart].
    rewrite Hhead. reflexivity. }
  rewrite H1, rev_involutive. unfold B. rewrite trimStart_fixed. reflexivity.
Qed.

Lemma parseCSVLine_loop_fields_trimmed (n : nat) (line : str)
    (result : list str) (current : str) (inQuotes : bool) :
  (length line <= n)%nat ->
  List.Forall (fun f => trim f = f) result ->
  List.Forall (fun f => trim f = f)
    (parseCSVLine_loop line result current inQuotes)
  /\ (length result
      < length (parseCSVLine_loop line result current inQuotes))%nat.
Proof.
  revert line result current inQuotes.
  induction n as [|n IH]; intros line result current inQuotes Hlen Hres.
  - destruct line; [|cbn in Hlen; lia]. cbn. split.
    + apply List.Forall_app. split; [exact Hres|].
      constructor; [apply trim_trim|constructor].
    + rewrite List.length_app. cbn. lia.
  - destruct line as [|c rest].
    + cbn. split.
      * apply List.Forall_app. split; [exact Hres|].
        constructor; [apply trim_trim|constructor].
      * rewrite List.length_app. cbn. lia.
    + cbn [length] in Hlen. cbn [parseCSVLine_loop].
      destruct (c =? QUOTE)%N.
      * destruct (inQuotes && nextIsQuote rest) eqn:Hq.
        -- destruct rest as [|c' rest'].
           ++ rewrite andb_false_r in Hq. discriminate.
           ++ apply IH; [cbn [length] in Hlen; lia|exact Hres].
        -- apply IH; [lia|exact Hres].
      * destruct ((c =? COMMA)%N && negb inQuotes).
        -- destruct (IH rest (result ++ [trim current]) [] inQuotes) as [H1 H2].
           ++ lia.
           ++ apply List.Forall_app. split; [exact Hres|].
              constructor; [apply trim_trim|constructor].
           ++ split; [exact H1|]. rewrite List.length_app in H2. cbn in H2. lia.
        -- apply IH; [lia|exact Hres].
Qed.

(** X2. Whatever the line, the parser returns at least one field, and
    every field it returns is trimmed: it starts and ends with a character
    that is not white space, or is empty. *)
Theorem parseCSVLine_fields_trimmed (line : str) :
  parseCSVLine line <> []
  /\ List.Forall (fun f => trim f = f) (parseCSVLine line)
  /\ List.Forall
       (fun f => match f with c :: _ => isSpace c = false | [] => True end
                 /\ match rev f with c :: _ => isSpace c = false | [] => True end)
       (parseCSVLine line).
Proof.
  destruct (parseCSVLine_loop_fields_trimmed (length line) line [] [] false
              (Nat.le_refl _) (List.Forall_nil _)) as [Htrim Hlen].
  fold (parseCSVLine line) in Htrim, Hlen.
  split; [|split].
  - intros Hnil. rewrite Hnil in Hlen. cbn in Hlen. lia.
  - exact Htrim.
  - eapply List.Forall_impl; [|exact Htrim]. cbn. intros f Hf. split.
    + rewrite <- Hf. unfold trim, trimEnd.
      pose proof (trimStart_head (rev (trimStart f))) as Hr.
      pose proof (trimStart_head f) as Hh.
      destruct (trimStart f) as [|a t] eqn:Hs; [exact I|].
      cbn [rev] in *. rewrite (trimStart_snoc _ _ Hh) in *.
      rewrite rev_app_distr. cbn. exact Hh.
    + rewrite <- Hf. unfold trim, trimEnd. rewrite rev_involutive.
      apply trimStart_head.
Qed.

End LineShapeProps.

(** ** The row of a line *)

Module RowProps.

Import FileImport.

Lemma buildRow_from_absent (headers values : list str) (i : nat)
    (row : gmap str str) (col : str) :
  ~ In col headers ->
  buildRow_from i headers values row !! col = row !! col.
Proof.
  revert i row. induction headers as [|h headers IH]; intros i row Hcol.
  - reflexivity.
  - cbn [buildRow_from]. rewrite IH by (intros H; apply Hcol; right; exact H).
    apply lookup_insert_ne. intros ->. apply Hcol. left. reflexivity.
Qed.

Lemma buildRow_from_app (before after values : list str) (i : nat)
    (row : gmap str str) :
  buildRow_from i (before ++ after) values row
  = buildRow_from (i + length before) after values
      (buildRow_from i before values row).
Proof.
  revert i row. induction before as [|h before IH]; intros i row; cbn.
  - rewrite Nat.add_0_r. reflexivity.
  - rewrite IH. f_equal. lia.
Qed.

(** X3. The row built from headers and values gives, for a column name,
    the value at the position of the last header with that name, the
    empty string when the line has no value at that position, and the
    empty string for a name that is not a header. This is said of the
    names a row does not inherit: a row is an object, which answers the
    names of [Object.prototype] with inherited members and does not
    store a header "__proto__". *)
Theorem buildRow_lookup (before after values : list str) (col : str) :
  ~ In col after ->
  col <> js "__proto__" ->
  rowGet (buildRow (before ++ col :: after) values) col
  = default [] (values !! length before)
  /\ (forall other, ~ In other (before ++ col :: after) ->
        ~ In other ImportShape.objectPrototypeNames ->
        rowGet (buildRow (before ++ col :: after) values) other = []).
Proof.
  intros Hafter _. unfold rowGet, buildRow. split.
  - rewrite buildRow_from_app. cbn [buildRow_from].
    rewrite buildRow_from_absent by exact Hafter.
    rewrite lookup_insert_eq. reflexivity.
  - intros other Hother _. rewrite buildRow_from_absent by exact Hother.
    rewrite lookup_empty. reflexivity.
Qed.

Lemma buildRow_lookup_witness :
  rowGet (buildRow (List.map js ["Date"; "Amount"; "Note"; "Amount"]%string)
            (List.map js ["2024-03-01"; "1.00"; "x"; "2.00"]%string))
    (js "Amount")
  = js "2.00"
  /\ rowGet (buildRow (List.map js ["Date"; "Amount"; "Note"; "Amount"]%string)
               (List.map js ["2024-03-01"; "1.00"; "x"; "2.00"]%string))
       (js "Balance")
     = [].
Proof.
  destruct (buildRow_lookup (List.map js ["Date"; "Amount"; "Note"]%string) []
              (List.map js ["2024-03-01"; "1.00"; "x"; "2.00"]%string)
              (js "Amount"))
    as [Hlast Hother].
  - intros [].
  - vm_compute. discriminate.
  - split; [exact Hlast|]. apply Hother.
    + vm_compute. intuition discriminate.
    + vm_compute. intuition discriminate.
Defined.

End RowProps.

(** ** Letter case *)

Module CaseProps.

(** Decides the comparisons of a code unit with constants. *)
Ltac char_cases :=
  repeat match goal with
         | |- context [(?a <=? ?b)%N] => destruct (N.leb_spec a b); try lia
         | |- context [(?a =? ?b)%N] => destruct (N.eqb_spec a b); try lia
         end.

Lemma lower_char_fixed (c : char) :
  List.flat_map lower_char (lower_char c) = lower_char c.
Proof.
  unfold lower_char at 2 3.
  destruct ((65 <=? c)%N && (c <=? 90)%N) eqn:E1.
  { apply andb_true_iff in E1 as [Ha Hb].
    apply N.leb_le in Ha, Hb. cbn [List.flat_map]. rewrite app_nil_r.
    unfold lower_char. char_cases; reflexivity. }
  destruct ((192 <=? c)%N && (c <=? 222)%N && negb (c =? 215)%N) eqn:E2.
  { apply andb_true_iff in E2 as [E2 Hc]. apply andb_true_iff in E2 as [Ha Hb].
    apply N.leb_le in Ha, Hb. cbn [List.flat_map]. rewrite app_nil_r.
    unfold lower_char. char_cases; reflexivity. }
  destruct (c =? 8490)%N eqn:E3; [reflexivity|].
  destruct (c =? 304)%N eqn:E4; [reflexivity|].
  cbn [List.flat_map]. rewrite app_nil_r.
  unfold lower_char. rewrite E1, E2, E3, E4. reflexivity.
Qed.

(** Lower-casing twice is lower-casing once. *)
Lemma toLowerCase_fixed (s : str) : toLowerCase (toLowerCase s) = toLowerCase s.
Proof.
  unfold toLowerCase. induction s as [|c s IH]; cbn [List.flat_map].
  - reflexivity.
  - rewrite List.flat_map_app, IH, lower_char_fixed. reflexivity.
Qed.

Lemma toLowerCase_app (a b : str) :
  toLowerCase (a ++ b) = toLowerCase a ++ toLowerCase b.
Proof. apply List.flat_map_app. Qed.

Lemma lower_char_space (c : char) : isSpace c = true -> lower_char c = [c].
Proof.
  unfold isSpace, lower_char.
  char_cases; cbn; intros Hspace;
    first [reflexivity | discriminate Hspace].
Qed.

Lemma toLowerCase_nil (s : str) : toLowerCase s = [] -> s = [].
Proof.
  destruct s as [|c s]; [reflexivity|]. unfold toLowerCase. cbn [List.flat_map].
  unfold lower_char.
  repeat match goal with
         | |- context [if ?b then _ else _] => destruct b
         end; discriminate.
Qed.

End CaseProps.

(** ** The bank named by the user *)

Module HintProps.

Import FileImport.

Lemma normalized_space (a b : str) (c : char) :
  isSpace c = true ->
  List.filter (fun c => negb (isSpace c)) (toLowerCase (a ++ c :: b))
  = List.filter (fun c => negb (isSpace c)) (toLowerCase (a ++ b)).
Proof.
  intros Hc.
  change (a ++ c :: b) with (a ++ [c] ++ b).
  rewrite !CaseProps.toLowerCase_app, !List.filter_app.
  unfold toLowerCase at 2. cbn [List.flat_map].
  rewrite (CaseProps.lower_char_space c Hc). cbn [app List.filter].
  rewrite Hc. reflexivity.
Qed.

(** X4. A bank named by the user decides the schema whatever the headers
    are: each identifier offered by the import screen selects its own
    schema. The name is read without regard to white space and letter
    case, and a name that names no bank, such as "auto", leaves the
    choice to the detection from the headers. *)
Theorem detectBankPattern_hints (headers : list str) (a b : str) (c : char) :
  isSpace c = true ->
  List.Forall (fun bank => detectBankPattern headers (fst bank) = Some (snd bank))
    Screens.banks
  /\ detectBankPattern headers (js "auto") = autoDetectBank headers
  /\ detectBankPattern headers (a ++ c :: b) = detectBankPattern headers (a ++ b)
  /\ detectBankPattern headers (toLowerCase (a ++ b))
     = detectBankPattern headers (a ++ b).
Proof.
  intros Hc. split; [|split; [|split]].
  - unfold Screens.banks.
    repeat match goal with
           | |- List.Forall _ (_ :: _) => apply List.Forall_cons
           | |- List.Forall _ [] => apply List.Forall_nil
           end; cbn [fst snd]; vm_compute; reflexivity.
  - reflexivity.
  - unfold detectBankPattern. rewrite (normalized_space a b c Hc). reflexivity.
  - unfold detectBankPattern. rewrite CaseProps.toLowerCase_fixed. reflexivity.
Qed.

Lemma detectBankPattern_hints_witness :
  detectBankPattern [] (js "Wells" ++ 32%N :: js "Fargo")
  = detectBankPattern [] (js "Wells" ++ js "Fargo").
Proof.
  apply (detectBankPattern_hints [] (js "Wells") (js "Fargo") 32%N eq_refl).
Defined.

End HintProps.

(** ** Signs of numbers *)

Module NumberProps.

Lemma Prim2SF_zero : Prim2SF 0%float = S754_zero false.
Proof. reflexivity. Qed.

Lemma is_nan_spec (x : float) :
  is_nan x = false -> Prim2SF x <> S754_nan.
Proof.
  unfold is_nan. rewrite FloatAxioms.eqb_spec. intros H Hnan. rewrite Hnan in H.
  discriminate H.
Qed.

(** The absolute value of a number that is neither NaN nor zero is above
    zero. *)
Lemma abs_positive (x : float) :
  is_nan x = false -> (x =? 0)%float = false -> (0 <? abs x)%float = true.
Proof.
  intros Hnan Hzero. apply is_nan_spec in Hnan.
  rewrite FloatAxioms.eqb_spec, Prim2SF_zero in Hzero.
  rewrite FloatAxioms.ltb_spec, FloatAxioms.abs_spec, Prim2SF_zero.
  destruct (Prim2SF x) as [s|s| |s m e]; try reflexivity.
  - discriminate Hzero.
  - congruence.
Qed.

(** The absolute value of a number is NaN only for NaN. *)
Lemma abs_not_nan (x : float) : is_nan x = false -> is_nan (abs x) = false.
Proof.
  intros Hnan. apply is_nan_spec in Hnan.
  unfold is_nan. rewrite FloatAxioms.eqb_spec, FloatAxioms.abs_spec.
  destruct (Prim2SF x) as [s|s| |s m e]; cbn; try reflexivity.
  - congruence.
  - unfold SFeqb, SFcompare. rewrite Z.compare_refl, Pos.compare_cont_refl.
    reflexivity.
Qed.

Lemma positive_not_nan (x : float) :
  (0 <? x)%float = true -> is_nan x = false.
Proof.
  unfold is_nan. rewrite FloatAxioms.ltb_spec, FloatAxioms.eqb_spec, Prim2SF_zero.
  destruct (Prim2SF x) as [s|s| |s m e]; cbn; try discriminate.
  - destruct s; reflexivity.
  - destruct s; [discriminate|]. intros _.
    unfold SFeqb, SFcompare. rewrite Z.compare_refl, Pos.compare_cont_refl.
    reflexivity.
Qed.

End NumberProps.

(** ** The shape of an import *)

Module ImportShapeProps.

Import ImportShape.

Lemma byte_of_inj (a b : ascii) : byte_of a = byte_of b -> a = b.
Proof.
  unfold byte_of. intros H.
  rewrite <- (ascii_N_embedding a), <- (ascii_N_embedding b), H. reflexivity.
Qed.

Lemma map_byte_of_inj (l l' : list ascii) :
  List.map byte_of l = List.map byte_of l' -> l = l'.
Proof.
  revert l'. induction l as [|a l IH]; intros [|b l'] H; cbn in H;
    try discriminate H; [reflexivity|].
  injection H as Hab Hl. f_equal; [apply byte_of_inj, Hab|apply IH, Hl].
Qed.

(** The decimal rendering tells integers apart. *)
Lemma ofZ_inj (a b : Z) : ofZ a = ofZ b -> a = b.
Proof.
  unfold ofZ. intros H. apply map_byte_of_inj in H.
  apply (f_equal string_of_list_ascii) in H.
  rewrite !string_of_list_ascii_of_string in H.
  apply (f_equal NilZero.int_of_string) in H.
  assert (Hint : forall z, NilZero.int_of_string (NilZero.string_of_int (Z.to_int z))
                           = Some (Z.to_int z)).
  { intros z. apply NilZero.isi; destruct z; cbn; try discriminate;
      intros [= E]; exact (Stdlib.Numbers.DecimalPos.Unsigned.to_uint_nonnil _ E). }
  rewrite !Hint in H. injection H as H. apply Stdlib.Numbers.DecimalZ.to_int_inj, H.
Qed.


Lemma autoDetectBank_known (headers : list str) (p : BankPattern) :
  autoDetectBank headers = Some p -> In p BANK_PATTERNS.
Proof.
  unfold autoDetectBank, BANK_PATTERNS.
  repeat match goal with
         | |- context [if ?c then _ else _] => destruct c
         end; intros [= <-]; cbn; tauto.
Qed.

Lemma detectBankPattern_known (headers : list str) (hint : str) (p : BankPattern) :
  detectBankPattern headers hint = Some p -> In p BANK_PATTERNS.
Proof.
  unfold detectBankPattern.
  repeat match goal with
         | |- context [if ?c then Some _ else _] => destruct c
         end;
    try (intros [= <-]; cbn; tauto).
  apply autoDetectBank_known.
Qed.

Lemma extractDescription_trimmed (row : gmap str str) (cols : list str) :
  trim (extractDescription row cols) = extractDescription row cols.
Proof.
  unfold extractDescription. induction cols as [|col cols IH].
  - reflexivity.
  - destruct (truthy (rowGet row col) && truthy (trim (rowGet row col)));
      [apply LineShapeProps.trim_trim|exact IH].
Qed.

Lemma extractAmount_not_nan (row : gmap str str) (cols : list str)
    (typeColumn : option str) :
  is_nan (fst (extractAmount row cols typeColumn)) = false.
Proof.
  unfold extractAmount.
  destruct (truthy _); [apply AmountProps.parseAmount_not_NaN|].
  destruct (1 <? length cols)%nat.
  - destruct (0 <? _)%float; [apply AmountProps.parseAmount_not_NaN|].
    destruct (0 <? _)%float; [apply AmountProps.parseAmount_not_NaN|reflexivity].
  - apply NumberProps.abs_not_nan, AmountProps.parseAmount_not_NaN.
Qed.

Section WithDateParser.

Variable dateParse : str -> option Date.

(** What one line does to the result of the import. *)
Lemma importLine_cases now headers pattern i line acc :
  let out := importLine dateParse now headers pattern i line acc in
  out = acc
  \/ (exists t,
        parseTransaction dateParse now headers (parseCSVLine line) pattern i
        = Ok (Some t)
        /\ out = {| transactions := transactions acc ++ [t];
                    errors := errors acc |})
  \/ (exists message,
        In message rowMessages
        /\ out = {| transactions := transactions acc;
                    errors := errors acc ++ [lineError (i + 1) message] |}).
Proof.
  cbv zeta. unfold importLine.
  destruct (length (parseCSVLine line) <? 2)%nat; [left; reflexivity|].
  destruct (parseTransaction _ _ _ _ _ _) as [[t|]|message] eqn:Hparse.
  - right. left. exists t. split; reflexivity.
  - left. reflexivity.
  - right. right. exists message. split; [|reflexivity].
    unfold parseTransaction in Hparse.
    destruct (extractDate _ _ _).
    + destruct (negb (truthy _)).
      * injection Hparse as <-. right. left. reflexivity.
      * destruct (extractAmount _ _ _) as [amount type].
        destruct (amount =? 0)%float; discriminate Hparse.
    + injection Hparse as <-. left. reflexivity.
Qed.

(** A transaction made from a row. *)
Lemma parseTransaction_made now headers values pattern i t :
  parseTransaction dateParse now headers values pattern i = Ok (Some t) ->
  t_id t = importedId now i /\ freshlyImported t.
Proof.
  unfold parseTransaction.
  destruct (extractDate _ _ _) as [date|]; [|discriminate].
  destruct (truthy (extractDescription _ _)) eqn:Hdesc; [|discriminate].
  cbn [negb].
  pose proof (extractAmount_not_nan (buildRow headers values)
                (amountColumns pattern) (typeColumn pattern)) as Hnan.
  destruct (extractAmount _ _ _) as [amount type]. cbn [fst] in Hnan.
  destruct (amount =? 0)%float eqn:Hzero; [discriminate|].
  intros [= <-]. split; [reflexivity|].
  unfold freshlyImported. cbn.
  split; [apply NumberProps.abs_positive; assumption|].
  split; [intros Hnil; rewrite Hnil in Hdesc; discriminate Hdesc|].
  split; [apply extractDescription_trimmed|].
  repeat split.
Qed.

(** A property kept by every line is kept by the loop. *)
Lemma importLines_invariant (P : nat -> ImportResult -> Prop)
    now headers pattern :
  (forall i line acc,
     P i acc -> P (S i) (importLine dateParse now headers pattern i line acc)) ->
  forall lines i acc,
    P i acc ->
    P (i + length lines) (importLines dateParse now headers pattern i lines acc).
Proof.
  intros Hstep lines. induction lines as [|line lines IH]; intros i acc Hacc.
  - cbn. rewrite Nat.add_0_r. exact Hacc.
  - cbn [importLines length]. replace (i + S (length lines)) with (S i + length lines) by lia.
    apply IH, Hstep, Hacc.
Qed.

(** The answers of [importCSV]. *)
Lemma importCSV_cases now file bankName :
  (length (fileLines file) < 2
   /\ importCSV dateParse now file bankName = emptyFileResult)
  \/ (exists headerLine rows,
        fileLines file = headerLine :: rows /\ rows <> []
        /\ ((chosenPattern (parseCSVLine headerLine) bankName = None
             /\ importCSV dateParse now file bankName = unknownBankResult)
            \/ (exists pattern,
                  chosenPattern (parseCSVLine headerLine) bankName = Some pattern
                  /\ In pattern BANK_PATTERNS
                  /\ importCSV dateParse now file bankName
                     = importLines dateParse now (parseCSVLine headerLine)
                         pattern 1 rows startResult))).
Proof.
  unfold importCSV.
  destruct (length (fileLines file) <? 2)%nat eqn:Hlen.
  - left. apply Nat.ltb_lt in Hlen. split; [exact Hlen|reflexivity].
  - right. apply Nat.ltb_ge in Hlen.
    destruct (fileLines file) as [|headerLine rows]; [cbn in Hlen; lia|].
    exists headerLine, rows. split; [reflexivity|].
    split; [destruct rows; [cbn in Hlen; lia|discriminate]|].
    fold (chosenPattern (parseCSVLine headerLine) bankName).
    destruct (chosenPattern (parseCSVLine headerLine) bankName) as [pattern|] eqn:Hp.
    + right. exists pattern. split; [reflexivity|]. split; [|reflexivity].
      unfold chosenPattern in Hp.
      destruct bankName as [b|];
        [destruct (truthy b)|];
        eauto using detectBankPattern_known, autoDetectBank_known.
    + left. split; reflexivity.
Qed.


(** X6. Every line after the header gives at most one transaction or one
    error: the transactions are no more than these lines, and the
    transactions and the errors together no more than these lines, or one
    when the whole file is refused. *)
Theorem importCSV_counts now file bankName :
  let r := importCSV dateParse now file bankName in
  length (transactions r) <= length (fileLines file) - 1
  /\ length (transactions r) + length (errors r)
     <= Nat.max 1 (length (fileLines file) - 1).
Proof.
  cbv zeta.
  destruct (importCSV_cases now file bankName)
    as [[Hlt ->]|(headerLine & rows & Hlines & Hrows
                  & [[_ ->]|(pattern & _ & _ & ->)])];
    try (cbn; lia).
  rewrite Hlines. cbn [length].
  pose proof (importLines_invariant
                (fun i acc => length (transactions acc) + length (errors acc) + 1 <= i)
                now (parseCSVLine headerLine) pattern) as Hinv.
  cbv beta in Hinv.
  specialize (Hinv ltac:(
    intros i line acc Hacc;
    destruct (importLine_cases now (parseCSVLine headerLine) pattern i line acc)
      as [->|[(t & _ & ->)|(message & _ & ->)]]; cbn [transactions errors];
    rewrite ?List.length_app; cbn [length]; lia)).
  specialize (Hinv rows 1 startResult ltac:(cbn; lia)). lia.
Qed.

Lemma importCSV_made now file bankName :
  List.Forall freshlyImported
    (transactions (importCSV dateParse now file bankName)).
Proof.
  destruct (importCSV_cases now file bankName)
    as [[Hlt ->]|(headerLine & rows & Hlines & Hrows
                  & [[_ ->]|(pattern & _ & _ & ->)])];
    try apply List.Forall_nil.
  apply (importLines_invariant
           (fun _ acc => List.Forall freshlyImported (transactions acc))
           now (parseCSVLine headerLine) pattern);
    [|apply List.Forall_nil].
  intros i line acc Hacc.
  destruct (importLine_cases now (parseCSVLine headerLine) pattern i line acc)
    as [->|[(t & Ht & ->)|(message & _ & ->)]]; cbn [transactions];
    try exact Hacc.
  apply List.Forall_app. split; [exact Hacc|].
  apply List.Forall_cons; [|apply List.Forall_nil].
  apply (parseTransaction_made _ _ _ _ _ _ Ht).
Qed.

(** X7. Every transaction of an import has an amount above zero (the
    sign is in its type), a description that is not empty and is trimmed,
    the merchant name extracted from that description, the category
    [other], no account, and is not marked recurring. *)
Theorem importCSV_transactions_fresh now file bankName :
  List.Forall freshlyImported
    (transactions (importCSV dateParse now file bankName)).
Proof. apply importCSV_made. Qed.






End WithDateParser.


End ImportShapeProps.

(** ** The merchant name *)

Module MerchantProps.

Import ImportShape.

Lemma noSpace_snoc (w : str) (c : char) :
  noSpace w = true -> isSpace c = false -> noSpace (w ++ [c]) = true.
Proof.
  unfold noSpace. intros Hw Hc. rewrite forallb_app, Hw. cbn. rewrite Hc.
  reflexivity.
Qed.

Lemma splitSpaces_go_words (s cur : str) (inGap : bool) :
  noSpace cur = true ->
  List.Forall (fun w => noSpace w = true) (splitSpaces_go s cur inGap)
  /\ splitSpaces_go s cur inGap <> [].
Proof.
  revert cur inGap. induction s as [|c s IH]; intros cur inGap Hcur.
  - cbn. split; [repeat constructor; exact Hcur|discriminate].
  - cbn [splitSpaces_go]. destruct (isSpace c) eqn:Hc.
    + destruct inGap; [apply IH, Hcur|].
      split; [|discriminate].
      constructor; [exact Hcur|]. apply (IH [] true). reflexivity.
    + apply IH, noSpace_snoc; assumption.
Qed.

Lemma filter_space_word (w : str) :
  noSpace w = true -> List.filter isSpace w = [].
Proof.
  unfold noSpace. induction w as [|c w IH]; cbn; [reflexivity|].
  rewrite andb_true_iff, negb_true_iff. intros [-> Hw]. exact (IH Hw).
Qed.

Lemma join_spaces (words : list str) :
  List.Forall (fun w => noSpace w = true) words ->
  List.filter isSpace (join (js " ") words)
  = List.repeat SPACE (length words - 1).
Proof.
  induction 1 as [|w words Hw Hwords IH]; [reflexivity|].
  destruct words as [|w' words].
  - cbn. apply filter_space_word, Hw.
  - change (join (js " ") (w :: w' :: words))
      with (w ++ js " " ++ join (js " ") (w' :: words)).
    rewrite !List.filter_app, (filter_space_word w Hw), IH.
    cbn [length Nat.sub]. rewrite Nat.sub_0_r. reflexivity.
Qed.

(** X10. The merchant name extracted from a description is made of at
    least one and at most three words, joined by single spaces: it holds
    no other white space, so at most two white-space characters. *)
Theorem extractMerchantName_words (description : str) :
  exists words,
    extractMerchantName description = join (js " ") words
    /\ 1 <= length words <= 3
    /\ List.Forall (fun w => noSpace w = true) words
    /\ List.filter isSpace (extractMerchantName description)
       = List.repeat SPACE (length words - 1).
Proof.
  unfold extractMerchantName.
  set (cleaned := trim _).
  destruct (splitSpaces_go_words cleaned [] false eq_refl) as [Hwords Hne].
  fold (splitSpaces cleaned) in Hwords, Hne.
  assert (Hfirst : List.Forall (fun w => noSpace w = true)
                     (firstn 3 (splitSpaces cleaned))).
  { rewrite <- (List.firstn_skipn 3 (splitSpaces cleaned)) in Hwords.
    apply List.Forall_app in Hwords as [Hfirst _]. exact Hfirst. }
  exists (firstn 3 (splitSpaces cleaned)).
  split; [reflexivity|]. split; [|split; [exact Hfirst|apply join_spaces, Hfirst]].
  rewrite List.length_firstn.
  destruct (splitSpaces cleaned); [congruence|cbn [length]; lia].
Qed.

End MerchantProps.

(** * Further properties of the analysis *)

(** ** What the categorizer can and cannot answer *)

Module CategoryProps.

Import Categorizer.

Lemma firstMatch_range (rules : list (list str * TransactionCategory)) (text : str) :
  firstMatch rules text = other
  \/ In (firstMatch rules text) (List.map snd rules).
Proof.
  induction rules as [|[kws c] rules IH]; cbn [firstMatch List.map snd].
  - left. reflexivity.
  - destruct (existsb (includes text) kws).
    + right. left. reflexivity.
    + destruct IH as [IH|IH]; [left; exact IH|right; right; exact IH].
Qed.

(** X11. The categorizer answers with one of nine categories; it never
    answers [education] or [investment], whatever the description and the
    merchant name. *)
Theorem categorizeTransaction_range (d : str) (m : option str) :
  In (categorizeTransaction d m)
    [food; transportation; entertainment; utilities; rent; healthcare;
     shopping; salary; other]
  /\ categorizeTransaction d m <> education
  /\ categorizeTransaction d m <> investment.
Proof.
  rewrite CategorizerProps.categorizeTransaction_cascade.
  destruct (firstMatch_range cascade (categorizeText d m)) as [H|H].
  - rewrite H. split; [cbn [In]; tauto|]. split; discriminate.
  - change (List.map snd cascade)
      with [food; transportation; entertainment; utilities; rent; healthcare;
            shopping; salary] in H.
    cbn [In] in H.
    repeat destruct H as [<-|H]; try destruct H;
      (split; [cbn [In]; tauto|split; discriminate]).
Qed.

Lemma orElse_lower (m : option str) :
  orElse (option_map toLowerCase m) [] = toLowerCase (orElse m []).
Proof.
  destruct m as [s|]; [|reflexivity]. cbn [option_map orElse].
  destruct s as [|c s]; [reflexivity|]. cbn [truthy].
  destruct (toLowerCase (c :: s)) eqn:E; [|reflexivity].
  apply CaseProps.toLowerCase_nil in E. discriminate E.
Qed.

(** X12. The categorizer does not look at the letter case: lower-casing
    the description and the merchant name first gives the same category. *)
Theorem categorizeTransaction_case (d : str) (m : option str) :
  categorizeTransaction (toLowerCase d) (option_map toLowerCase m)
  = categorizeTransaction d m.
Proof.
  assert (Htext : categorizeText (toLowerCase d) (option_map toLowerCase m)
                  = categorizeText d m).
  { unfold categorizeText.
    rewrite orElse_lower, !CaseProps.toLowerCase_app,
      !CaseProps.toLowerCase_fixed. reflexivity. }
  rewrite !CategorizerProps.categorizeTransaction_cascade, Htext. reflexivity.
Qed.

Lemma startsWith_app (a b s : str) :
  startsWith (a ++ b) s = true -> startsWith a s = true.
Proof.
  revert s. induction a as [|x a IH]; intros s; [reflexivity|].
  destruct s as [|y s]; cbn; [discriminate|].
  rewrite !andb_true_iff. intros [Hxy H]. split; [exact Hxy|apply IH, H].
Qed.

(** A text that holds a string holds every beginning of it. *)
Lemma includes_app (s a b : str) :
  includes s (a ++ b) = true -> includes s a = true.
Proof.
  induction s as [|y s IH]; cbn [includes].
  - rewrite !orb_false_r. apply startsWith_app.
  - rewrite !orb_true_iff. intros [H|H].
    + left. apply (startsWith_app a b), H.
    + right. apply IH, H.
Qed.

(** X13. The keyword "gas utility" of the utilities never decides a
    category: a text that holds it holds "gas", which is tested before,
    and is put under transportation (or under food, when it holds a
    food keyword). *)
Theorem categorizeTransaction_gas_utility (d : str) (m : option str) :
  includes (categorizeText d m) (js "gas utility") = true ->
  categorizeTransaction d m = food
  \/ categorizeTransaction d m = transportation.
Proof.
  intros Hgas.
  apply (includes_app _ (js "gas") (js " utility")) in Hgas.
  unfold categorizeTransaction. cbv zeta.
  match goal with
  | |- context [if ?c then food else _] => destruct c
  end; [left; reflexivity|].
  right. rewrite Hgas. rewrite ?orb_true_r. reflexivity.
Qed.

Lemma categorizeTransaction_gas_utility_witness :
  categorizeTransaction (js "CITY GAS UTILITY BILL") None = transportation.
Proof.
  destruct (categorizeTransaction_gas_utility (js "CITY GAS UTILITY BILL") None)
    as [H|H].
  - vm_compute. reflexivity.
  - vm_compute in H. discriminate H.
  - exact H.
Defined.

End CategoryProps.

(** * Further properties of the analysis, the store and the screens *)

(** ** The grouping by merchant, as a whole *)

Module GroupProps.

Import Intelligence.

(** Putting a transaction at the end of the group of a key adds this
    transaction to the groups, and nothing else. *)
Lemma mapSet_extend (k : str) (t : Transaction) (m : smap (list Transaction)) :
  Permutation
    (concat (List.map snd (mapSet k (default [] (mapGet k m) ++ [t]) m)))
    (concat (List.map snd m) ++ [t]).
Proof.
  induction m as [|[k' g] m IH]; cbn [mapGet mapSet].
  - reflexivity.
  - destruct (str_eqb k' k); cbn [List.map snd concat default].
    + rewrite <- !app_assoc. apply Permutation_app_head, Permutation_app_comm.
    + rewrite IH, app_assoc. reflexivity.
Qed.

Lemma groupByMerchant_perm (txs : list Transaction) :
  Permutation (concat (List.map snd (groupByMerchant txs))) txs.
Proof.
  induction txs as [|t txs IH] using rev_ind; [reflexivity|].
  unfold groupByMerchant in *. rewrite List.fold_left_app.
  cbn [List.fold_left]. cbv beta zeta.
  rewrite mapSet_extend. apply Permutation_app_tail, IH.
Qed.

(** X14. The grouping by merchant is a partition of the transactions: no
    key comes twice, every group is non-empty and holds transactions of
    its key only, and the groups together are the transactions, each one
    once. *)
Theorem groupByMerchant_partition (txs : list Transaction) :
  List.NoDup (List.map fst (groupByMerchant txs))
  /\ (forall k g, In (k, g) (groupByMerchant txs) ->
        g <> [] /\ List.Forall (fun t => merchantOf t = k) g)
  /\ Permutation (concat (List.map snd (groupByMerchant txs))) txs.
Proof.
  split; [apply RecurringProps.groupByMerchant_spec|].
  split; [|apply groupByMerchant_perm].
  intros k g Hin. apply RecurringProps.groupByMerchant_entries in Hin as [<- Hne].
  split; [exact Hne|]. apply List.Forall_forall. intros t Ht.
  apply List.filter_In in Ht as [_ Ht].
  apply RecurringProps.str_eqb_eq in Ht. exact Ht.
Qed.

(** The patterns drawn from groups, by a function that gives for a group
    either nothing or one pattern with the key of the group and its
    length, the latter for groups of two and more only. *)
Section Patterns.

Variable f : str * list Transaction -> list RecurringPattern.

Hypothesis f_cases : forall k g,
  f (k, g) = []
  \/ 2 <= length g
     /\ exists a, f (k, g)
                  = [ {| merchantName := k; amount := a; frequency := length g |} ].

Lemma patterns_of_groups (groups : smap (list Transaction)) :
  (forall r, In r (List.flat_map f groups) ->
             In (merchantName r) (List.map fst groups))
  /\ (List.NoDup (List.map fst groups) ->
      List.NoDup (List.map merchantName (List.flat_map f groups)))
  /\ List.Forall (fun r => 2 <= frequency r) (List.flat_map f groups)
  /\ list_sum (List.map frequency (List.flat_map f groups))
     <= length (concat (List.map snd groups)).
Proof.
  induction groups as [|[k g] groups (IHin & IHnd & IHfreq & IHsum)].
  - split; [intros r []|]. split; [intros _; constructor|].
    split; [constructor|reflexivity].
  - cbn [List.flat_map List.map fst snd concat].
    rewrite List.length_app.
    destruct (f_cases k g) as [->|[Hlen [a ->]]]; cbn [app].
    + split; [intros r Hr; right; exact (IHin r Hr)|].
      split; [intros Hnd; apply IHnd; inversion Hnd; assumption|].
      split; [exact IHfreq|lia].
    + split.
      { intros r [<-|Hr]; [left; reflexivity|right; exact (IHin r Hr)]. }
      split.
      { intros Hnd. apply List.NoDup_cons_iff in Hnd as [Hk Hnd].
        cbn [List.map merchantName]. constructor; [|exact (IHnd Hnd)].
        intros Hin. apply Hk. apply List.in_map_iff in Hin as [r [<- Hr]].
        exact (IHin r Hr). }
      split.
      { constructor; [exact Hlen|exact IHfreq]. }
      change (length g + list_sum (List.map frequency (List.flat_map f groups))
              <= length g + length (concat (List.map snd groups))).
      lia.
Qed.

End Patterns.

Lemma frequency_count (l : list RecurringPattern) (n : nat) :
  List.Forall (fun r => 2 <= frequency r) l ->
  list_sum (List.map frequency l) <= n -> 2 * length l <= n.
Proof.
  revert n. induction l as [|r l IH]; intros n Hfreq Hsum.
  - cbn. lia.
  - apply List.Forall_cons_iff in Hfreq as [Hr Hl].
    change (frequency r + list_sum (List.map frequency l) <= n) in Hsum.
    cbn [length]. specialize (IH (n - frequency r) Hl). lia.
Qed.

(** X15. The recurring patterns of a list of transactions have pairwise
    distinct merchant names, each one stands for at least two
    transactions, and together they stand for no more transactions than
    the list holds: there are at most half as many patterns as
    transactions. *)
Theorem identifyRecurringTransactions_bounds (txs : list Transaction) :
  let patterns := identifyRecurringTransactions txs in
  List.NoDup (List.map merchantName patterns)
  /\ List.Forall (fun r => 2 <= frequency r) patterns
  /\ list_sum (List.map frequency patterns) <= length txs
  /\ 2 * length patterns <= length txs.
Proof.
  cbn zeta. unfold identifyRecurringTransactions.
  match goal with
  | |- context [List.flat_map ?f _] =>
    destruct (patterns_of_groups f) with (groups := groupByMerchant txs)
      as (_ & Hnd & Hfreq & Hsum)
  end.
  { intros k g. cbv beta iota zeta.
    destruct (length g <? 2)%nat eqn:Hlen; [left; reflexivity|].
    apply Nat.ltb_ge in Hlen.
    match goal with
    | |- context [if ?c then _ else _] => destruct c
    end; [right|left; reflexivity].
    split; [exact Hlen|]. eexists. reflexivity. }
  rewrite (Permutation_length (groupByMerchant_perm txs)) in Hsum.
  split; [apply Hnd, RecurringProps.groupByMerchant_spec|].
  split; [exact Hfreq|]. split; [exact Hsum|].
  exact (frequency_count _ _ Hfreq Hsum).
Qed.

End GroupProps.

(** ** Detectors on one-sided histories *)

Module SilenceProps.

Import Intelligence.

Lemma filter_none {A : Type} (p : A -> bool) (l : list A) :
  (forall a, In a l -> p a = false) -> List.filter p l = [].
Proof.
  induction l as [|a l IH]; intros H; [reflexivity|]. cbn [List.filter].
  rewrite (H a (or_introl eq_refl)). apply IH.
  intros b Hb. apply H. right. exact Hb.
Qed.

Lemma filter_income_none (txs : list Transaction) (q : Transaction -> bool) :
  List.Forall (fun t => t_type t = expense) txs ->
  List.filter (fun t => isIncome t && q t) txs = [].
Proof.
  intros Hall. apply filter_none. intros t Ht.
  rewrite List.Forall_forall in Hall. unfold isIncome.
  rewrite (Hall t Ht). reflexivity.
Qed.

(** The filters of the detectors test the type first, whatever they test
    after it. *)
Lemma filter_expense_none (txs : list Transaction) (p : Transaction -> bool) :
  List.Forall (fun t => t_type t = income) txs ->
  (forall t, isExpense t = false -> p t = false) ->
  List.filter p txs = [].
Proof.
  intros Hall Hp. apply filter_none. intros t Ht.
  rewrite List.Forall_forall in Hall. apply Hp. unfold isExpense.
  rewrite (Hall t Ht). reflexivity.
Qed.

Lemma flat_map_none {A B : Type} (f : A -> list B) (l : list A) :
  (forall a, f a = []) -> List.flat_map f l = [].
Proof.
  intros H. induction l as [|a l IH]; [reflexivity|].
  cbn [List.flat_map]. rewrite H, IH. reflexivity.
Qed.

(** X16. A history without income gets no advice about income: the three
    detectors that read the income return nothing, not even the
    suggestion to look for additional income. *)
Theorem no_income_no_advice (now : Date) (txs : list Transaction) :
  List.Forall (fun t => t_type t = expense) txs ->
  suggestBudgetOptimizations now txs = []
  /\ analyzeIncomeOpportunities now txs = []
  /\ detectIncomePatterns now txs = [].
Proof.
  intros Hall.
  unfold suggestBudgetOptimizations, analyzeIncomeOpportunities,
    detectIncomePatterns. cbv zeta.
  rewrite !(filter_income_none txs _ Hall).
  split; [|split]; reflexivity.
Qed.

Lemma no_income_no_advice_witness :
  analyzeIncomeOpportunities Examples.clock1
    (Examples.charges [9.99; 9.99]%float) = [].
Proof.
  apply (no_income_no_advice Examples.clock1
           (Examples.charges [9.99; 9.99]%float)).
  repeat (constructor; [reflexivity|]). constructor.
Defined.

(** X17. A history without expenses gets no warning: the three detectors
    that read the expenses return nothing. *)
Theorem no_expense_no_warning (now : Date) (txs : list Transaction) :
  List.Forall (fun t => t_type t = income) txs ->
  detectUnnecessaryExpenses now txs = []
  /\ detectRecurringExpenses now txs = []
  /\ detectUnusualSpending now txs = [].
Proof.
  intros Hall.
  assert (Hnone : List.filter isExpense txs = []).
  { apply filter_none. intros t Ht. rewrite List.Forall_forall in Hall.
    unfold isExpense. rewrite (Hall t Ht). reflexivity. }
  unfold detectUnnecessaryExpenses, detectRecurringExpenses,
    detectUnusualSpending. cbv zeta.
  split; [|split].
  - apply flat_map_none. intros c.
    rewrite (filter_expense_none txs _ Hall)
      by (intros t Ht; rewrite Ht; reflexivity).
    reflexivity.
  - rewrite Hnone. reflexivity.
  - apply flat_map_none. intros c.
    do 3 (rewrite (filter_expense_none txs _ Hall)
            by (intros t Ht; rewrite Ht; reflexivity)).
    reflexivity.
Qed.

Lemma no_expense_no_warning_witness :
  detectUnusualSpending Examples.clock1 [Examples.payroll] = [].
Proof.
  apply (no_expense_no_warning Examples.clock1 [Examples.payroll]).
  repeat (constructor; [reflexivity|]). constructor.
Defined.

End SilenceProps.

(** ** The list actions of the store *)

Module StoreProps.

Import StoreActions.

Lemma filter_all {A : Type} (p : A -> bool) (l : list A) :
  List.Forall (fun a => p a = true) l -> List.filter p l = l.
Proof.
  induction 1 as [|a l Ha _ IH]; [reflexivity|].
  cbn [List.filter]. rewrite Ha, IH. reflexivity.
Qed.

Lemma filter_twice {A : Type} (p : A -> bool) (l : list A) :
  List.filter p (List.filter p l) = List.filter p l.
Proof.
  apply filter_all. apply List.Forall_forall. intros a Ha.
  apply List.filter_In in Ha. apply Ha.
Qed.

Lemma filter_other {A : Type} (p : A -> bool) (l : list A) :
  List.filter p (List.filter (fun a => negb (p a)) l) = [].
Proof.
  induction l as [|a l IH]; [reflexivity|]. cbn [List.filter].
  destruct (p a) eqn:E; cbn [negb List.filter]; [exact IH|].
  rewrite E. exact IH.
Qed.

(** X18. After [setBudget] the given budget is the last of the list,
    and it is the only budget with its identifier. The budgets of other
    identifiers are kept, in their order, before it, and setting the
    same budget again changes nothing. *)
Theorem setBudget_unique (budget : Budget) (s : FinanceState) :
  let same := fun b => str_eqb (b_id b) (b_id budget) in
  let budgets := s_budgets (setBudget budget s) in
  (exists kept,
     budgets = kept ++ [budget]
     /\ List.Forall (fun b => b_id b <> b_id budget) kept
     /\ kept = List.filter (fun b => negb (same b)) (s_budgets s))
  /\ List.filter same budgets = [budget]
  /\ List.filter (fun b => negb (same b)) budgets
     = List.filter (fun b => negb (same b)) (s_budgets s)
  /\ setBudget budget (setBudget budget s) = setBudget budget s.
Proof.
  intros same budgets.
  assert (Hsame : same budget = true) by apply RecurringProps.str_eqb_refl.
  assert (Hrest : List.filter (fun b => negb (same b)) budgets
                  = List.filter (fun b => negb (same b)) (s_budgets s)).
  { subst budgets. unfold setBudget, setBudgets. cbn [s_budgets].
    fold same. rewrite List.filter_app, filter_twice. cbn [List.filter].
    rewrite Hsame. cbn [negb]. apply app_nil_r. }
  split; [|split; [|split; [exact Hrest|]]].
  - exists (List.filter (fun b => negb (same b)) (s_budgets s)).
    split; [reflexivity|]. split; [|reflexivity].
    apply List.Forall_forall. intros b Hb.
    apply List.filter_In in Hb as [_ Hb]. apply negb_true_iff in Hb.
    intros Heq. subst same. cbv beta in Hb.
    rewrite Heq, RecurringProps.str_eqb_refl in Hb. discriminate Hb.
  - subst budgets. unfold setBudget, setBudgets. cbn [s_budgets].
    fold same. rewrite List.filter_app, (filter_other same). cbn [List.filter].
    rewrite Hsame. reflexivity.
  - unfold setBudget at 1. subst budgets same. cbv beta in Hrest.
    rewrite Hrest. reflexivity.
Qed.

(** X19. Removing a transaction that was just added gives back the state
    as it was, provided its identifier was not in use: [removeTransaction]
    removes by identifier, so it would take older transactions of the
    same identifier with it. *)
Theorem removeTransaction_addTransaction (t : Transaction) (s : FinanceState) :
  List.Forall (fun t' => t_id t' <> t_id t) (s_transactions s) ->
  removeTransaction (t_id t) (addTransaction t s) = s.
Proof.
  intros Hfresh. destruct s as [accounts txs budgets insights daily sp ip ld err].
  unfold removeTransaction, addTransaction, setTransactions.
  cbn [s_accounts s_transactions s_budgets s_insights s_dailyBudget
       s_spendingPatterns s_incomePatterns s_isLoading s_error] in *.
  rewrite List.filter_app. cbn [List.filter].
  rewrite RecurringProps.str_eqb_refl. cbn [negb]. rewrite app_nil_r.
  rewrite filter_all; [reflexivity|].
  eapply List.Forall_impl; [|exact Hfresh]. cbn beta. intros t' Hne.
  rewrite RecurringProps.str_eqb_neq by exact Hne. reflexivity.
Qed.

Lemma removeTransaction_addTransaction_witness :
  removeTransaction (t_id Examples.payroll)
    (addTransaction Examples.payroll initialState) = initialState.
Proof.
  apply (removeTransaction_addTransaction Examples.payroll initialState).
  constructor.
Defined.

(** X20. [removeAccount] removes an account together with its
    transactions: afterwards no account has the identifier and no
    transaction refers to it, the accounts and the transactions of other
    identifiers are kept in their order, and everything else is
    untouched. *)
Theorem removeAccount_cascade (id : str) (s : FinanceState) :
  let s' := removeAccount id s in
  List.Forall (fun acc => a_id acc <> id) (s_accounts s')
  /\ List.Forall (fun t => t_accountId t <> id) (s_transactions s')
  /\ (forall other, other <> id ->
        List.filter (fun t => str_eqb (t_accountId t) other) (s_transactions s')
        = List.filter (fun t => str_eqb (t_accountId t) other) (s_transactions s))
  /\ (forall other, other <> id ->
        List.filter (fun acc => str_eqb (a_id acc) other) (s_accounts s')
        = List.filter (fun acc => str_eqb (a_id acc) other) (s_accounts s))
  /\ s_budgets s' = s_budgets s
  /\ s_insights s' = s_insights s
  /\ s_dailyBudget s' = s_dailyBudget s.
Proof.
  cbn zeta. unfold removeAccount, setTransactions, setAccounts.
  cbn [s_accounts s_transactions s_budgets s_insights s_dailyBudget].
  assert (Hkeep : forall (A : Type) (key : A -> str) (other : str) (l : list A),
    other <> id ->
    List.filter (fun a => str_eqb (key a) other)
      (List.filter (fun a => negb (str_eqb (key a) id)) l)
    = List.filter (fun a => str_eqb (key a) other) l).
  { intros A key other l Hne. induction l as [|a l IH]; [reflexivity|].
    cbn [List.filter].
    destruct (str_eqb (key a) id) eqn:E; cbn [negb List.filter].
    - apply RecurringProps.str_eqb_eq in E.
      rewrite RecurringProps.str_eqb_neq by congruence. exact IH.
    - rewrite IH. reflexivity. }
  assert (Hgone : forall (A : Type) (key : A -> str) (l : list A),
    List.Forall (fun a => key a <> id)
      (List.filter (fun a => negb (str_eqb (key a) id)) l)).
  { intros A key l. apply List.Forall_forall. intros a Ha.
    apply List.filter_In in Ha as [_ Ha]. intros Heq.
    rewrite Heq, RecurringProps.str_eqb_refl in Ha. discriminate Ha. }
  split; [apply (Hgone _ a_id)|].
  split; [apply (Hgone _ t_accountId)|].
  split; [intros other Hne; apply (Hkeep _ t_accountId), Hne|].
  split; [intros other Hne; apply (Hkeep _ a_id), Hne|].
  split; [|split]; reflexivity.
Qed.

End StoreProps.

(** ** The patterns of the store *)

Module PatternProps.

Import StoreActions.

Lemma categoryGet_None_keys {V : Type} (k : TransactionCategory)
    (m : list (TransactionCategory * V)) :
  categoryGet k m = None -> ~ In k (List.map fst m).
Proof.
  induction m as [|[k' v'] m IH]; cbn; [tauto|].
  destruct (bool_decide (k' = k)) eqn:E; [discriminate|].
  apply bool_decide_eq_false in E.
  intros Hget [Heq|Hin]; [exact (E Heq)|exact (IH Hget Hin)].
Qed.

Lemma categorySet_keys {V : Type} (k : TransactionCategory) (v : V)
    (m : list (TransactionCategory * V)) :
  List.map fst (categorySet k v m)
  = match categoryGet k m with
    | Some _ => List.map fst m
    | None => List.map fst m ++ [k]
    end.
Proof.
  induction m as [|[k' v'] m IH]; cbn; [reflexivity|].
  destruct (bool_decide (k' = k)) eqn:E; cbn.
  - apply bool_decide_eq_true in E. subst k'. reflexivity.
  - rewrite IH. destruct (categoryGet k m); reflexivity.
Qed.

Lemma categorySet_NoDup {V : Type} (k : TransactionCategory) (v : V)
    (m : list (TransactionCategory * V)) :
  List.NoDup (List.map fst m) -> List.NoDup (List.map fst (categorySet k v m)).
Proof.
  intros Hm. rewrite categorySet_keys.
  destruct (categoryGet k m) eqn:E; [exact Hm|].
  apply List.NoDup_app; [exact Hm| |].
  - apply List.NoDup_cons; [intros []|apply List.NoDup_nil].
  - intros a Ha [<-|[]]. exact (categoryGet_None_keys _ _ E Ha).
Qed.

(** The categories, all of them. *)
Lemma categories_all (c : TransactionCategory) :
  In c [food; transportation; entertainment; utilities; rent; healthcare;
        shopping; education; salary; investment; other].
Proof. destruct c; cbn; tauto. Qed.

Lemma analyzeSpendingPatterns_NoDup (now : Date) (txs : list Transaction) :
  List.NoDup (List.map sp_category (analyzeSpendingPatterns now txs)).
Proof.
  unfold analyzeSpendingPatterns. cbv zeta.
  match goal with
  | |- context [List.fold_left ?f ?l []] =>
    generalize l as recent; intros recent;
    assert (Hnd : List.NoDup (List.map fst (List.fold_left f recent [])))
  end.
  { induction recent as [|t recent IH] using rev_ind; [constructor|].
    rewrite List.fold_left_app. cbn [List.fold_left].
    apply categorySet_NoDup, IH. }
  rewrite List.map_map.
  erewrite List.map_ext; [exact Hnd|]. intros [c g]. reflexivity.
Qed.

(** X21. The spending patterns have pairwise distinct categories: there
    is at most one pattern for a category, so never more than eleven. *)
Theorem analyzeSpendingPatterns_categories (now : Date)
    (txs : list Transaction) :
  List.NoDup (List.map sp_category (analyzeSpendingPatterns now txs))
  /\ length (analyzeSpendingPatterns now txs) <= 11.
Proof.
  split; [apply analyzeSpendingPatterns_NoDup|].
  rewrite <- (List.length_map sp_category).
  apply (List.NoDup_incl_length (analyzeSpendingPatterns_NoDup now txs)
           (l' := [food; transportation; entertainment; utilities; rent;
                   healthcare; shopping; education; salary; investment;
                   other])).
  intros c _. apply categories_all.
Qed.

(** X22. The income patterns have pairwise distinct sources, and the
    monthly average of a source is a third of the sum of the income of
    the last ninety days received from it, added in the order of the
    list. *)
Theorem analyzeIncomePatterns_sources (now : Date) (txs : list Transaction) :
  let recentIncome :=
    List.filter
      (fun t => isIncome t && (now - 90 * 24 * 60 * 60 * 1000 <=? t_date t)%Z)
      txs in
  List.NoDup (List.map ip_source (analyzeIncomePatterns now txs))
  /\ List.Forall
       (fun p => ip_averageMonthly p
                 = (sumAmounts (merchantGroup (ip_source p) recentIncome) / 3)%float
                 /\ merchantGroup (ip_source p) recentIncome <> [])
       (analyzeIncomePatterns now txs).
Proof.
  intros recentIncome. unfold analyzeIncomePatterns. cbv zeta.
  fold recentIncome. split.
  - rewrite List.map_map.
    erewrite List.map_ext;
      [apply (RecurringProps.groupByMerchant_spec recentIncome)|].
    intros [k g]. reflexivity.
  - apply List.Forall_forall. intros p Hp.
    apply List.in_map_iff in Hp as [[k g] [<- Hin]].
    apply RecurringProps.groupByMerchant_entries in Hin as [<- Hne].
    cbn [ip_source ip_averageMonthly]. split; [reflexivity|exact Hne].
Qed.




End PatternProps.

(** ** What the screens show *)

Module ScreenProps.

Import Screens.


(** X24. The transactions screen lists the transactions of the chosen
    type, each one once, from the newest to the oldest; transactions of
    the same instant stay in the order of the store. *)
Theorem filteredTransactions_newest_first (filter : option TransactionType)
    (txs : list Transaction) :
  let chosen := fun t => match filter with
                         | None => true
                         | Some type => bool_decide (t_type t = type)
                         end in
  StronglySorted (fun a b => (t_date b <= t_date a)%Z)
    (filteredTransactions filter txs)
  /\ Permutation (List.filter chosen txs) (filteredTransactions filter txs)
  /\ forall d, List.filter (fun t => (t_date t =? d)%Z)
                 (filteredTransactions filter txs)
               = List.filter (fun t => (t_date t =? d)%Z)
                   (List.filter chosen txs).
Proof.
  intros chosen. unfold filteredTransactions. fold chosen.
  change (fun a b : Transaction => (t_date b - t_date a)%Z)
    with (descendingBy t_date).
  split; [apply (SortProps.sort_sorted t_date)|].
  split; [apply (SortProps.sort_perm t_date)|].
  intros d. apply (SortProps.sort_stable t_date).
Qed.

(** The transactions added one by one are added at the end. *)
Lemma addTransactions_transactions (ts : list Transaction) (s : FinanceState) :
  s_transactions (addTransactions ts s) = s_transactions s ++ ts.
Proof.
  unfold addTransactions. revert s.
  induction ts as [|t ts IH]; intros s; cbn [List.fold_left].
  - symmetry. apply app_nil_r.
  - rewrite IH. unfold addTransaction, setTransactions. cbn [s_transactions].
    rewrite <- app_assoc. reflexivity.
Qed.

Lemma handleImport_made (dateParse : str -> option Date) (now : Date)
    (content : str) (selectedBank : option str) :
  List.Forall
    (fun t => t_category t
              = categorizeTransaction (t_description t)
                  (Some (FileImport.extractMerchantName (t_description t)))
              /\ t_merchantName t = Some (FileImport.extractMerchantName (t_description t))
              /\ t_accountId t = []
              /\ (0 <? t_amount t)%float = true)
    (handleImport dateParse now content selectedBank).
Proof.
  unfold handleImport.
  destruct (negb (fst (FileImport.validateFile content))); [constructor|].
  cbv zeta.
  match goal with
  | |- context [if ?c then [] else _] => destruct c
  end; [constructor|].
  pose proof (ImportShapeProps.importCSV_made dateParse now content selectedBank)
    as Hmade.
  apply List.Forall_map. eapply List.Forall_impl; [|exact Hmade].
  intros t (Hamount & _ & _ & Hmerchant & _ & _ & Haccount & _).
  cbn [t_category t_description t_merchantName t_accountId t_amount].
  rewrite Hmerchant. auto.
Qed.

(** X25. The transactions the import screen adds to the store carry the
    category the categorizer gives to their description and to the
    merchant name extracted from that same description, an amount above
    zero, and no account. *)
Theorem handleImport_categorized (dateParse : str -> option Date) (now : Date)
    (content : str) (selectedBank : option str) :
  List.Forall
    (fun t => t_category t
              = categorizeTransaction (t_description t)
                  (Some (FileImport.extractMerchantName (t_description t)))
              /\ t_merchantName t = Some (FileImport.extractMerchantName (t_description t))
              /\ t_accountId t = []
              /\ (0 <? t_amount t)%float = true)
    (handleImport dateParse now content selectedBank).
Proof. apply handleImport_made. Qed.

(** X26. Imported transactions belong to no account: removing an account
    (of a non-empty identifier) after an import leaves every imported
    transaction in the store, after the ones that were there and
    remain. *)
Theorem handleImport_outlives_accounts (dateParse : str -> option Date)
    (now : Date) (content : str) (selectedBank : option str) (id : str)
    (s : FinanceState) :
  id <> [] ->
  s_transactions
    (removeAccount id (handleImportAction dateParse now content selectedBank s))
  = s_transactions (removeAccount id s)
    ++ handleImport dateParse now content selectedBank.
Proof.
  intros Hid. unfold handleImportAction, removeAccount, setTransactions.
  cbn [s_transactions]. unfold setAccounts. cbn [s_transactions].
  rewrite addTransactions_transactions, List.filter_app. f_equal.
  apply StoreProps.filter_all.
  eapply List.Forall_impl;
    [|exact (handleImport_made dateParse now content selectedBank)].
  cbn beta. intros t (_ & _ & Haccount & _). rewrite Haccount.
  rewrite RecurringProps.str_eqb_neq by congruence. reflexivity.
Qed.

Lemma handleImport_outlives_accounts_witness :
  let content :=
    js "Date,Description,Amount" ++ [NEWLINE] ++ js "2024-03-01,FOO,5" in
  s_transactions
    (removeAccount (js "account-1")
       (handleImportAction FileImport.isoDateParse Examples.clock1 content None
          initialState))
  = s_transactions (removeAccount (js "account-1") initialState)
    ++ handleImport FileImport.isoDateParse Examples.clock1 content None.
Proof.
  apply (handleImport_outlives_accounts FileImport.isoDateParse Examples.clock1
           (js "Date,Description,Amount" ++ [NEWLINE] ++ js "2024-03-01,FOO,5")
           None (js "account-1") initialState).
  vm_compute. discriminate.
Defined.

End ScreenProps.

(** ** The daily budget *)

Module DailyProps.

Import Store.

Lemma ltb_leb (x y : float) : (x <? y)%float = true -> (x <=? y)%float = true.
Proof.
  rewrite FloatAxioms.ltb_spec, FloatAxioms.leb_spec.
  unfold SFltb, SFleb. destruct (SFcompare _ _) as [[]|]; congruence.
Qed.

(** X28. The progress drawn by the budget circle is never above 100: a
    percentage that is a number is shown as it is below 100 and as 100
    from there on. *)
Theorem progress_capped (b : DailyBudget) :
  is_nan (db_percentageUsed b) = false ->
  (progress b <=? 100)%float = true
  /\ progress b
     = (if (db_percentageUsed b <? 100)%float then db_percentageUsed b
        else 100%float).
Proof.
  intros Hnan. unfold progress. cbv zeta. rewrite Hnan.
  destruct (db_percentageUsed b <? 100)%float eqn:E.
  - split; [apply ltb_leb, E|reflexivity].
  - split; reflexivity.
Qed.

Lemma progress_capped_witness :
  (progress
     (calculateDailyBudget Examples.clock1
        (Examples.charges [9.99; 9.99; 9.99]%float) [] []) <=? 100)%float
  = true.
Proof.
  apply (progress_capped
           (calculateDailyBudget Examples.clock1
              (Examples.charges [9.99; 9.99; 9.99]%float) [] [])).
  vm_compute. reflexivity.
Defined.

End DailyProps.

(** ** Reading a date *)

Module DateProps.

Import ImportShape.

Lemma split_go_join (c : char) (cur s : str) :
  join [c] (split_go c cur s) = rev cur ++ s.
Proof.
  revert cur. induction s as [|x s IH]; intros cur; cbn [split_go].
  - cbn [join]. symmetry. apply app_nil_r.
  - destruct (N.eqb_spec x c) as [->|Hne].
    + specialize (IH []). cbn [rev app] in IH.
      destruct (split_go c [] s) as [|p rest] eqn:E.
      * destruct s; cbn [split_go] in E; [discriminate|].
        destruct (_ =? _)%N; discriminate.
      * cbn [join]. cbn [join] in IH.
        change (join [c] (rev cur :: p :: rest))
          with (rev cur ++ [c] ++ join [c] (p :: rest)).
        rewrite IH. reflexivity.
    + rewrite IH. cbn [rev]. rewrite <- app_assoc. reflexivity.
Qed.

(** Splitting and joining with the same separator gives the string
    back. *)
Lemma split_join (c : char) (s : str) : join [c] (split c s) = s.
Proof. apply (split_go_join c [] s). Qed.

(** The two formats written with a slash hand back to the parser the
    very string it has refused. *)
Lemma matchFormat_slash (bounds : list (nat * nat)) (s p1 p2 p3 : str) :
  matchFormat (47%N, bounds) s = Some (p1, p2, p3) ->
  p1 ++ js "/" ++ p2 ++ js "/" ++ p3 = s.
Proof.
  unfold matchFormat. cbn [fst snd]. intros H.
  rewrite <- (split_join 47%N s).
  destruct (split 47%N s) as [|q1 [|q2 [|q3 [|q4 rest]]]]; try discriminate H.
  destruct bounds as [|b1 [|b2 [|b3 [|b4 bs]]]]; try discriminate H.
  destruct (_ && _); [|discriminate H].
  injection H as <- <- <-. reflexivity.
Qed.

(** The groups of a format written with dashes are the pieces between
    the dashes. *)
Lemma matchFormat_dash (bounds : list (nat * nat)) (s p1 p2 p3 : str) :
  matchFormat (45%N, bounds) s = Some (p1, p2, p3) ->
  split 45%N s = [p1; p2; p3]
  /\ forallb isDigit (p1 ++ p2 ++ p3) = true.
Proof.
  unfold matchFormat. cbn [fst snd].
  destruct (split 45%N s) as [|q1 [|q2 [|q3 [|q4 rest]]]]; try discriminate.
  destruct bounds as [|b1 [|b2 [|b3 [|b4 bs]]]]; try discriminate.
  destruct (groupOk q1 b1 && groupOk q2 b2 && groupOk q3 b3) eqn:E;
    [|discriminate].
  intros [= <- <- <-]. split; [reflexivity|].
  unfold groupOk in E. rewrite !andb_true_iff in E.
  rewrite !forallb_app, !andb_true_iff. tauto.
Qed.

(** X29. A date is read by the date parser of the engine from the
    trimmed text; when the parser refuses it and the text is three
    groups of digits separated by dashes (four digits first or last, one
    or two in the others), it is read from the same groups separated by
    slashes; otherwise no date is read. The formats written with
    slashes, among them the day-first one, never read a date: they pass
    on the text that the parser has refused. So a parser that reads
    2024/3/1 and not 2024-3-1 gets the latter through the formats, and a
    parser that refuses 1/3/2024 is asked nothing else. *)
Theorem parseDate_cases (dateParse : str -> option Date) (dateStr : str) :
  parseDate dateParse dateStr
  = match dateParse (trim dateStr) with
    | Some date => Some date
    | None =>
      match dashGroups (trim dateStr) with
      | Some (p1, p2, p3) => dateParse (p1 ++ js "/" ++ p2 ++ js "/" ++ p3)
      | None => None
      end
    end
  /\ (forall p1 p2 p3,
        dashGroups (trim dateStr) = Some (p1, p2, p3) ->
        split 45%N (trim dateStr) = [p1; p2; p3]
        /\ forallb isDigit (p1 ++ p2 ++ p3) = true)
  /\ slashDateParse (js "2024-3-1") = None
  /\ parseDate slashDateParse (js " 2024-3-1 ") = slashDateParse (js "2024/3/1")
  /\ slashDateParse (js "2024/3/1") = Some 1709251200000%Z
  /\ parseDate slashDateParse (js "1/3/2024") = None.
Proof.
  split; [|split; [|split; [|split; [|split]]]; try (vm_compute; reflexivity)].
  - unfold parseDate. cbv zeta.
    destruct (dateParse (trim dateStr)) as [direct|] eqn:Hdirect; [reflexivity|].
    cbv beta iota fix delta [dateFormats].
    assert (Hslash :
      match matchFormat (47%N, [(1, 2); (1, 2); (4, 4)]%nat) (trim dateStr) with
      | Some (p1, p2, p3) => dateParse (p1 ++ js "/" ++ p2 ++ js "/" ++ p3)
      | None => None
      end = None).
    { destruct (matchFormat _ (trim dateStr)) as [[[p1 p2] p3]|] eqn:E;
        [|reflexivity].
      rewrite (matchFormat_slash _ _ _ _ _ E). exact Hdirect. }
    destruct (matchFormat (47%N, [(1, 2); (1, 2); (4, 4)]%nat) (trim dateStr))
      as [[[s1 s2] s3]|]; [rewrite Hslash|]; clear Hslash.
    all: unfold dashGroups.
    all: destruct (matchFormat (45%N, [(4, 4); (1, 2); (1, 2)]%nat) (trim dateStr))
           as [[[p1 p2] p3]|] eqn:E1;
      [ destruct (dateParse (p1 ++ js "/" ++ p2 ++ js "/" ++ p3)) eqn:Hparsed;
        [reflexivity|];
        destruct (matchFormat (45%N, [(1, 2); (1, 2); (4, 4)]%nat) (trim dateStr))
          as [[[q1 q2] q3]|] eqn:E2; [|reflexivity];
        apply matchFormat_dash in E1 as [E1 _];
        apply matchFormat_dash in E2 as [E2 _];
        rewrite E1 in E2; injection E2 as <- <- <-; rewrite Hparsed; reflexivity
      | destruct (matchFormat (45%N, [(1, 2); (1, 2); (4, 4)]%nat) (trim dateStr))
          as [[[q1 q2] q3]|]; [|reflexivity];
        destruct (dateParse (q1 ++ js "/" ++ q2 ++ js "/" ++ q3)); reflexivity ].
  - intros p1 p2 p3. unfold dashGroups.
    destruct (matchFormat (45%N, [(4, 4); (1, 2); (1, 2)]%nat) (trim dateStr))
      as [[[q1 q2] q3]|] eqn:E1.
    + intros [= <- <- <-]. exact (matchFormat_dash _ _ _ _ _ E1).
    + apply matchFormat_dash.
Qed.

End DateProps.

(** ** Determinism and the clock *)

Module ClockProps.

Import Clocked.

(** *** The number in an id *)

Lemma string_of_uint_digits (d : Decimal.uint) :
  forallb isDigit
    (List.map byte_of (list_ascii_of_string (NilEmpty.string_of_uint d)))
  = true.
Proof. induction d; cbn [NilEmpty.string_of_uint]; try reflexivity; exact IHd. Qed.

(** The decimal rendering of a number that is not negative: digits, at
    least one. *)
Lemma ofZ_digits (z : Z) :
  (0 <= z)%Z -> forallb isDigit (ofZ z) = true /\ ofZ z <> [].
Proof.
  intros Hz. unfold ofZ. destruct z as [|p|p]; [split; [reflexivity|discriminate]| |lia].
  cbn [Z.to_int NilZero.string_of_int]. unfold NilZero.string_of_uint.
  pose proof (Stdlib.Numbers.DecimalPos.Unsigned.to_uint_nonnil p) as Hnil.
  destruct (Pos.to_uint p) eqn:E; try congruence;
    (split; [apply string_of_uint_digits|discriminate]).
Qed.

Lemma skipToDigit_app (p s : str) :
  forallb (fun c => negb (isDigit c)) p = true ->
  skipToDigit (p ++ s) = skipToDigit s.
Proof.
  induction p as [|c p IH]; [reflexivity|]. cbn [forallb app skipToDigit].
  intros H. apply andb_true_iff in H as [Hc Hp].
  apply negb_true_iff in Hc. rewrite Hc. exact (IH Hp).
Qed.

Lemma digitsRun_app (ds s : str) :
  forallb isDigit ds = true ->
  match s with [] => True | c :: _ => isDigit c = false end ->
  digitsRun (ds ++ s) = ds.
Proof.
  intros Hds Hs. induction ds as [|c ds IH]; cbn [app digitsRun].
  - destruct s as [|c s]; [reflexivity|]. cbn [digitsRun]. rewrite Hs. reflexivity.
  - cbn [forallb] in Hds. apply andb_true_iff in Hds as [Hc Hds].
    rewrite Hc, (IH Hds). reflexivity.
Qed.

(** An id that writes a reading after a text without digits, and
    before nothing or a text that starts with no digit, has that reading
    as its number. *)
Lemma idStamp_reading (prefix suffix : str) (t : Date) :
  (0 <= t)%Z ->
  forallb (fun c => negb (isDigit c)) prefix = true ->
  match suffix with [] => True | c :: _ => isDigit c = false end ->
  idStamp (prefix ++ ofZ t ++ suffix) = ofZ t.
Proof.
  intros Ht Hprefix Hsuffix. unfold idStamp.
  destruct (ofZ_digits t Ht) as [Hdigits Hsome].
  rewrite (skipToDigit_app _ _ Hprefix).
  destruct (ofZ t) as [|c ds] eqn:E; [congruence|].
  cbn [forallb] in Hdigits. apply andb_true_iff in Hdigits as [Hc Hds].
  cbn [app skipToDigit]. rewrite Hc.
  apply (digitsRun_app (c :: ds) suffix); [|exact Hsuffix].
  cbn [forallb]. rewrite Hc, Hds. reflexivity.
Qed.

Lemma idStamp_reading_end (prefix : str) (t : Date) :
  (0 <= t)%Z ->
  forallb (fun c => negb (isDigit c)) prefix = true ->
  idStamp (prefix ++ ofZ t) = ofZ t.
Proof.
  intros Ht Hprefix. rewrite <- (app_nil_r (ofZ t)) at 1.
  apply idStamp_reading; [exact Ht|exact Hprefix|exact I].
Qed.

Lemma categoryString_no_digit (c : TransactionCategory) :
  forallb (fun c => negb (isDigit c)) (categoryString c) = true.
Proof. destruct c; vm_compute; reflexivity. Qed.

(** *** Computations that read the clock *)

Lemma wellTimed_ret {A : Type} (a : A) : wellTimed (ret a).
Proof. intros clock1 n. split; [apply Nat.le_refl|reflexivity]. Qed.

Lemma wellTimed_readClock : wellTimed readClock.
Proof.
  intros clock1 n. unfold readClock. cbn [snd]. split; [lia|].
  intros clock2 H. rewrite (H n) by lia. reflexivity.
Qed.

Lemma wellTimed_bind {A B : Type} (m : Timed A) (f : A -> Timed B) :
  wellTimed m -> (forall a, wellTimed (f a)) -> wellTimed (bind m f).
Proof.
  intros Hm Hf clock1 n. unfold bind.
  destruct (Hm clock1 n) as [Hle Hlocal].
  destruct (m clock1 n) as [a n'] eqn:E. cbn [snd] in Hle, Hlocal.
  destruct (Hf a clock1 n') as [Hle' Hlocal'].
  split; [lia|]. intros clock2 H.
  rewrite (Hlocal clock2) by (intros k Hk; apply H; lia).
  apply Hlocal'. intros k Hk. apply H. lia.
Qed.

Lemma wellTimed_andThen {A : Type} (m1 m2 : Timed (list A)) :
  wellTimed m1 -> wellTimed m2 -> wellTimed (andThen m1 m2).
Proof.
  intros H1 H2. unfold andThen.
  apply wellTimed_bind; [exact H1|]. intros l1.
  apply wellTimed_bind; [exact H2|]. intros l2. apply wellTimed_ret.
Qed.

Lemma wellTimed_forEach {A B : Type} (l : list A) (body : A -> Timed (list B)) :
  (forall a, wellTimed (body a)) -> wellTimed (forEach l body).
Proof.
  intros Hbody. induction l as [|a l IH]; cbn [forEach].
  - apply wellTimed_ret.
  - apply wellTimed_andThen; [apply Hbody|exact IH].
Qed.

(** Goes through a detector, piece by piece. *)
Ltac well_timed :=
  repeat match goal with
    | |- wellTimed (let _ := _ in _) => cbv zeta
    | |- wellTimed (if ?c then _ else _) => destruct c
    | |- wellTimed (andThen _ _) => apply wellTimed_andThen
    | |- wellTimed (forEach _ _) => apply wellTimed_forEach; intros ?
    | |- wellTimed (bind _ _) => apply wellTimed_bind; [|intros ?]
    | |- wellTimed readClock => apply wellTimed_readClock
    | |- wellTimed (ret _) => apply wellTimed_ret
    end.

(** *** The insights a computation makes *)

Lemma stampedBy_later (clock : Clock) (lo hi hi' : nat) (i : FinancialInsight) :
  hi <= hi' -> stampedBy clock lo hi i -> stampedBy clock lo hi' i.
Proof.
  intros Hle (j & k & Hj & Hk & Hid & Hcreated).
  exists j, k. repeat split; try tauto; lia.
Qed.

Lemma stamps_ret_nil (clock : Clock) (lo from : nat) :
  stamps clock lo from (ret []).
Proof. intros n _. split; [apply Nat.le_refl|apply List.Forall_nil]. Qed.

Lemma stamps_andThen (clock : Clock) (lo from : nat)
    (m1 m2 : Timed (list FinancialInsight)) :
  stamps clock lo from m1 -> stamps clock lo from m2 ->
  stamps clock lo from (andThen m1 m2).
Proof.
  intros H1 H2 n Hn. unfold andThen, bind, ret.
  destruct (H1 n Hn) as [Hle1 Hall1].
  destruct (m1 clock n) as [l1 n1]. cbn [fst snd] in Hle1, Hall1.
  destruct (H2 n1 ltac:(lia)) as [Hle2 Hall2].
  destruct (m2 clock n1) as [l2 n2]. cbn [fst snd] in *.
  split; [lia|]. apply List.Forall_app. split; [|exact Hall2].
  eapply List.Forall_impl; [|exact Hall1].
  intros i. apply stampedBy_later, Hle2.
Qed.

Lemma stamps_forEach {A : Type} (clock : Clock) (lo from : nat) (l : list A)
    (body : A -> Timed (list FinancialInsight)) :
  (forall a, stamps clock lo from (body a)) ->
  stamps clock lo from (forEach l body).
Proof.
  intros Hbody. induction l as [|a l IH]; cbn [forEach].
  - apply stamps_ret_nil.
  - apply stamps_andThen; [apply Hbody|exact IH].
Qed.

(** An insight is pushed: its id is made from a new reading, its
    [createdAt] is a reading taken before. *)
Lemma stamps_push (clock : Clock) (lo from k : nat)
    (make : Date -> FinancialInsight) :
  (forall n, (0 <= clock n)%Z) ->
  lo <= k < from ->
  (forall t, (0 <= t)%Z -> idStamp (i_id (make t)) = ofZ t) ->
  (forall t, i_createdAt (make t) = clock k) ->
  stamps clock lo from (bind readClock (fun idNow => ret [make idNow])).
Proof.
  intros Hclock Hk Hid Hcreated n Hn. unfold bind, readClock, ret.
  cbn [fst snd]. split; [lia|].
  apply List.Forall_cons; [|apply List.Forall_nil].
  exists n, k. split; [lia|]. split; [lia|].
  split; [apply Hid, Hclock|apply Hcreated].
Qed.

(** An insight is pushed: its id is made from a new reading, its
    [createdAt] from the reading after. *)
Lemma stamps_push_created (clock : Clock) (lo from : nat)
    (make : Date -> Date -> FinancialInsight) :
  (forall n, (0 <= clock n)%Z) ->
  lo <= from ->
  (forall t created, (0 <= t)%Z -> idStamp (i_id (make t created)) = ofZ t) ->
  (forall t created, i_createdAt (make t created) = created) ->
  stamps clock lo from
    (bind readClock (fun idNow =>
       bind readClock (fun created => ret [make idNow created]))).
Proof.
  intros Hclock Hlo Hid Hcreated n Hn. unfold bind, readClock, ret.
  cbn [fst snd]. split; [lia|].
  apply List.Forall_cons; [|apply List.Forall_nil].
  exists n, (S n). split; [lia|]. split; [lia|].
  split; [apply Hid, Hclock|apply Hcreated].
Qed.

(** A detector starts with a reading, kept as [now]. *)
Lemma stamps_now (clock : Clock) (lo from : nat)
    (body : Date -> Timed (list FinancialInsight)) :
  (forall n, from <= n -> stamps clock lo (S n) (body (clock n))) ->
  stamps clock lo from (bind readClock body).
Proof.
  intros Hbody n Hn. unfold bind, readClock.
  destruct (Hbody n Hn (S n) (Nat.le_refl _)) as [Hle Hall].
  split; [lia|exact Hall].
Qed.

(** The id of an insight, read back. *)
Ltac id_reading :=
  intros; cbn [i_id];
  first
    [ match goal with
      | |- idStamp (?p ++ ofZ ?t) = _ =>
        apply idStamp_reading_end; [assumption|vm_compute; reflexivity]
      end
    | match goal with
      | |- idStamp (?p ++ ofZ ?t ++ ?c ++ ?s) = _ =>
        apply idStamp_reading; [assumption|vm_compute; reflexivity|reflexivity]
      end
    | match goal with
      | |- idStamp (?p ++ categoryString ?c ++ ?d ++ ofZ ?t) = _ =>
        rewrite (app_assoc (categoryString c) d), (app_assoc p);
        apply idStamp_reading_end;
        [assumption
        |rewrite !forallb_app, categoryString_no_digit; vm_compute; reflexivity]
      end ].

Ltac stamped :=
  repeat match goal with
    | |- stamps _ _ _ (let _ := _ in _) => cbv zeta
    | |- stamps _ _ _ (if ?c then _ else _) => destruct c
    | |- stamps _ _ _ (andThen _ _) => apply stamps_andThen
    | |- stamps _ _ _ (forEach _ _) => apply stamps_forEach; intros ?
    | |- stamps _ _ _ (ret []) => apply stamps_ret_nil
    | H : forall n, (0 <= ?clock n)%Z, Hn : ?from <= ?n
      |- stamps ?clock ?lo (S ?n) (bind readClock (fun idNow => ret [_])) =>
      apply (stamps_push clock lo (S n) n); [exact H|lia|id_reading|reflexivity]
    end.

Section WithCalendar.

Variable cal : Calendar.
Variable txs : list Transaction.

Lemma detectUnnecessaryExpenses_wellTimed :
  wellTimed (detectUnnecessaryExpenses cal txs).
Proof. unfold detectUnnecessaryExpenses. well_timed. Qed.

Lemma detectRecurringExpenses_wellTimed :
  wellTimed (detectRecurringExpenses txs).
Proof. unfold detectRecurringExpenses. well_timed. Qed.

Lemma detectUnusualSpending_wellTimed :
  wellTimed (detectUnusualSpending cal txs).
Proof. unfold detectUnusualSpending. well_timed. Qed.

Lemma suggestBudgetOptimizations_wellTimed :
  wellTimed (suggestBudgetOptimizations cal txs).
Proof. unfold suggestBudgetOptimizations. well_timed. Qed.

Lemma analyzeIncomeOpportunities_wellTimed :
  wellTimed (analyzeIncomeOpportunities cal txs).
Proof. unfold analyzeIncomeOpportunities. well_timed. Qed.

Lemma detectIncomePatterns_wellTimed :
  wellTimed (detectIncomePatterns cal txs).
Proof. unfold detectIncomePatterns. well_timed. Qed.

Lemma generateInsights_wellTimed : wellTimed (generateInsights cal txs).
Proof.
  unfold generateInsights, collectInsights.
  apply wellTimed_bind; [|intros l; apply wellTimed_ret].
  repeat apply wellTimed_andThen.
  - apply detectUnnecessaryExpenses_wellTimed.
  - apply detectRecurringExpenses_wellTimed.
  - apply detectUnusualSpending_wellTimed.
  - apply suggestBudgetOptimizations_wellTimed.
  - apply analyzeIncomeOpportunities_wellTimed.
  - apply detectIncomePatterns_wellTimed.
Qed.

Variable clock : Clock.
Hypothesis clock_positive : forall n, (0 <= clock n)%Z.

Lemma detectUnnecessaryExpenses_stamps lo :
  stamps clock lo lo (detectUnnecessaryExpenses cal txs).
Proof.
  unfold detectUnnecessaryExpenses. apply stamps_now. intros n Hn. stamped.
Qed.

Lemma detectRecurringExpenses_stamps lo :
  stamps clock lo lo (detectRecurringExpenses txs).
Proof.
  unfold detectRecurringExpenses. stamped.
  apply stamps_push_created;
    [exact clock_positive|apply Nat.le_refl|id_reading|reflexivity].
Qed.

Lemma detectUnusualSpending_stamps lo :
  stamps clock lo lo (detectUnusualSpending cal txs).
Proof.
  unfold detectUnusualSpending. apply stamps_now. intros n Hn. stamped.
Qed.

Lemma suggestBudgetOptimizations_stamps lo :
  stamps clock lo lo (suggestBudgetOptimizations cal txs).
Proof.
  unfold suggestBudgetOptimizations. apply stamps_now. intros n Hn. stamped.
Qed.

Lemma analyzeIncomeOpportunities_stamps lo :
  stamps clock lo lo (analyzeIncomeOpportunities cal txs).
Proof.
  unfold analyzeIncomeOpportunities. apply stamps_now. intros n Hn. stamped.
Qed.

Lemma detectIncomePatterns_stamps lo :
  stamps clock lo lo (detectIncomePatterns cal txs).
Proof.
  unfold detectIncomePatterns. apply stamps_now. intros n Hn. stamped.
Qed.

Lemma generateInsights_stamps lo :
  stamps clock lo lo (generateInsights cal txs).
Proof.
  assert (Hcollect : stamps clock lo lo (collectInsights cal txs)).
  { unfold collectInsights.
    repeat match goal with
           | |- stamps _ _ _ (andThen _ _) => apply stamps_andThen
           end.
    - apply detectUnnecessaryExpenses_stamps.
    - apply detectRecurringExpenses_stamps.
    - apply detectUnusualSpending_stamps.
    - apply suggestBudgetOptimizations_stamps.
    - apply analyzeIncomeOpportunities_stamps.
    - apply detectIncomePatterns_stamps. }
  intros n Hn. unfold generateInsights, bind, ret.
  destruct (Hcollect n Hn) as [Hle Hall].
  destruct (collectInsights cal txs clock n) as [l n']. cbn [fst snd] in *.
  split; [exact Hle|].
  apply (Permutation_Forall
           (SortProps.sort_perm (fun i => priorityOrder (i_priority i)) l)).
  exact Hall.
Qed.

Lemma analyses_stamps m lo :
  In m (analyses cal txs) -> stamps clock lo lo m.
Proof.
  unfold analyses. cbn [In].
  intros [<-|[<-|[<-|[<-|[<-|[<-|[<-|[]]]]]]]].
  - apply detectUnnecessaryExpenses_stamps.
  - apply detectRecurringExpenses_stamps.
  - apply detectUnusualSpending_stamps.
  - apply suggestBudgetOptimizations_stamps.
  - apply analyzeIncomeOpportunities_stamps.
  - apply detectIncomePatterns_stamps.
  - apply generateInsights_stamps.
Qed.

End WithCalendar.

Lemma analyses_wellTimed cal txs (m : Timed (list FinancialInsight)) :
  In m (analyses cal txs) -> wellTimed m.
Proof.
  unfold analyses. cbn [In].
  intros [<-|[<-|[<-|[<-|[<-|[<-|[<-|[]]]]]]]].
  - apply detectUnnecessaryExpenses_wellTimed.
  - apply detectRecurringExpenses_wellTimed.
  - apply detectUnusualSpending_wellTimed.
  - apply suggestBudgetOptimizations_wellTimed.
  - apply analyzeIncomeOpportunities_wellTimed.
  - apply detectIncomePatterns_wellTimed.
  - apply generateInsights_wellTimed.
Qed.

(** Two runs that share no reading share no id and no timestamp. *)
Lemma stamps_apart (clock1 clock2 : Clock) (m : Timed (list FinancialInsight))
    (n : nat) (i1 i2 : FinancialInsight) :
  stamps clock1 n n m -> stamps clock2 n n m ->
  (forall j k, n <= j < snd (m clock1 n) -> n <= k < snd (m clock2 n) ->
               clock1 j <> clock2 k) ->
  In i1 (fst (m clock1 n)) -> In i2 (fst (m clock2 n)) ->
  i_id i1 <> i_id i2 /\ i_createdAt i1 <> i_createdAt i2.
Proof.
  intros H1 H2 Hapart Hin1 Hin2.
  destruct (H1 n (Nat.le_refl n)) as [_ Hall1].
  destruct (H2 n (Nat.le_refl n)) as [_ Hall2].
  rewrite List.Forall_forall in Hall1, Hall2.
  destruct (Hall1 i1 Hin1) as (j1 & k1 & Hj1 & Hk1 & Hid1 & Hcreated1).
  destruct (Hall2 i2 Hin2) as (j2 & k2 & Hj2 & Hk2 & Hid2 & Hcreated2).
  split.
  - intros Heq. apply (Hapart j1 j2 Hj1 Hj2).
    apply ImportShapeProps.ofZ_inj. rewrite <- Hid1, <- Hid2, Heq. reflexivity.
  - intros Heq. apply (Hapart k1 k2 Hk1 Hk2). congruence.
Qed.

(** *** A clock that stands still *)

Section Frozen.

Variable now : Date.

Lemma frozen_ret {A : Type} (a : A) :
  forall n, fst (ret a (frozen now) n) = a.
Proof. reflexivity. Qed.

Lemma frozen_now {A : Type} (body : Date -> Timed A) (a : A) :
  (forall n, fst (body now (frozen now) n) = a) ->
  forall n, fst (bind readClock body (frozen now) n) = a.
Proof. intros H n. apply (H (S n)). Qed.

Lemma frozen_bind {A B : Type} (m : Timed A) (f : A -> Timed B) (a : A) (b : B) :
  (forall n, fst (m (frozen now) n) = a) ->
  (forall n, fst (f a (frozen now) n) = b) ->
  forall n, fst (bind m f (frozen now) n) = b.
Proof.
  intros Hm Hf n. unfold bind. specialize (Hm n).
  destruct (m (frozen now) n) as [a' n']. cbn [fst] in Hm. subst a'.
  apply Hf.
Qed.

Lemma frozen_andThen {A : Type} (m1 m2 : Timed (list A)) (l1 l2 : list A) :
  (forall n, fst (m1 (frozen now) n) = l1) ->
  (forall n, fst (m2 (frozen now) n) = l2) ->
  forall n, fst (andThen m1 m2 (frozen now) n) = l1 ++ l2.
Proof.
  intros H1 H2. unfold andThen.
  apply (frozen_bind _ _ l1); [exact H1|].
  apply (frozen_bind _ _ l2); [exact H2|]. reflexivity.
Qed.

Lemma frozen_forEach {A B : Type} (l : list A) (body : A -> Timed (list B))
    (pushed : A -> list B) :
  (forall a n, fst (body a (frozen now) n) = pushed a) ->
  forall n, fst (forEach l body (frozen now) n) = List.flat_map pushed l.
Proof.
  intros Hbody. induction l as [|a l IH]; cbn [forEach List.flat_map].
  - reflexivity.
  - apply frozen_andThen; [apply Hbody|exact IH].
Qed.

Lemma frozen_forEach_one {A B : Type} (l : list A) (body : A -> Timed (list B))
    (pushed : A -> B) :
  (forall a n, fst (body a (frozen now) n) = [pushed a]) ->
  forall n, fst (forEach l body (frozen now) n) = List.map pushed l.
Proof.
  intros Hbody n.
  rewrite (frozen_forEach l body (fun a => [pushed a]) Hbody).
  induction l as [|a l IH]; cbn [List.flat_map List.map app]; congruence.
Qed.

Lemma frozen_if {A : Type} (c : bool) (m1 m2 : Timed A) (a1 a2 : A) :
  (forall n, fst (m1 (frozen now) n) = a1) ->
  (forall n, fst (m2 (frozen now) n) = a2) ->
  forall n, fst ((if c then m1 else m2) (frozen now) n) = if c then a1 else a2.
Proof. destruct c; auto. Qed.

Ltac frozen_run :=
  repeat match goal with
    | |- forall n, fst ((let _ := _ in _) (frozen _) n) = _ => cbv zeta
    | |- forall n, fst ((if ?c then _ else _) (frozen _) n) = if ?c then _ else _ =>
      apply frozen_if
    | |- forall n, fst (andThen _ _ (frozen _) n) = _ ++ _ =>
      apply frozen_andThen
    | |- forall n, fst (forEach _ _ (frozen _) n) = List.flat_map _ _ =>
      apply frozen_forEach; intros ?; cbv beta
    | |- forall n, fst (forEach _ _ (frozen _) n) = List.map _ _ =>
      apply frozen_forEach_one; intros ?; cbv beta
    | |- forall n, fst (bind readClock _ (frozen _) n) = _ =>
      apply frozen_now; cbv beta
    | |- forall n, fst (ret _ (frozen _) n) = _ => intros ?; reflexivity
    end.

Variable txs : list Transaction.

Lemma detectUnnecessaryExpenses_frozen n :
  fst (detectUnnecessaryExpenses utc txs (frozen now) n)
  = Intelligence.detectUnnecessaryExpenses now txs.
Proof.
  revert n. unfold detectUnnecessaryExpenses, Intelligence.detectUnnecessaryExpenses.
  cbn [utc subMonths startOfMonth]. frozen_run.
Qed.

Lemma detectRecurringExpenses_frozen n :
  fst (detectRecurringExpenses txs (frozen now) n)
  = Intelligence.detectRecurringExpenses now txs.
Proof.
  revert n. unfold detectRecurringExpenses, Intelligence.detectRecurringExpenses.
  frozen_run.
Qed.

Lemma detectUnusualSpending_frozen n :
  fst (detectUnusualSpending utc txs (frozen now) n)
  = Intelligence.detectUnusualSpending now txs.
Proof.
  revert n. unfold detectUnusualSpending, Intelligence.detectUnusualSpending.
  cbn [utc subMonths startOfMonth]. frozen_run.
Qed.

Lemma suggestBudgetOptimizations_frozen n :
  fst (suggestBudgetOptimizations utc txs (frozen now) n)
  = Intelligence.suggestBudgetOptimizations now txs.
Proof.
  revert n.
  unfold suggestBudgetOptimizations, Intelligence.suggestBudgetOptimizations.
  cbn [utc subMonths startOfMonth]. frozen_run.
Qed.

Lemma analyzeIncomeOpportunities_frozen n :
  fst (analyzeIncomeOpportunities utc txs (frozen now) n)
  = Intelligence.analyzeIncomeOpportunities now txs.
Proof.
  revert n.
  unfold analyzeIncomeOpportunities, Intelligence.analyzeIncomeOpportunities.
  change (groupByMonth utc) with Intelligence.groupByMonth.
  cbn [utc subMonths startOfMonth]. frozen_run.
Qed.

Lemma detectIncomePatterns_frozen n :
  fst (detectIncomePatterns utc txs (frozen now) n)
  = Intelligence.detectIncomePatterns now txs.
Proof.
  revert n. unfold detectIncomePatterns, Intelligence.detectIncomePatterns.
  cbn [utc subMonths startOfMonth]. frozen_run.
Qed.

(** At a clock that stands still, and with the calendar of UTC, the run
    gives the insights of [Intelligence.generateInsights] at that
    instant. *)
Lemma generateInsights_frozen n :
  fst (generateInsights utc txs (frozen now) n)
  = Intelligence.generateInsights now txs.
Proof.
  revert n. unfold generateInsights, Intelligence.generateInsights.
  apply (frozen_bind _ _ (Intelligence.collectInsights now txs));
    [|reflexivity].
  unfold collectInsights, Intelligence.collectInsights.
  repeat match goal with
         | |- forall n, fst (andThen _ _ (frozen _) n) = _ ++ _ =>
           apply frozen_andThen
         end.
  - apply detectUnnecessaryExpenses_frozen.
  - apply detectRecurringExpenses_frozen.
  - apply detectUnusualSpending_frozen.
  - apply suggestBudgetOptimizations_frozen.
  - apply analyzeIncomeOpportunities_frozen.
  - apply detectIncomePatterns_frozen.
Qed.

End Frozen.

(** *** The claim *)

(** C5, as stated, fails: the same list analysed twice, the second time
    a millisecond later, gives insights whose ids and timestamps
    differ. *)
Lemma generateInsights_twice_differs :
  let first :=
    fst (generateInsights utc [Examples.payroll]
           (ticking Examples.clock1) 0) in
  let second :=
    fst (generateInsights utc [Examples.payroll]
           (ticking Examples.clock2) 0) in
  List.map i_id first
  = [js "insight-budget-rule-1711888496792";
     js "insight-additional-income-1711888496794"]
  /\ List.map i_id second
     = [js "insight-budget-rule-1711888496793";
        js "insight-additional-income-1711888496795"]
  /\ List.map i_createdAt first = [1711888496791; 1711888496793]%Z
  /\ List.map i_createdAt second = [1711888496792; 1711888496794]%Z
  /\ first <> second.
Proof.
  cbv zeta.
  split; [vm_compute; reflexivity|].
  split; [vm_compute; reflexivity|].
  split; [vm_compute; reflexivity|].
  split; [vm_compute; reflexivity|].
  intros H. apply (f_equal (List.map i_createdAt)) in H.
  vm_compute in H. discriminate H.
Qed.

(** C5 (amended). The categorizer reads no clock: its answer is a
    function of the lower-cased text of its arguments. Each of the six
    detectors and [generateInsights] reads the device clock, in the
    time zone of the device whatever it is: the readings are taken one
    after the other, and two invocations on the identical list during
    which the clock gives the same readings produce identical output.
    The number in the id of every insight is a reading of the clock,
    and so is its [createdAt]; hence two invocations that share no
    reading produce no id and no timestamp in common, and their outputs
    differ as soon as an insight is emitted. The pattern functions of
    the store read the clock for their window only: they give the same
    patterns whenever the window takes the same transactions. *)
Theorem analysis_deterministic_given_clock (cal : Calendar)
    (txs : list Transaction) (clock1 clock2 : Clock)
    (m : Timed (list FinancialInsight)) (n : nat) :
  (forall k, (0 <= clock1 k)%Z) ->
  (forall k, (0 <= clock2 k)%Z) ->
  In m (analyses cal txs) ->
  let run1 := m clock1 n in
  let run2 := m clock2 n in
  (n <= snd run1
   /\ ((forall k, n <= k < snd run1 -> clock1 k = clock2 k) -> run2 = run1))
  /\ List.Forall (stampedBy clock1 n (snd run1)) (fst run1)
  /\ ((forall j k, n <= j < snd run1 -> n <= k < snd run2 ->
                   clock1 j <> clock2 k) ->
      (forall i1 i2, In i1 (fst run1) -> In i2 (fst run2) ->
                     i_id i1 <> i_id i2 /\ i_createdAt i1 <> i_createdAt i2)
      /\ (fst run1 <> [] -> fst run1 <> fst run2))
  /\ (forall d1 m1 d2 m2,
        categorizeText d1 m1 = categorizeText d2 m2 ->
        categorizeTransaction d1 m1 = categorizeTransaction d2 m2)
  /\ (forall now1 now2,
        (forall t, In t txs ->
           (now1 - 30 * 24 * 60 * 60 * 1000 <=? t_date t)%Z
           = (now2 - 30 * 24 * 60 * 60 * 1000 <=? t_date t)%Z) ->
        analyzeSpendingPatterns now1 txs = analyzeSpendingPatterns now2 txs)
  /\ (forall now1 now2,
        (forall t, In t txs ->
           (now1 - 90 * 24 * 60 * 60 * 1000 <=? t_date t)%Z
           = (now2 - 90 * 24 * 60 * 60 * 1000 <=? t_date t)%Z) ->
        analyzeIncomePatterns now1 txs = analyzeIncomePatterns now2 txs).
Proof.
  intros Hclock1 Hclock2 Hm run1 run2. subst run1 run2.
  pose proof (analyses_wellTimed cal txs m Hm clock1 n) as [Hle Hlocal].
  pose proof (analyses_stamps cal txs clock1 Hclock1 m n Hm) as Hstamps1.
  pose proof (analyses_stamps cal txs clock2 Hclock2 m n Hm) as Hstamps2.
  split; [split; [exact Hle|apply Hlocal]|].
  split; [apply (Hstamps1 n (Nat.le_refl n))|].
  split.
  { intros Hapart.
    assert (Hno : forall i1 i2,
              In i1 (fst (m clock1 n)) -> In i2 (fst (m clock2 n)) ->
              i_id i1 <> i_id i2 /\ i_createdAt i1 <> i_createdAt i2).
    { intros i1 i2.
      apply (stamps_apart clock1 clock2 m n i1 i2 Hstamps1 Hstamps2 Hapart). }
    split; [exact Hno|].
    intros Hsome Heq. destruct (fst (m clock1 n)) as [|i l] eqn:E; [congruence|].
    destruct (Hno i i) as [Hid _].
    - left. reflexivity.
    - rewrite <- Heq. left. reflexivity.
    - apply Hid. reflexivity. }
  split.
  { intros d1 m1 d2 m2 Htext.
    rewrite !CategorizerProps.categorizeTransaction_cascade, Htext.
    reflexivity. }
  split.
  - intros now1 now2 Hwindow. unfold analyzeSpendingPatterns. cbv zeta.
    rewrite (List.filter_ext_in
               (fun t => isExpense t
                         && (now1 - 30 * 24 * 60 * 60 * 1000 <=? t_date t)%Z)
               (fun t => isExpense t
                         && (now2 - 30 * 24 * 60 * 60 * 1000 <=? t_date t)%Z));
      [reflexivity|].
    intros t Ht. rewrite (Hwindow t Ht). reflexivity.
  - intros now1 now2 Hwindow. unfold analyzeIncomePatterns. cbv zeta.
    rewrite (List.filter_ext_in
               (fun t => isIncome t
                         && (now1 - 90 * 24 * 60 * 60 * 1000 <=? t_date t)%Z)
               (fun t => isIncome t
                         && (now2 - 90 * 24 * 60 * 60 * 1000 <=? t_date t)%Z));
      [reflexivity|].
    intros t Ht. rewrite (Hwindow t Ht). reflexivity.
Qed.

Lemma analysis_deterministic_given_clock_witness :
  fst (generateInsights utc [Examples.payroll] (ticking Examples.clock1) 0)
  <> fst (generateInsights utc [Examples.payroll]
            (ticking (Examples.clock1 + 1000)%Z) 0).
Proof.
  destruct (analysis_deterministic_given_clock utc [Examples.payroll]
              (ticking Examples.clock1) (ticking (Examples.clock1 + 1000)%Z)
              (generateInsights utc [Examples.payroll]) 0)
    as (_ & _ & Hapart & _).
  - intros k. unfold ticking, Examples.clock1. lia.
  - intros k. unfold ticking, Examples.clock1. lia.
  - unfold analyses. cbn [In]. do 6 right. left. reflexivity.
  - destruct Hapart as [_ Hdiffer].
    + intros j k Hj Hk. vm_compute in Hj.
      unfold ticking, Examples.clock1. lia.
    + apply Hdiffer. vm_compute. discriminate.
Defined.

End ClockProps.
